(** * comiss-es: the commission dashboard ([app.py]) and its reconciliation engine

    A shallow embedding of [app.py] (the Flask application around the
    commission engine) and the statements the specification makes about it.

    Part I holds the model: Python strings, the two regular expressions,
    the file classifier, the currency formatter, the object-store listing,
    data frames, the dashboard context, the routes, and the engine (which is
    imported by [app.py] and modelled from the specification).  Part II holds
    the proofs. *)

From Stdlib Require Import ZArith NArith QArith List String Ascii Lia SpecFloat.
From Stdlib Require Import Sorted Permutation.
From stdpp Require Import base option list gmap.

Local Open Scope N_scope.

(* ===================================================================== *)
(** * Part I.  The model                                                   *)
(* ===================================================================== *)

(** ** Python strings

    A Python [str] is a sequence of Unicode code points.  String literals of
    the source are written as Rocq strings (UTF-8 bytes) and decoded. *)

Definition pystr : Type := list N.

Fixpoint utf8_decode (bs : list N) : pystr :=
  match bs with
  | [] => []
  | b0 :: r0 =>
    if b0 <? 128 then b0 :: utf8_decode r0
    else if b0 <? 224 then
      match r0 with
      | b1 :: r1 => ((b0 - 192) * 64 + (b1 - 128)) :: utf8_decode r1
      | _ => []
      end
    else if b0 <? 240 then
      match r0 with
      | b1 :: b2 :: r2 =>
        ((b0 - 224) * 4096 + (b1 - 128) * 64 + (b2 - 128)) :: utf8_decode r2
      | _ => []
      end
    else
      match r0 with
      | b1 :: b2 :: b3 :: r3 =>
        ((b0 - 240) * 262144 + (b1 - 128) * 4096 + (b2 - 128) * 64 + (b3 - 128))
          :: utf8_decode r3
      | _ => []
      end
  end.

Fixpoint bytes_of_string (s : string) : list N :=
  match s with
  | EmptyString => []
  | String a r => N_of_ascii a :: bytes_of_string r
  end.

(** [py "..."] is the Python string written by the literal. *)
Definition py (s : string) : pystr := utf8_decode (bytes_of_string s).

(** [a == b] on [str]. *)
Definition str_eqb (a b : pystr) : bool := bool_decide (a = b).

(** [s.startswith(p)], the test behind a literal at the head of a pattern. *)
Fixpoint startswith (p s : pystr) : bool :=
  match p, s with
  | [], _ => true
  | _ :: _, [] => false
  | a :: p', b :: s' => (a =? b) && startswith p' s'
  end.

(** [needle in hay]: [needle] occurs in [hay] as a contiguous run. *)
Fixpoint contains (needle hay : pystr) : bool :=
  startswith needle hay ||
  match hay with
  | [] => false
  | _ :: t => contains needle t
  end.

(** [s.replace(old, new)] for one-character [old] and [new]. *)
Definition replace1 (old new : N) (s : pystr) : pystr :=
  List.map (fun c => if c =? old then new else c) s.

(** [sep.join(parts)]. *)
Fixpoint join (sep : pystr) (parts : list pystr) : pystr :=
  match parts with
  | [] => []
  | [p] => p
  | p :: rest => p ++ sep ++ join sep rest
  end.

(** [s.split(sep)] for a one-character separator: the pieces between the
    occurrences of [sep], never an empty list. *)
Fixpoint split1 (sep : N) (s : pystr) : list pystr :=
  match s with
  | [] => [[]]
  | c :: t =>
    if c =? sep then [] :: split1 sep t
    else match split1 sep t with
         | [] => [[c]]
         | p :: ps => (c :: p) :: ps
         end
  end.

(** [a <= b] on [str]: lexicographic on code points. *)
Fixpoint str_leb (a b : pystr) : bool :=
  match a, b with
  | [], _ => true
  | _ :: _, [] => false
  | x :: a', y :: b' => (x <? y) || ((x =? y) && str_leb a' b')
  end.

(** Truthiness of an optional string: [None] and [""] are falsy. *)
Definition or_empty (o : option pystr) : pystr :=
  match o with
  | Some s => s
  | None => []
  end.

(** ** Built-ins whose behaviour is given by the Unicode character database

    [str.lower], [str.strip] and the class [\d] of [re] depend on Unicode
    tables; the development is parametric in them. *)

Class Unicode : Type := {
  lower : pystr -> pystr;
  strip : pystr -> pystr;
  is_digit : N -> bool;
  (* the hyphen-minus is punctuation, not a decimal digit *)
  digit_hyphen : is_digit 45 = false;
}.

(** ** The regular expressions of [app.py]

    Both patterns are a fixed sequence of literals and [\d{n}] runs closed by
    [$].  Without [re.MULTILINE], [$] matches at the end of the string and
    just before a newline that ends the string. *)

Inductive atom : Type :=
| Lit (s : pystr)
| Digits (n : nat).

Section Re.
Context {U : Unicode}.

Fixpoint eat_digits (n : nat) (s : pystr) : option pystr :=
  match n with
  | O => Some s
  | S n' =>
    match s with
    | c :: t => if is_digit c then eat_digits n' t else None
    | [] => None
    end
  end.

Fixpoint eat_lit (l s : pystr) : option pystr :=
  match l with
  | [] => Some s
  | a :: l' =>
    match s with
    | b :: s' => if a =? b then eat_lit l' s' else None
    | [] => None
    end
  end.

(** What is left of [s] once the atoms matched at its head. *)
Fixpoint eat (p : list atom) (s : pystr) : option pystr :=
  match p with
  | [] => Some s
  | Lit l :: p' =>
    match eat_lit l s with
    | Some r => eat p' r
    | None => None
    end
  | Digits n :: p' =>
    match eat_digits n s with
    | Some r => eat p' r
    | None => None
    end
  end.

Definition at_dollar (s : pystr) : bool :=
  match s with
  | [] => true
  | [c] => c =? 10
  | _ => false
  end.

(** [re.match(r"^p$", s)] is not [None]. *)
Definition re_match (p : list atom) (s : pystr) : bool :=
  match eat p s with
  | Some r => at_dollar r
  | None => false
  end.

(** [re.search(r"p$", s)]: the text of [s] from the leftmost position at
    which the pattern matches, or [None]. *)
Fixpoint re_search (p : list atom) (s : pystr) : option pystr :=
  if re_match p s then Some s
  else match s with
       | [] => None
       | _ :: t => re_search p t
       end.

(** [r"^\d{4}-\d{2}$"] *)
Definition re_competencia : list atom := [Digits 4; Lit (py "-"); Digits 2].

(** [r"^df_final_\d{8}_\d{6}\.xlsx$"] *)
Definition re_df_final : list atom :=
  [Lit (py "df_final_"); Digits 8; Lit (py "_"); Digits 6; Lit (py ".xlsx")].

End Re.

(** ** Uploaded files and [classificar_arquivos] *)

Record upload : Type := {
  filename : option pystr;
  stream : list N;
}.

(** The [slots] dictionary: ten keys in insertion order. *)
Definition slots_t : Type := list (pystr * option upload).

Definition slots_iniciais : slots_t :=
  [ (py "pj1", None); (py "seg", None); (py "cam", None); (py "co_ter", None);
    (py "co_xpvp", None); (py "cre", None); (py "xpcs", None);
    (py "lan_man", None); (py "tim_rep", None); (py "lan_pro", None) ].

(** [slots[chave]] *)
Fixpoint slot_get (slots : slots_t) (chave : pystr) : option upload :=
  match slots with
  | [] => None
  | (k, v) :: rest => if str_eqb k chave then v else slot_get rest chave
  end.

(** [slots[chave] = f]: an existing key keeps its place. *)
Fixpoint slot_set (slots : slots_t) (chave : pystr) (f : upload) : slots_t :=
  match slots with
  | [] => [(chave, Some f)]
  | (k, v) :: rest =>
    if str_eqb k chave then (k, Some f) :: rest
    else (k, v) :: slot_set rest chave f
  end.

(** The loop state: [slots] and the set [usados]. *)
Record classif : Type := {
  c_slots : slots_t;
  c_usados : gset pystr;
}.

Section Classificar.
Context {U : Unicode}.

(** [(f.filename or "").lower()] *)
Definition nome_de (f : upload) : pystr := lower (or_empty (filename f)).

(** The closure [marca] of one iteration, for the file [f] named [nome]. *)
Definition marca (f : upload) (nome : pystr) (chave : pystr) (c : classif) : classif :=
  match slot_get (c_slots c) chave with
  | None => {| c_slots := slot_set (c_slots c) chave f;
               c_usados := {[ nome ]} ∪ c_usados c |}
  | Some _ => c
  end.

(** One iteration of the loop over [uploaded_files]. *)
Definition passo (c : classif) (f : upload) : classif :=
  let nome := nome_de f in
  if contains (py "seguro") nome then marca f nome (py "seg") c
  else if contains (py "câmbio") nome || contains (py "cambio") nome then
    marca f nome (py "cam") c
  else if contains (py "terceiras") nome then marca f nome (py "co_ter") c
  else if contains (py "xpvp") nome then marca f nome (py "co_xpvp") c
  else if contains (py "crédito") nome || contains (py "credito") nome then
    marca f nome (py "cre") c
  else if contains (py "xpcs") nome then marca f nome (py "xpcs") c
  else if contains (py "lançamentos manuais") nome
          || contains (py "lancamentos manuais") nome then
    marca f nome (py "lan_man") c
  else if contains (py "times e repasses") nome then marca f nome (py "tim_rep") c
  else if contains (py "lançamento de produtos") nome
          || contains (py "lancamento de produtos") nome then
    marca f nome (py "lan_pro") c
  else c.

Definition laco (uploaded_files : list upload) : classif :=
  fold_left passo uploaded_files
            {| c_slots := slots_iniciais; c_usados := ∅ |}.

(** [[f for f in uploaded_files if (f.filename or "").lower() not in usados]] *)
Definition nao_usados (usados : gset pystr) (uploaded_files : list upload) : list upload :=
  List.filter (fun f => negb (bool_decide (nome_de f ∈ usados))) uploaded_files.

(** [[k for k, v in slots.items() if v is None]] *)
Definition faltando_de (slots : slots_t) : list pystr :=
  List.map fst (List.filter (fun kv => match snd kv with None => true | Some _ => false end) slots).

Definition classificar_arquivos (uploaded_files : list upload) : slots_t * list pystr :=
  let c := laco uploaded_files in
  let slots :=
    match nao_usados (c_usados c) uploaded_files with
    | f :: _ =>
      match slot_get (c_slots c) (py "pj1") with
      | None => slot_set (c_slots c) (py "pj1") f
      | Some _ => c_slots c
      end
    | [] => c_slots c
    end in
  (slots, faltando_de slots).

End Classificar.

(** ** Floats and the format [f"{x:,.2f}"]

    A Python float is a binary64 value, [spec_float]: a signed zero, a signed
    infinity, NaN, or [(-1)^s * m * 2^e].  The format [,.2f] prints the exact
    value rounded half-even to two decimals, with the integer part in groups
    of three. *)

Definition float : Type := spec_float.

(** [pd.isna(valor)] on a float. *)
Definition isna (v : float) : bool :=
  match v with
  | S754_nan => true
  | _ => false
  end.

(** [float(z)] for an integer cell: the nearest binary64, ties to even. *)
Definition float_of_Z (z : Z) : float := binary_normalize 53 1024 z 0 false.

Fixpoint digits_of_uint (u : Decimal.uint) : pystr :=
  match u with
  | Decimal.Nil => []
  | Decimal.D0 r => 48 :: digits_of_uint r
  | Decimal.D1 r => 49 :: digits_of_uint r
  | Decimal.D2 r => 50 :: digits_of_uint r
  | Decimal.D3 r => 51 :: digits_of_uint r
  | Decimal.D4 r => 52 :: digits_of_uint r
  | Decimal.D5 r => 53 :: digits_of_uint r
  | Decimal.D6 r => 54 :: digits_of_uint r
  | Decimal.D7 r => 55 :: digits_of_uint r
  | Decimal.D8 r => 56 :: digits_of_uint r
  | Decimal.D9 r => 57 :: digits_of_uint r
  end.

(** The decimal digits of a natural number, most significant first. *)
Definition digits (n : N) : pystr := digits_of_uint (N.to_uint n).

(** A separator after every third digit, on the digits least significant first. *)
Fixpoint group3_rev (sep : N) (ds : pystr) : pystr :=
  match ds with
  | a :: b :: c :: rest =>
    match rest with
    | [] => [a; b; c]
    | _ :: _ => a :: b :: c :: sep :: group3_rev sep rest
    end
  | _ => ds
  end.

Definition group3 (sep : N) (ds : pystr) : pystr := rev (group3_rev sep (rev ds)).

(** [m * 2^e * 100] rounded to the nearest integer, ties to even. *)
Definition cents (m : positive) (e : Z) : N :=
  match e with
  | Z0 => Npos m * 100
  | Zpos p => Npos m * 2 ^ Npos p * 100
  | Zneg p =>
    let d := 2 ^ Npos p in
    let n := Npos m * 100 in
    let q := n / d in
    let r := n mod d in
    match 2 * r ?= d with
    | Lt => q
    | Gt => q + 1
    | Eq => if N.even q then q else q + 1
    end
  end.

Definition sign_str (s : bool) : pystr := if s then py "-" else [].

(** An amount of [c] hundredths, with [milhar] between the groups of three and
    [decimal] before the two decimals. *)
Definition format_cents (milhar decimal : N) (c : N) : pystr :=
  group3 milhar (digits (c / 100))
    ++ decimal :: [48 + (c mod 100) / 10; 48 + (c mod 100) mod 10].

Definition format_sep (milhar decimal : N) (v : float) : pystr :=
  match v with
  | S754_nan => py "nan"
  | S754_infinity s => sign_str s ++ py "inf"
  | S754_zero s => sign_str s ++ format_cents milhar decimal 0
  | S754_finite s m e => sign_str s ++ format_cents milhar decimal (cents m e)
  end.

(** [f"{valor:,.2f}"] *)
Definition format_2f (v : float) : pystr := format_sep 44 46 v.

(** [brl]: lines 138-141. *)
Definition brl (valor : float) : pystr :=
  let valor := if isna valor then S754_zero false else valor in
  replace1 118 46 (replace1 46 44 (replace1 44 118 (py "R$ " ++ format_2f valor))).

(** ** Data frames

    A [DataFrame] is an ordered list of labelled columns over a row index of
    [nrows] positions; a column is of a number dtype (float64, int64) or not. *)

Inductive column : Type :=
| ColFloat (l : list float)
| ColInt (l : list Z)
| ColObj (l : list pystr).

Record frame : Type := {
  nrows : nat;
  cols : list (pystr * column);
}.

Inductive cell : Type :=
| CFloat (x : float)
| CInt (z : Z)
| CObj (s : pystr).

Definition is_number (c : column) : bool :=
  match c with
  | ColFloat _ | ColInt _ => true
  | ColObj _ => false
  end.

(** [label in df.columns] and [df[label]] *)
Fixpoint coluna (cs : list (pystr * column)) (label : pystr) : option column :=
  match cs with
  | [] => None
  | (n, c) :: rest => if str_eqb n label then Some c else coluna rest label
  end.

(** [df.select_dtypes(include=["number"]).columns] *)
Definition select_number (df : frame) : list pystr :=
  List.map fst (List.filter (fun nc => is_number (snd nc)) (cols df)).

Definition cell_at (c : column) (i : nat) : option cell :=
  match c with
  | ColFloat l => CFloat <$> nth_error l i
  | ColInt l => CInt <$> nth_error l i
  | ColObj l => CObj <$> nth_error l i
  end.

(** [df.to_dict(orient="records")] *)
Definition to_records (df : frame) : list (list (pystr * option cell)) :=
  List.map (fun i => List.map (fun nc => (fst nc, cell_at (snd nc) i)) (cols df))
           (seq 0 (nrows df)).

(** [df.empty] *)
Definition empty_frame (df : frame) : bool :=
  match nrows df, cols df with
  | O, _ => true
  | _, [] => true
  | _, _ => false
  end.

(** What pandas computes: rounding one float64 to two decimals, the
    reductions of a column (as the float that [,.2f] prints; [None] when the
    call raises), HTML rendering and spreadsheet parsing. *)
Class Pandas : Type := {
  round2 : float -> float;
  col_sum : column -> option float;
  col_mean : column -> option float;
  col_max : column -> option float;
  to_html : frame -> pystr;
  read_excel : list N -> option frame;
}.

Section Frames.
Context {P : Pandas}.

(** [Series.round(2)]: integers are left as they are. *)
Definition round_col (c : column) : column :=
  match c with
  | ColFloat l => ColFloat (List.map round2 l)
  | ColInt l => ColInt l
  | ColObj l => ColObj l
  end.

(** [df[colunas] = df[colunas].round(2)], as the new state of [df]. *)
Definition arredondar (colunas : list pystr) (df : frame) : frame :=
  {| nrows := nrows df;
     cols := List.map (fun nc => if bool_decide (fst nc ∈ colunas)
                                 then (fst nc, round_col (snd nc)) else nc)
                      (cols df) |}.

(** [lambda x: f"{x:,.2f}".replace(",", "v").replace(".", ",").replace("v", ".")] *)
Definition formata_celula (x : float) : pystr :=
  replace1 118 46 (replace1 46 44 (replace1 44 118 (format_2f x))).

Definition display_col (c : column) : column :=
  match c with
  | ColFloat l => ColObj (List.map formata_celula l)
  | ColInt l => ColObj (List.map (fun z => formata_celula (float_of_Z z)) l)
  | ColObj l => ColObj l
  end.

(** [df_display]: the copy with every numeric column formatted. *)
Definition display (colunas : list pystr) (df : frame) : frame :=
  {| nrows := nrows df;
     cols := List.map (fun nc => if bool_decide (fst nc ∈ colunas)
                                 then (fst nc, display_col (snd nc)) else nc)
                      (cols df) |}.

End Frames.

(** ** The environment of a request

    What the process reads from outside: environment variables, the Supabase
    bucket, the local file system and the clock. *)

Record world : Type := {
  w_vercel : bool;                                (* os.getenv("VERCEL") is set *)
  w_root_path : pystr;                            (* app.root_path *)
  w_join : pystr -> pystr -> pystr;               (* os.path.join *)
  w_supabase : bool;                              (* supabase is not None *)
  w_list : pystr -> option (list (option pystr)); (* storage.list(path): the "name" of each item; None raises *)
  w_download : pystr -> option (list N);          (* supabase_download_bytes *)
  w_upload_ok : pystr -> bool;                    (* storage.upload(path, ...) returns *)
  w_exists : pystr -> bool;                       (* os.path.exists *)
  w_now : pystr;                                  (* datetime.now().strftime("%Y%m%d_%H%M%S") *)
}.

(** [sorted(l, reverse=True)] on strings: a stable insertion sort. *)
Fixpoint insert_desc (x : pystr) (l : list pystr) : list pystr :=
  match l with
  | [] => [x]
  | y :: t => if str_leb y x then x :: y :: t else y :: insert_desc x t
  end.

Definition sorted_reverse (l : list pystr) : list pystr :=
  fold_right insert_desc [] l.

Section Storage.
Context {U : Unicode}.

(** [_supabase_list]: lines 144-155. *)
Definition _supabase_list (w : world) (path : pystr) : list (option pystr) :=
  if w_supabase w then
    match w_list w path with
    | Some itens => itens
    | None => []
    end
  else [].

(** [listar_competencias]: lines 158-169. *)
Definition listar_competencias (w : world) : list pystr :=
  let itens := _supabase_list w [] in
  let comps := List.filter (re_match re_competencia) (List.map or_empty itens) in
  sorted_reverse comps.

(** [listar_df_final_por_competencia]: lines 172-185. *)
Definition listar_df_final_por_competencia (w : world) (competencia : pystr) : list pystr :=
  let itens := _supabase_list w competencia in
  let arquivos :=
    List.map (fun nome => competencia ++ py "/" ++ nome)
             (List.filter (re_match re_df_final) (List.map or_empty itens)) in
  sorted_reverse arquivos.

(** [escolher_mais_recente_df_final]: lines 188-190. *)
Definition escolher_mais_recente_df_final (w : world) (competencia : pystr) : option pystr :=
  match listar_df_final_por_competencia w competencia with
  | a :: _ => Some a
  | [] => None
  end.

End Storage.

(** ** Objects, effects and responses

    Data frames are objects: a route holds references into a heap, and an
    assignment to a frame changes the object every holder sees.  A request
    leaves a log of what it did outside the heap. *)

Definition ref : Type := nat.

Inductive value : Type :=
| VStr (s : pystr)
| VNat (n : nat)
| VOpt (o : option pystr)
| VStrs (l : list pystr)
| VDict (d : list (pystr * pystr))
| VRecords (rows : list (list (pystr * option cell))).

Inductive event : Type :=
| Flash (msg : pystr)                     (* flash(msg) *)
| Print (msg : pystr)                     (* print(msg, e) *)
| ReadExcel (r : ref)                     (* pd.read_excel(...) gave the new object r *)
| Engine (df_final df_juntar : ref)       (* calcular_comissoes(...) returned *)
| RoundInPlace (r : ref)                  (* df[cols] = df[cols].round(2) on the object r *)
| Makedirs (path : pystr)                 (* os.makedirs(path, exist_ok=True) *)
| ToExcel (path : pystr) (df : frame)     (* df.to_excel(path, index=False) *)
| Upload (path : pystr) (df : frame).     (* upload_df(df, path) *)

Inductive response : Type :=
| Redirect (url : pystr)
| Render (template : pystr) (contexto : gmap pystr value)
| SendFile (path : pystr).

Record state : Type := {
  heap : gmap nat frame;
  log : list event;
}.

(** A computation over the state; [None] is an exception that leaves the route. *)
Definition M (A : Type) : Type := state -> state * option A.

#[global] Instance M_ret : MRet M := fun A a s => (s, Some a).

#[global] Instance M_bind : MBind M := fun A B k c s =>
  match c s with
  | (s', Some a) => k a s'
  | (s', None) => (s', None)
  end.

Definition raise {A : Type} : M A := fun s => (s, None).

Definition emit (e : event) : M unit :=
  fun s => ({| heap := heap s; log := log s ++ [e] |}, Some tt).

Definition lift {A : Type} (o : option A) : M A :=
  match o with
  | Some a => mret a
  | None => raise
  end.

(** Reading the object behind a reference. *)
Definition deref (r : ref) : M frame := fun s => (s, heap s !! r).

(** Assignment into the object behind a reference. *)
Definition assign (r : ref) (df : frame) : M unit :=
  fun s => ({| heap := <[r := df]> (heap s); log := log s |}, Some tt).

(** A new object. *)
Definition alloc (df : frame) : M ref :=
  fun s => let r := fresh (dom (heap s)) in
           ({| heap := <[r := df]> (heap s); log := log s |}, Some r).

Fixpoint mapM {A B : Type} (f : A -> M B) (l : list A) : M (list B) :=
  match l with
  | [] => mret []
  | a :: t => b ← f a; bs ← mapM f t; mret (b :: bs)
  end.

(** [url_for("index")] and [url_for("download_excel", nome=...)], from the
    rules ["/"] and ["/download/<nome>"]. *)
Definition url_index : pystr := py "/".
Definition url_download_excel (nome : pystr) : pystr := py "/download/" ++ nome.

(** ** [OUTPUT_FILES]: lines 60-80 *)

Definition OUTPUT_DIR (w : world) : pystr :=
  if w_vercel w then py "/tmp/outputs"
  else w_join w (w_root_path w) (py "outputs").

(** The entries of the dictionary literal, in the order written. *)
Definition OUTPUT_FILES_itens (w : world) : list (pystr * pystr) :=
  [ (py "df_final", w_join w (OUTPUT_DIR w) (py "df_final.xlsx"));
    (py "df_juntar", w_join w (OUTPUT_DIR w) (py "df_juntar.xlsx"));
    (py "pj1", w_join w (OUTPUT_DIR w) (py "pj1.xlsx"));
    (py "seg", w_join w (OUTPUT_DIR w) (py "seguro_pj.xlsx"));
    (py "cam", w_join w (OUTPUT_DIR w) (py "cambio.xlsx"));
    (py "co_ter", w_join w (OUTPUT_DIR w) (py "co_corretagem_terceiras.xlsx"));
    (py "co_xpvp", w_join w (OUTPUT_DIR w) (py "co_corretagem_xpvp.xlsx"));
    (py "cre", w_join w (OUTPUT_DIR w) (py "credito.xlsx"));
    (py "xpcs", w_join w (OUTPUT_DIR w) (py "xpcs.xlsx"));
    (py "lan_man", w_join w (OUTPUT_DIR w) (py "lancamentos_manuais.xlsx"));
    (py "tim_rep", w_join w (OUTPUT_DIR w) (py "times_repasses.xlsx"));
    (py "lan_pro", w_join w (OUTPUT_DIR w) (py "lancamento_produtos.xlsx")) ].

Definition OUTPUT_FILES (w : world) : gmap pystr pystr :=
  list_to_map (OUTPUT_FILES_itens w).

(** ** [montar_contexto_dashboard]: lines 216-302 *)

Section Dashboard.
Context {U : Unicode} {P : Pandas}.

Definition links_fontes : list (pystr * pystr) :=
  [ (py "PJ1 - Base Principal", url_download_excel (py "pj1"));
    (py "Seguro PJ", url_download_excel (py "seg"));
    (py "Câmbio", url_download_excel (py "cam"));
    (py "Co-corretagem Terceiras", url_download_excel (py "co_ter"));
    (py "Co-corretagem XPVP", url_download_excel (py "co_xpvp"));
    (py "Crédito", url_download_excel (py "cre"));
    (py "XPCS", url_download_excel (py "xpcs"));
    (py "Lançamentos Manuais", url_download_excel (py "lan_man"));
    (py "Times e Repasses", url_download_excel (py "tim_rep"));
    (py "Lançamento de Produtos", url_download_excel (py "lan_pro")) ].

Definition montar_contexto_dashboard (w : world) (df_final : ref)
    (competencia_label : pystr) (caminho_df_final : option pystr)
    (df_juntar : option ref) (tabelas_fontes_dfs : option (list (pystr * ref)))
  : M (gmap pystr value) :=
  (* arredonda numéricos *)
  df ← deref df_final;
  let colunas_numericas := select_number df in
  assign df_final (arredondar colunas_numericas df);;
  emit (RoundInPlace df_final);;
  (* display pt-BR *)
  df ← deref df_final;
  let df_display := display colunas_numericas df in
  let tabela_html := to_html df_display in
  (* métricas *)
  metricas ←
    match coluna (cols df) (py "Valor Total Assessor") with
    | Some c =>
      soma_total ← lift (col_sum c);
      media_total ← lift (col_mean c);
      max_total ← lift (col_max c);
      mret (nrows df, soma_total, media_total, max_total)
    | None => mret (nrows df, S754_zero false, S754_zero false, S754_zero false)
    end;
  let '(total_assessores, soma_total, media_total, max_total) := metricas in
  (* árvore *)
  df_juntar_registros ←
    match df_juntar with
    | Some r =>
      dj ← deref r;
      mret (if empty_frame dj then [] else to_records dj)
    | None => mret []
    end;
  (* fontes (HTML) *)
  tabelas_fontes ←
    match tabelas_fontes_dfs with
    | Some ((_ :: _) as fontes) =>
      mapM (fun nr => d ← deref (snd nr); mret (fst nr, to_html d)) fontes
    | _ => mret []
    end;
  (* para o seletor no resultado.html *)
  let competencias_disponiveis := listar_competencias w in
  let competencia_atual :=
    match caminho_df_final with
    | Some c =>
      if negb (str_eqb c []) && contains (py "/") c
      then head (split1 47 c) else None
    | None => None
    end in
  let arquivos_df_final :=
    match competencia_atual with
    | Some ((_ :: _) as c) => listar_df_final_por_competencia w c
    | _ => []
    end in
  mret (list_to_map
    [ (py "tabela", VStr tabela_html);
      (py "total_assessores", VNat total_assessores);
      (py "soma_total", VStr (brl soma_total));
      (py "media_total", VStr (brl media_total));
      (py "max_total", VStr (brl media_total));
      (py "max_total_val", VStr (brl max_total));
      (py "tabelas_fontes", VDict tabelas_fontes);
      (py "links_fontes", VDict links_fontes);
      (py "df_juntar", VRecords df_juntar_registros);
      (py "caminho_df_final", VOpt caminho_df_final);
      (py "competencia", VStr competencia_label);
      (py "competencias_disponiveis", VStrs competencias_disponiveis);
      (py "competencia_atual", VOpt competencia_atual);
      (py "arquivos_df_final", VStrs arquivos_df_final) ]).

(** [contexto["max_total"] = contexto.pop("max_total_val")]: lines 421, 557. *)
Definition corrigir_max_total (contexto : gmap pystr value) : M (gmap pystr value) :=
  match contexto !! py "max_total_val" with
  | Some v => mret (<[py "max_total" := v]> (delete (py "max_total_val") contexto))
  | None => raise
  end.

End Dashboard.

(** ** The routes *)

(** The engine, [comissoes_backend.calcular_comissoes], is imported: it takes
    the ten source frames and returns [(df_final, df_juntar)], or raises; it
    may create and change objects. *)
Class Backend : Type := {
  calcular_comissoes : gmap nat frame -> list ref -> option (gmap nat frame * (ref * ref));
}.

Record request : Type := {
  form_competencia : option pystr;   (* request.form.get("competencia") *)
  files : list upload;               (* request.files.getlist("files") *)
  args_file : option pystr;          (* request.args.get("file") *)
  args_competencia : option pystr;   (* request.args.get("competencia") *)
}.

Section Routes.
Context {U : Unicode} {P : Pandas} {B : Backend}.

Definition flash_redirect (msgs : list pystr) : M response :=
  mapM (fun m => emit (Flash m)) msgs;;
  mret (Redirect url_index).

(** [pd.read_excel(slots[chave])] *)
Definition ler_slot (slots : slots_t) (chave : pystr) : M ref :=
  f ← lift (slot_get slots chave);
  df ← lift (read_excel (stream f));
  r ← alloc df;
  emit (ReadExcel r);;
  mret r.

Definition chamar_engine (fontes : list ref) : M (ref * ref) :=
  fun s =>
    match calcular_comissoes (heap s) fontes with
    | Some (h, (df_final, df_juntar)) =>
      ({| heap := h; log := log s ++ [Engine df_final df_juntar] |},
       Some (df_final, df_juntar))
    | None => (s, None)
    end.

(** [df.to_excel(path, index=False)] *)
Definition salvar (r : ref) (path : pystr) : M unit :=
  df ← deref r;
  emit (ToExcel path df).

(** The [upload_df] calls of the [try] block, in order: [false] as soon as
    one raises, which skips the rest. *)
Fixpoint upload_todos (w : world) (itens : list (ref * pystr)) : M bool :=
  match itens with
  | [] => mret true
  | (r, path) :: rest =>
    fun s =>
      match heap s !! r with
      | Some df =>
        if w_upload_ok w path
        then (emit (Upload path df);; upload_todos w rest) s
        else (s, Some false)
      | None => (s, Some false)
      end
  end.

(** The names of the ten source files, in the order the code lists them. *)
Definition nomes_fontes : list (pystr * pystr) :=
  [ (py "pj1", py "pj1"); (py "seg", py "seguro_pj"); (py "cam", py "cambio");
    (py "co_ter", py "co_corretagem_terceiras");
    (py "co_xpvp", py "co_corretagem_xpvp"); (py "cre", py "credito");
    (py "xpcs", py "xpcs"); (py "lan_man", py "lancamentos_manuais");
    (py "tim_rep", py "times_repasses"); (py "lan_pro", py "lancamento_produtos") ].

Definition nomes_bonitos : list (pystr * pystr) :=
  [ (py "PJ1 - Base Principal", py "pj1"); (py "Seguro PJ", py "seg");
    (py "Câmbio", py "cam"); (py "Co-corretagem Terceiras", py "co_ter");
    (py "Co-corretagem XPVP", py "co_xpvp"); (py "Crédito", py "cre");
    (py "XPCS", py "xpcs"); (py "Lançamentos Manuais", py "lan_man");
    (py "Times e Repasses", py "tim_rep");
    (py "Lançamento de Produtos", py "lan_pro") ].

(** Lines 452-559 of [processar]: from the ten [pd.read_excel] calls on. *)
Definition processar_completo (w : world) (slots : slots_t)
    (prefixo_competencia competencia_label : pystr) : M response :=
  fontes ← mapM (fun kn => ler_slot slots (fst kn)) nomes_fontes;
  '(df_final, df_juntar) ← chamar_engine fontes;
  (* arredondar *)
  df ← deref df_final;
  let colunas_numericas := select_number df in
  assign df_final (arredondar colunas_numericas df);;
  emit (RoundInPlace df_final);;
  (* salva local (quando não for vercel) *)
  (if negb (w_vercel w) then
     let pasta_competencia := w_join w (OUTPUT_DIR w) prefixo_competencia in
     emit (Makedirs pasta_competencia);;
     p ← lift (OUTPUT_FILES w !! py "df_final"); salvar df_final p;;
     p ← lift (OUTPUT_FILES w !! py "df_juntar"); salvar df_juntar p;;
     mapM (fun rk => p ← lift (OUTPUT_FILES w !! fst (snd rk)); salvar (fst rk) p)
          (zip fontes nomes_fontes);;
     salvar df_final (w_join w pasta_competencia (py "df_final.xlsx"))
   else mret tt);;
  (* upload para o Supabase: df_final + df_juntar + fontes (mesmo timestamp) *)
  nome_arquivo_df_final ←
    ((if w_supabase w then
       let timestamp := w_now w in
       let nome := prefixo_competencia ++ py "/df_final_" ++ timestamp ++ py ".xlsx" in
       (ok ← upload_todos w
              ((df_final, nome)
               :: (df_juntar, prefixo_competencia ++ py "/df_juntar_" ++ timestamp ++ py ".xlsx")
               :: List.map (fun rk => (fst rk, prefixo_competencia ++ py "/" ++ snd (snd rk)
                                                 ++ py "_" ++ timestamp ++ py ".xlsx"))
                           (zip fontes nomes_fontes));
       if (ok : bool) then mret (Some nome)
       else
         emit (Print (py "Erro ao fazer upload para o Supabase:"));;
         emit (Flash (py "Não consegui enviar os Excels para o Supabase. Você ainda pode ver a tabela na tela."));;
         mret None) : M (option pystr)
     else mret None) : M (option pystr));
  (* fontes para aba "Fontes" *)
  let tabelas_fontes_dfs := zip (List.map fst nomes_bonitos) fontes in
  contexto ← montar_contexto_dashboard w df_final competencia_label
                nome_arquivo_df_final (Some df_juntar) (Some tabelas_fontes_dfs);
  (* corrigindo o max_total *)
  contexto ← corrigir_max_total contexto;
  mret (Render (py "resultado.html") contexto).

(** [processar]: lines 426-559. *)
Definition processar (w : world) (req : request) : M response :=
  let arquivos := files req in
  let competencia := strip (or_empty (form_competencia req)) in
  if negb (re_match re_competencia competencia) then
    flash_redirect [py "Selecione a competência (mês/ano) antes de processar."]
  else
    match split1 45 competencia with
    | [ano; mes] =>
      let prefixo_competencia := ano ++ py "-" ++ mes in
      let competencia_label := mes ++ py "/" ++ ano in
      if match arquivos with
         | [] => true
         | f :: _ => bool_decide (filename f = Some [])
         end
      then
        flash_redirect [py "Nenhum arquivo foi enviado. Selecione a pasta ou os arquivos de comissão."]
      else
        let '(slots, faltando) := classificar_arquivos arquivos in
        match faltando with
        | _ :: _ =>
          flash_redirect
            [ py "Não consegui identificar estes tipos de arquivo: " ++ join (py ", ") faltando;
              py "Confira se os nomes contêm: Seguro, Câmbio, Terceiras, XPVP, Crédito, XPCS, Lançamentos Manuais, Times e Repasses, Lançamento de Produtos." ]
        | [] => processar_completo w slots prefixo_competencia competencia_label
        end
    | _ => raise
    end.

End Routes.

Section Visualizar.
Context {U : Unicode} {P : Pandas}.

(** [carregar_excel_do_supabase]: lines 193-213. *)
Definition carregar_excel_do_supabase (w : world) (path : pystr) : M (option ref) :=
  match (if w_supabase w then w_download w path else None) with
  | Some ((_ :: _) as b) =>
    df ← lift (read_excel b);
    r ← alloc df;
    emit (ReadExcel r);;
    mret (Some r)
  | _ => mret None
  end.

(** The loop over [mapping_nomes]: the sources that could be loaded. *)
Fixpoint carregar_fontes (w : world) (comp timestamp : pystr)
    (nomes : list (pystr * pystr)) : M (list (pystr * ref)) :=
  match nomes with
  | [] => mret []
  | (nome_bonito, chave) :: rest =>
    arquivo ← lift (snd <$> List.find (fun kn => str_eqb (fst kn) chave) nomes_fontes);
    df_tmp ← carregar_excel_do_supabase w
                (comp ++ py "/" ++ arquivo ++ py "_" ++ timestamp ++ py ".xlsx");
    resto ← carregar_fontes w comp timestamp rest;
    mret (match df_tmp with
          | Some r => (nome_bonito, r) :: resto
          | None => resto
          end)
  end.

(** Lines 355-423 of [visualizar_antigo]: from loading [file_path] on. *)
Definition visualizar_arquivo (w : world) (file_path competencia : pystr) : M response :=
  (* carrega df_final *)
  o ← carregar_excel_do_supabase w file_path;
  match o with
  | None =>
    emit (Flash (py "Não consegui baixar/ler o Excel selecionado do Supabase."));;
    mret (Redirect url_index)
  | Some df_final =>
    (* df_final_YYYYMMDD_HHMMSS.xlsx  -> timestamp = YYYYMMDD_HHMMSS *)
    let timestamp :=
      match re_search re_df_final file_path with
      | Some m => Some (take 15 (drop 9 m))
      | None => None
      end in
    let comp :=
      if contains (py "/") file_path then default [] (head (split1 47 file_path))
      else competencia in
    competencia_label ←
      (if re_match re_competencia comp then
         mes ← lift (nth_error (split1 45 comp) 1);
         ano ← lift (nth_error (split1 45 comp) 0);
         mret (mes ++ py "/" ++ ano)
       else mret (py "—"));
    carregados ←
      match timestamp with
      | Some ((_ :: _) as ts) =>
        if re_match re_competencia comp then
          df_juntar ← carregar_excel_do_supabase w
                        (comp ++ py "/df_juntar_" ++ ts ++ py ".xlsx");
          fontes ← carregar_fontes w comp ts nomes_bonitos;
          mret (df_juntar, match fontes with [] => None | _ :: _ => Some fontes end)
        else mret (None, None)
      | _ => mret (None, None)
      end;
    let '(df_juntar, tabelas_fontes_dfs) := carregados in
    contexto ← montar_contexto_dashboard w df_final competencia_label
                  (Some file_path) df_juntar tabelas_fontes_dfs;
    (* corrigindo o max_total no contexto *)
    contexto ← corrigir_max_total contexto;
    mret (Render (py "resultado.html") contexto)
  end.

(** [visualizar_antigo]: lines 327-423. *)
Definition visualizar_antigo (w : world) (req : request) : M response :=
  if negb (w_supabase w) then
    emit (Flash (py "Supabase não está configurado. Não consigo listar/abrir arquivos antigos."));;
    mret (Redirect url_index)
  else
    let file_path := strip (or_empty (args_file req)) in
    let competencia := strip (or_empty (args_competencia req)) in
    match file_path with
    | _ :: _ => visualizar_arquivo w file_path competencia
    | [] =>
      if negb (re_match re_competencia competencia) then
        emit (Flash (py "Selecione uma competência válida para visualizar."));;
        mret (Redirect url_index)
      else
        match escolher_mais_recente_df_final w competencia with
        | Some ((_ :: _) as file_path) => visualizar_arquivo w file_path competencia
        | _ =>
          emit (Flash (py "Não encontrei df_final para essa competência no Supabase."));;
          mret (Redirect url_index)
        end
    end.

(** [download_excel]: lines 575-581. *)
Definition download_excel (w : world) (nome : pystr) : M response :=
  match OUTPUT_FILES w !! nome with
  | Some ((_ :: _) as path) =>
    if w_exists w path then mret (SendFile path)
    else
      emit (Flash (py "Arquivo não encontrado para download local."));;
      mret (Redirect url_index)
  | _ =>
    emit (Flash (py "Arquivo não encontrado para download local."));;
    mret (Redirect url_index)
  end.

End Visualizar.

(** ** The other routes *)

Section OtherRoutes.
Context {U : Unicode}.


(** The object [api_arquivos] gives to [jsonify]. *)
Record json_arquivos : Type := {
  j_ok : bool;
  j_files : list pystr;
}.

(** [api_arquivos]: lines 315-324. *)
Definition api_arquivos (w : world) (req : request) : json_arquivos :=
  let comp := strip (or_empty (args_competencia req)) in
  if negb (re_match re_competencia comp) then {| j_ok := false; j_files := [] |}
  else
    let files := listar_df_final_por_competencia w comp in
    {| j_ok := true; j_files := files |}.

(** [download]: lines 566-572. *)
Definition download (w : world) : M response :=
  path ← lift (OUTPUT_FILES w !! py "df_final");
  if negb (w_exists w path) then
    emit (Flash (py "Arquivo df_final.xlsx não existe no servidor (use o download via Supabase)."));;
    mret (Redirect url_index)
  else mret (SendFile path).

(** [download_supabase]: lines 584-598, for the values of the environment
    variables [SUPABASE_URL] and [SUPABASE_BUCKET] read at line 41 and 43. *)
Definition download_supabase (w : world) (SUPABASE_URL : option pystr)
    (SUPABASE_BUCKET : pystr) (req : request) : M response :=
  match args_file req with
  | Some ((_ :: _) as nome_arquivo) =>
    if negb (w_supabase w) || str_eqb (or_empty SUPABASE_URL) []
       || str_eqb SUPABASE_BUCKET []
    then
      emit (Flash (py "Supabase não está configurado. Não foi possível baixar o arquivo."));;
      mret (Redirect url_index)
    else
      let base_public_url :=
        or_empty SUPABASE_URL ++ py "/storage/v1/object/public/" ++ SUPABASE_BUCKET in
      let url_arquivo := base_public_url ++ py "/" ++ nome_arquivo in
      mret (Redirect url_arquivo)
  | _ =>
    emit (Flash (py "Nenhum arquivo informado para download."));;
    mret (Redirect url_index)
  end.

End OtherRoutes.

(** ** The reconciliation engine *)

Module Engine.

(** Modelled from the spec: [calcular_comissoes] is defined in
    [comissoes_backend], which is not among the sources; sections 3 and 4 of
    the specification give its data model and its stages.  The ten source
    kinds, in declaration order. *)
Inductive source_kind : Type :=
| k_pj1 | k_seguro | k_cambio | k_co_terceiras | k_co_xpvp
| k_credito | k_xpcs | k_lancamentos_manuais | k_times_repasses
| k_lancamento_produtos.

(** Modelled from the spec: the fixed ten-kind list of section 4.3, absent
    from the sources. *)
Definition kinds : list source_kind :=
  [ k_pj1; k_seguro; k_cambio; k_co_terceiras; k_co_xpvp;
    k_credito; k_xpcs; k_lancamentos_manuais; k_times_repasses;
    k_lancamento_produtos ].

(** Modelled from the spec: [CanonicalLineItem] of section 3, absent from
    the sources; [amount] is an exact decimal. *)
Record CanonicalLineItem : Type := {
  advisor_key : pystr;
  source_kind_of : source_kind;
  amount : Q;
  period : pystr;
  attributes : list (pystr * pystr);
}.

(** Modelled from the spec: a row of [AdvisorAggregate] (section 3), absent
    from the sources. *)
Record AdvisorAggregate : Type := {
  agg_key : pystr;
  total_amount : Q;
}.

Section Stages.

(** Modelled from the spec: the raw rows of a source table and the per-kind
    Source Normalizer of section 4.1, absent from the sources; a row that
    cannot be normalized is excluded. *)
Variable raw_row : Type.
Variable normalizar : source_kind -> pystr -> raw_row -> option CanonicalLineItem.

(** Modelled from the spec: the Joiner of section 4.3, absent from the
    sources: the normalized rows of the ten sources, in kind declaration
    order and then in row order, none deduplicated. *)
Definition juntar (competencia : pystr) (tabelas : source_kind -> list raw_row)
  : list CanonicalLineItem :=
  concat (List.map (fun k => omap (normalizar k competencia) (tabelas k)) kinds).

(** Modelled from the spec: one step of the Aggregator's grouping, absent
    from the sources: the amount joins the row of its advisor, or opens one. *)
Fixpoint acumular (agg : list AdvisorAggregate) (k : pystr) (a : Q) : list AdvisorAggregate :=
  match agg with
  | [] => [ {| agg_key := k; total_amount := a |} ]
  | row :: rest =>
    if str_eqb (agg_key row) k
    then {| agg_key := k; total_amount := (total_amount row + a)%Q |} :: rest
    else row :: acumular rest k a
  end.

(** Modelled from the spec: the Aggregator of section 4.4, absent from the
    sources: group the ledger by [advisor_key] and sum [amount], exactly. *)
Definition agregar (ledger : list CanonicalLineItem) : list AdvisorAggregate :=
  fold_left (fun agg it => acumular agg (advisor_key it) (amount it)) ledger [].

(** Modelled from the spec: the engine of section 6, absent from the
    sources: [(df_final, df_juntar)] before the rounding at emission. *)
Definition calcular_comissoes (competencia : pystr) (tabelas : source_kind -> list raw_row)
  : list AdvisorAggregate * list CanonicalLineItem :=
  let df_juntar := juntar competencia tabelas in
  (agregar df_juntar, df_juntar).

End Stages.

(** [sum(amount)] over a ledger and [sum(total_amount)] over an aggregate. *)
Definition soma_ledger (l : list CanonicalLineItem) : Q :=
  fold_right (fun it acc => (amount it + acc)%Q) 0%Q l.

Definition soma_agregado (l : list AdvisorAggregate) : Q :=
  fold_right (fun row acc => (total_amount row + acc)%Q) 0%Q l.

(** The ledger rows of one advisor and the aggregate row of one advisor. *)
Definition linhas_de (k : pystr) (l : list CanonicalLineItem) : list CanonicalLineItem :=
  List.filter (fun it => str_eqb (advisor_key it) k) l.

Definition total_de (k : pystr) (agg : list AdvisorAggregate) : option Q :=
  total_amount <$> List.find (fun row => str_eqb (agg_key row) k) agg.

(** The total credited to an advisor, zero when the advisor has no row. *)
Definition valor (k : pystr) (agg : list AdvisorAggregate) : Q :=
  from_option id 0%Q (total_de k agg).

Definition passo_agregar (agg : list AdvisorAggregate) (it : CanonicalLineItem)
  : list AdvisorAggregate :=
  acumular agg (advisor_key it) (amount it).

End Engine.

(** ** Reference instances

    The Unicode tables restricted to Basic Latin and the Latin-1 Supplement,
    to run the model on concrete inputs. *)

Definition lower_latin1 (s : pystr) : pystr :=
  List.map (fun c =>
    if ((65 <=? c) && (c <=? 90)) || ((192 <=? c) && (c <=? 222) && negb (c =? 215))
    then c + 32 else c) s.

Definition is_space_latin1 (c : N) : bool :=
  ((9 <=? c) && (c <=? 13)) || ((28 <=? c) && (c <=? 32)) || (c =? 133) || (c =? 160).

Fixpoint lstrip_latin1 (s : pystr) : pystr :=
  match s with
  | [] => []
  | c :: t => if is_space_latin1 c then lstrip_latin1 t else s
  end.

Definition strip_latin1 (s : pystr) : pystr :=
  rev (lstrip_latin1 (rev (lstrip_latin1 s))).

Definition unicode_latin1 : Unicode :=
  {| lower := lower_latin1;
     strip := strip_latin1;
     is_digit := fun c => (48 <=? c) && (c <=? 57);
     digit_hyphen := eq_refl |}.

(** A reference [Pandas]: numpy's rounding of a float64 to two decimals
    (multiply by 100, round to the nearest integer with ties to even, divide
    by 100), left-to-right reductions that skip NaN, a plain rendering, and a
    toy spreadsheet format: after a leading 0 byte the bytes are the eighths
    of an aggregate's totals, otherwise they are the cells of a source. *)

Definition rint (x : float) : float :=
  match x with
  | S754_finite s m (Zneg p) =>
    let d := 2 ^ Npos p in
    let q := Npos m / d in
    let r := Npos m mod d in
    let n := match 2 * r ?= d with
             | Lt => q
             | Gt => q + 1
             | Eq => if N.even q then q else q + 1
             end in
    match n with
    | 0 => S754_zero s
    | Npos k => binary_normalize 53 1024 (if s then Zneg k else Zpos k) 0 s
    end
  | _ => x
  end.

Definition round2_numpy (x : float) : float :=
  SFdiv 53 1024 (rint (SFmul 53 1024 x (float_of_Z 100))) (float_of_Z 100).

Definition floats_of (c : column) : option (list float) :=
  match c with
  | ColFloat l => Some (List.filter (fun x => negb (isna x)) l)
  | ColInt l => Some (List.map float_of_Z l)
  | ColObj _ => None
  end.

Definition soma_floats (l : list float) : float :=
  fold_left (SFadd 53 1024) l (S754_zero false).

Definition max_floats (l : list float) : float :=
  match l with
  | [] => S754_nan
  | x :: t => fold_left (fun m y => if SFltb m y then y else m) t x
  end.

Definition html_de (df : frame) : pystr :=
  py "<table>" ++
  concat (List.map (fun nc =>
            py "<th>" ++ fst nc ++ py "</th>" ++
            match snd nc with
            | ColFloat l => concat (List.map (fun x => py "<td>" ++ format_2f x) l)
            | ColInt l => concat (List.map (fun z => py "<td>" ++ format_2f (float_of_Z z)) l)
            | ColObj l => concat (List.map (fun x => py "<td>" ++ x) l)
            end) (cols df))
  ++ py "</table>".

Definition pandas_ref : Pandas :=
  {| round2 := round2_numpy;
     col_sum := fun c => soma_floats <$> floats_of c;
     col_mean := fun c =>
       (fun l => SFdiv 53 1024 (soma_floats l) (float_of_Z (Z.of_nat (length l))))
         <$> floats_of c;
     col_max := fun c => max_floats <$> floats_of c;
     to_html := html_de;
     read_excel := fun b =>
       match b with
       | [] => None
       | 0 :: t =>
         Some {| nrows := length t;
                 cols := [(py "Assessor",
                           ColObj (List.map (fun i => py "A" ++ digits (N.of_nat i))
                                            (seq 1 (length t))));
                          (py "Valor Total Assessor",
                           ColFloat (List.map (fun n => binary_normalize 53 1024
                                                          (Z.of_N n) (-3) false) t))] |}
       | _ :: _ => Some {| nrows := length b;
                           cols := [(py "Valor", ColInt (List.map Z.of_N b))] |}
       end |}.

(** A stand-in engine: one advisor per source, credited with the eighths of
    the source's [Valor] cells. *)
Definition soma_valor (df : frame) : Z :=
  match coluna (cols df) (py "Valor") with
  | Some (ColInt l) => fold_right Z.add 0%Z l
  | _ => 0%Z
  end.

Definition backend_ref : Backend :=
  {| calcular_comissoes := fun h fontes =>
       if bool_decide (length fontes = 10%nat) then
         let totais := List.map (fun r => from_option soma_valor 0%Z (h !! r)) fontes in
         let nomes := List.map (fun i => py "A" ++ digits (N.of_nat i))
                               (seq 1 (length fontes)) in
         let df_juntar := {| nrows := length fontes;
                             cols := [(py "Assessor", ColObj nomes);
                                      (py "Valor", ColInt totais)] |} in
         let df_final :=
           {| nrows := length fontes;
              cols := [(py "Assessor", ColObj nomes);
                       (py "Valor Total Assessor",
                        ColFloat (List.map (fun z => binary_normalize 53 1024 z (-3) false)
                                           totais))] |} in
         let r1 := fresh (dom h) in
         let h1 := <[r1 := df_final]> h in
         let r2 := fresh (dom h1) in
         Some (<[r2 := df_juntar]> h1, (r1, r2))
       else None |}.




(** A stand-in environment: a local run with a bucket that holds two
    aggregates of December 2025. *)
Definition path_join_posix (a b : pystr) : pystr :=
  if startswith (py "/") b then b
  else match rev a with
       | [] => b
       | c :: _ => if c =? 47 then a ++ b else a ++ py "/" ++ b
       end.

Definition world_ref : world :=
  {| w_vercel := false;
     w_root_path := py "/app";
     w_join := path_join_posix;
     w_supabase := true;
     w_list := fun path =>
       if str_eqb path (py "2025-12") then
         Some [ Some (py "df_final_20251201_101500.xlsx");
                Some (py "notas.txt");
                Some (py "df_final_20251215_083000.xlsx");
                None ]
       else if str_eqb path [] then Some [Some (py "2025-12"); Some (py "2025-11")]
       else Some [];
     w_download := fun path =>
       if str_eqb path (py "2025-12/df_final_20251215_083000.xlsx") then Some [0; 3; 5; 8]
       else None;
     w_upload_ok := fun _ => true;
     w_exists := fun _ => false;
     w_now := py "20251231_235959" |}.

Definition estado_inicial : state := {| heap := ∅; log := [] |}.

Definition arquivo (nome : string) (conteudo : list N) : upload :=
  {| filename := Some (py nome); stream := conteudo |}.

(** A complete upload batch: one file per slot. *)
Definition lote_completo : list upload :=
  [ arquivo "Base PJ1 dezembro.xlsx" [1; 2];
    arquivo "Seguro PJ.xlsx" [3];
    arquivo "Cambio.xlsx" [4];
    arquivo "Co-corretagem Terceiras.xlsx" [5];
    arquivo "Co-corretagem XPVP.xlsx" [6];
    arquivo "Credito.xlsx" [7];
    arquivo "XPCS.xlsx" [8];
    arquivo "Lancamentos Manuais.xlsx" [9];
    arquivo "Times e Repasses.xlsx" [10];
    arquivo "Lancamento de Produtos.xlsx" [11; 12] ].

Definition pedido_processar (lote : list upload) : request :=
  {| form_competencia := Some (py "2025-12");
     files := lote;
     args_file := None;
     args_competencia := None |}.

(** ** The precedence of the classifier, as a table

    Each entry: the keywords of one [if]/[elif] test and the slot it marks. *)

Definition precedencia : list (list pystr * pystr) :=
  [ ([py "seguro"], py "seg");
    ([py "câmbio"; py "cambio"], py "cam");
    ([py "terceiras"], py "co_ter");
    ([py "xpvp"], py "co_xpvp");
    ([py "crédito"; py "credito"], py "cre");
    ([py "xpcs"], py "xpcs");
    ([py "lançamentos manuais"; py "lancamentos manuais"], py "lan_man");
    ([py "times e repasses"], py "tim_rep");
    ([py "lançamento de produtos"; py "lancamento de produtos"], py "lan_pro") ].

(** An entry matches a name when one of its keywords occurs in it. *)
Definition casa (nome : pystr) (e : list pystr * pystr) : bool :=
  existsb (fun kw => contains kw nome) (fst e).

(** The slot of the first entry that matches. *)
Definition primeira_chave (nome : pystr) : option pystr :=
  snd <$> List.find (casa nome) precedencia.

(** The first file, in upload order, whose name goes to the slot [chave]. *)
Definition primeiro_arquivo {U : Unicode} (chave : pystr) (arquivos : list upload)
  : option upload :=
  List.find (fun f => bool_decide (primeira_chave (nome_de f) = Some chave)) arquivos.

(** The files sitting in some slot. *)
Definition atribuido (slots : slots_t) (f : upload) : Prop :=
  exists chave, slot_get slots chave = Some f.

(** ** Notions used in the statements *)

(** The amount in the Brazilian convention: two decimals, ['.'] between the
    thousands and [','] before the decimals. *)
Definition formato_ptbr (v : float) : pystr := format_sep 46 44 v.

(** What the three [replace] calls do to one character. *)
Definition troca (c : N) : N :=
  let c := if c =? 44 then 118 else c in
  let c := if c =? 46 then 44 else c in
  if c =? 118 then 46 else c.

(** The run [YYYYMMDD_HHMMSS] embedded in a listed path
    [competencia/df_final_YYYYMMDD_HHMMSS.xlsx]. *)
Definition carimbo (competencia path : pystr) : pystr :=
  take 15 (drop (length competencia + 10) path).

(** [a] is at least as recent as [b]. *)
Definition mais_recente (competencia a b : pystr) : Prop :=
  str_leb (carimbo competencia b) (carimbo competencia a) = true.

(** Computations that leave the state as it is. *)
Definition puro {A : Type} (c : M A) : Prop := forall s, fst (c s) = s.

(** What the result page is given: the table and the maximum of the frame
    behind [df_final], and no [max_total_val]. *)
Definition pagina_de `{Pandas} (df : frame) (ctx : gmap pystr value) : Prop :=
  ctx !! py "tabela" = Some (VStr (to_html (display (select_number df) df)))
  /\ ctx !! py "max_total_val" = None
  /\ match coluna (cols df) (py "Valor Total Assessor") with
     | Some c => exists m, col_max c = Some m
                           /\ ctx !! py "max_total" = Some (VStr (brl m))
     | None => ctx !! py "max_total" = Some (VStr (brl (S754_zero false)))
     end.

(** A computation that adds to the log only events of the kind [Q], and one
    that leaves the heap as it is. *)
Definition emite (Q : event -> Prop) {A : Type} (c : M A) : Prop :=
  forall s s' o, c s = (s', o) ->
    exists evs, log s' = log s ++ evs /\ Forall Q evs.

Definition conserva {A : Type} (c : M A) : Prop :=
  forall s s' o, c s = (s', o) -> heap s' = heap s.

(** The kinds of events: reading a spreadsheet, writing a local file,
    reporting to the bucket or to the user. *)
Definition e_leitura (e : event) : Prop :=
  match e with ReadExcel _ => True | _ => False end.

Definition e_gravacao (e : event) : Prop :=
  match e with Makedirs _ | ToExcel _ _ => True | _ => False end.

Definition e_envio (e : event) : Prop :=
  match e with Upload _ _ | Print _ | Flash _ => True | _ => False end.



(** The keys of the context given to [resultado.html]. *)
Definition chaves_da_pagina : list pystr :=
  [ py "tabela"; py "total_assessores"; py "soma_total"; py "media_total";
    py "max_total"; py "tabelas_fontes"; py "links_fontes"; py "df_juntar";
    py "caminho_df_final"; py "competencia"; py "competencias_disponiveis";
    py "competencia_atual"; py "arquivos_df_final" ].

(** The local paths written and the bucket paths uploaded, in the order of
    the log; the directories created. *)
Definition gravados (l : list event) : list pystr :=
  omap (fun e => match e with ToExcel p _ => Some p | _ => None end) l.

Definition criadas (l : list event) : list pystr :=
  omap (fun e => match e with Makedirs p => Some p | _ => None end) l.

Definition enviados (l : list event) : list pystr :=
  omap (fun e => match e with Upload p _ => Some p | _ => None end) l.

(** The bucket paths of one run of [processar]: lines 513-527. *)
Definition destinos (prefixo timestamp : pystr) : list pystr :=
  (prefixo ++ py "/df_final_" ++ timestamp ++ py ".xlsx")
  :: (prefixo ++ py "/df_juntar_" ++ timestamp ++ py ".xlsx")
  :: List.map (fun kn => prefixo ++ py "/" ++ snd kn ++ py "_" ++ timestamp ++ py ".xlsx")
              nomes_fontes.

(** What [carregar_excel_do_supabase] gets to parse for a path: the bytes
    the bucket gives, when there is a client and they are not empty. *)
Definition baixado (w : world) (path : pystr) : option (list N) :=
  match (if w_supabase w then w_download w path else None) with
  | Some ((_ :: _) as b) => Some b
  | _ => None
  end.



(** The labels of the sources whose stored copy can be loaded, for the
    bucket paths given with them. *)
Definition rotulo_se_baixado (w : world) (path label : pystr) : option pystr :=
  match baixado w path with
  | Some _ => Some label
  | None => None
  end.

Definition disponiveis (w : world) (itens : list (pystr * pystr)) : list pystr :=
  omap (fun lp => rotulo_se_baixado w (snd lp) (fst lp)) itens.

(** Two concrete requests: a complete batch for December 2025, and a view of
    the newest aggregate stored for that month. *)
Definition execucao_exemplo : state * option response :=
  @processar unicode_latin1 pandas_ref backend_ref world_ref
    (pedido_processar lote_completo) estado_inicial.

Definition visualizacao_exemplo : state * option response :=
  @visualizar_antigo unicode_latin1 pandas_ref world_ref
    {| form_competencia := None; files := [];
       args_file := None; args_competencia := Some (py " 2025-12 ") |}
    estado_inicial.

(** The context of a rendered page. *)
Definition contexto_de (o : option response) : gmap pystr value :=
  match o with
  | Some (Render _ c) => c
  | _ => ∅
  end.

(** An aggregate with a text column, a float column and an integer column. *)
Definition frame_exemplo : frame :=
  {| nrows := 2;
     cols := [ (py "Assessor", ColObj [py "A1"; py "A2"]);
               (py "Valor Total Assessor",
                ColFloat [ binary_normalize 53 1024 1201 (-3) false;
                           binary_normalize 53 1024 799 (-3) false ]);
               (py "Clientes", ColInt [3%Z; 4%Z]) ] |}.

Definition estado_exemplo : state :=
  {| heap := {[ 0%nat := frame_exemplo ]}; log := [] |}.

(** Two more stand-in environments: [world_ref] with every listing of the
    bucket in the opposite order, and [world_ref] with one more stored
    object, a spreadsheet outside the competence folders. *)
Definition world_invertido : world :=
  {| w_vercel := w_vercel world_ref;
     w_root_path := w_root_path world_ref;
     w_join := w_join world_ref;
     w_supabase := w_supabase world_ref;
     w_list := fun path => @List.rev (option pystr) <$> w_list world_ref path;
     w_download := w_download world_ref;
     w_upload_ok := w_upload_ok world_ref;
     w_exists := w_exists world_ref;
     w_now := w_now world_ref |}.


(** A view of one stored aggregate by its path, and of the spreadsheet
    outside the folders. *)
Definition pedido_visualizar (caminho : string) : request :=
  {| form_competencia := None; files := [];
     args_file := Some (py caminho); args_competencia := None |}.

(* ===================================================================== *)
(** * Part II.  The proofs                                                 *)
(* ===================================================================== *)

Arguments py : simpl never.

(** ** The model on small inputs *)

Example py_cambio : py "câmbio" = [99; 226; 109; 98; 105; 111].
Proof. reflexivity. Qed.

Example split1_path : split1 47 (py "2025-12/df_final_x") = [py "2025-12"; py "df_final_x"].
Proof. reflexivity. Qed.

Example brl_1234_5 : brl (S754_finite false 2469 (-1)) = py "R$ 1.234,50".
Proof. reflexivity. Qed.

Example brl_neg_million : brl (S754_finite true 1000000 0) = py "R$ -1.000.000,00".
Proof. reflexivity. Qed.

Example brl_eighth : brl (S754_finite false 1 (-3)) = py "R$ 0,12".
Proof. reflexivity. Qed.

(** ** The classifier *)

Lemma str_eqb_true (a b : pystr) : str_eqb a b = true <-> a = b.
Proof. unfold str_eqb. apply bool_decide_eq_true. Qed.

Lemma str_eqb_false (a b : pystr) : str_eqb a b = false <-> a <> b.
Proof. unfold str_eqb. apply bool_decide_eq_false. Qed.

Lemma str_eqb_refl (a : pystr) : str_eqb a a = true.
Proof. by apply str_eqb_true. Qed.

Lemma slot_get_set_eq (slots : slots_t) (k : pystr) (f : upload) :
  slot_get (slot_set slots k f) k = Some f.
Proof.
  induction slots as [|[k' v] rest IH]; simpl.
  - by rewrite str_eqb_refl.
  - destruct (str_eqb k' k) eqn:E; simpl; rewrite E; auto.
Qed.

Lemma slot_get_set_ne (slots : slots_t) (k k' : pystr) (f : upload) :
  k <> k' -> slot_get (slot_set slots k f) k' = slot_get slots k'.
Proof.
  intros Hne. induction slots as [|[k0 v] rest IH]; simpl.
  - apply str_eqb_false in Hne. by rewrite Hne.
  - destruct (str_eqb k0 k) eqn:E; simpl.
    + apply str_eqb_true in E; subst k0.
      apply str_eqb_false in Hne. by rewrite Hne.
    + destruct (str_eqb k0 k'); auto.
Qed.

Lemma slot_set_keys (slots : slots_t) (k : pystr) (f : upload) :
  In k (List.map fst slots) ->
  List.map fst (slot_set slots k f) = List.map fst slots.
Proof.
  induction slots as [|[k0 v] rest IH]; simpl; [tauto|].
  intros [->|Hin].
  - by rewrite str_eqb_refl.
  - destruct (str_eqb k0 k); simpl; [done|]. by rewrite IH.
Qed.

Section ClassifierFacts.
Context {U : Unicode}.

(** The [if]/[elif] chain is the first match in the precedence table. *)
Lemma passo_precedencia (c : classif) (f : upload) :
  passo c f =
  match primeira_chave (nome_de f) with
  | Some chave => marca f (nome_de f) chave c
  | None => c
  end.
Proof.
  unfold passo, primeira_chave, precedencia, casa.
  cbn [List.find existsb fst snd].
  rewrite ?orb_false_r.
  repeat (match goal with
          | |- context [contains ?k ?n] => destruct (contains k n)
          end; cbn; try reflexivity).
Qed.

(** The slot keys of the table, and the base slot, which is not one of them. *)
Lemma chaves_precedencia (nome chave : pystr) :
  primeira_chave nome = Some chave -> In chave (List.map snd precedencia).
Proof.
  unfold primeira_chave. destruct (List.find _ _) as [e|] eqn:E; [|done].
  intros [= <-]. apply find_some in E as [Hin _]. by apply in_map.
Qed.

Lemma pj1_fora_da_precedencia : ~ In (py "pj1") (List.map snd precedencia).
Proof. vm_compute. intuition discriminate. Qed.

Lemma marca_slot (f : upload) (nome chave k : pystr) (c : classif) :
  slot_get (c_slots (marca f nome chave c)) k =
  match slot_get (c_slots c) k with
  | Some g => Some g
  | None => if str_eqb chave k then Some f else None
  end.
Proof.
  unfold marca. destruct (str_eqb chave k) eqn:E.
  - apply str_eqb_true in E; subst k.
    destruct (slot_get (c_slots c) chave) eqn:G; simpl; [by rewrite G|].
    by rewrite slot_get_set_eq.
  - apply str_eqb_false in E.
    destruct (slot_get (c_slots c) chave) eqn:G; simpl.
    + by destruct (slot_get (c_slots c) k).
    + rewrite slot_get_set_ne by done. by destruct (slot_get (c_slots c) k).
Qed.

Lemma passo_slot (c : classif) (f : upload) (k : pystr) :
  slot_get (c_slots (passo c f)) k =
  match slot_get (c_slots c) k with
  | Some g => Some g
  | None => if bool_decide (primeira_chave (nome_de f) = Some k) then Some f else None
  end.
Proof.
  rewrite passo_precedencia.
  destruct (primeira_chave (nome_de f)) as [chave|] eqn:E.
  - rewrite marca_slot. destruct (slot_get (c_slots c) k); [done|].
    destruct (str_eqb chave k) eqn:Ek.
    + apply str_eqb_true in Ek; subst. by rewrite bool_decide_eq_true_2.
    + apply str_eqb_false in Ek. rewrite bool_decide_eq_false_2; [done|congruence].
  - rewrite bool_decide_eq_false_2 by done. by destruct (slot_get (c_slots c) k).
Qed.

Lemma fold_passo_slot (arquivos : list upload) (c : classif) (k : pystr) :
  slot_get (c_slots (fold_left passo arquivos c)) k =
  match slot_get (c_slots c) k with
  | Some g => Some g
  | None => primeiro_arquivo k arquivos
  end.
Proof.
  revert c. induction arquivos as [|f rest IH]; intros c; simpl.
  - by destruct (slot_get (c_slots c) k).
  - rewrite IH, passo_slot.
    destruct (slot_get (c_slots c) k); [done|].
    by destruct (bool_decide _).
Qed.

Lemma slots_iniciais_vazios (k : pystr) : slot_get slots_iniciais k = None.
Proof.
  unfold slots_iniciais; simpl.
  repeat (destruct (str_eqb _ k); [done|]). done.
Qed.

Lemma laco_slot (arquivos : list upload) (k : pystr) :
  slot_get (c_slots (laco arquivos)) k = primeiro_arquivo k arquivos.
Proof. unfold laco. rewrite fold_passo_slot. simpl c_slots. by rewrite slots_iniciais_vazios. Qed.

Lemma primeiro_arquivo_fora (arquivos : list upload) (k : pystr) :
  ~ In k (List.map snd precedencia) -> primeiro_arquivo k arquivos = None.
Proof.
  intros Hk. unfold primeiro_arquivo.
  induction arquivos as [|f rest IH]; simpl; [done|].
  rewrite bool_decide_eq_false_2; [done|].
  intros E. by apply chaves_precedencia in E.
Qed.

End ClassifierFacts.

Lemma find_primeiro {A : Type} (P : A -> bool) (l : list A) (i : nat) (e : A) :
  l !! i = Some e -> P e = true ->
  (forall j e', (j < i)%nat -> l !! j = Some e' -> P e' = false) ->
  List.find P l = Some e.
Proof.
  revert i. induction l as [|x l IH]; intros i Hi He Hprev; [done|].
  destruct i as [|i]; simpl in *.
  - injection Hi as ->. by rewrite He.
  - rewrite (Hprev 0%nat x) by (done || lia).
    apply (IH i); [done..|].
    intros j e' Hj He'. apply (Hprev (S j)); [lia|done].
Qed.

Section ClassifierClaims.
Context {U : Unicode}.

(** C4.  Keyword classification with fixed precedence: each file's lowercased
    name is tested against the keywords in the fixed order seguro,
    câmbio/cambio, terceiras, xpvp, crédito/credito, xpcs, lançamentos/lancamentos
    manuais, times e repasses, lançamento/lancamento de produtos; the file
    goes to the slot of the first entry that matches, and only if that slot
    is still empty; of two entries that match, the earlier wins; in the end
    each keyword slot holds the first file, in upload order, that goes to it. *)
Theorem classificacao_por_precedencia (arquivos : list upload) :
  List.map snd precedencia =
    [py "seg"; py "cam"; py "co_ter"; py "co_xpvp"; py "cre"; py "xpcs";
     py "lan_man"; py "tim_rep"; py "lan_pro"]
  /\ (forall c f,
        passo c f =
        match primeira_chave (nome_de f) with
        | Some chave => marca f (nome_de f) chave c
        | None => c
        end)
  /\ (forall c f chave,
        match slot_get (c_slots c) chave with
        | None => slot_get (c_slots (marca f (nome_de f) chave c)) chave = Some f
        | Some _ => marca f (nome_de f) chave c = c
        end)
  /\ (forall nome i e,
        precedencia !! i = Some e -> casa nome e = true ->
        (forall j e', (j < i)%nat -> precedencia !! j = Some e' -> casa nome e' = false) ->
        primeira_chave nome = Some (snd e))
  /\ Forall (fun e =>
        slot_get (fst (classificar_arquivos arquivos)) (snd e)
        = primeiro_arquivo (snd e) arquivos) precedencia.
Proof.
  split; [reflexivity|]. split; [apply passo_precedencia|]. split; [|split].
  - intros c f chave. destruct (slot_get (c_slots c) chave) eqn:E.
    + unfold marca. by rewrite E.
    + rewrite marca_slot, E. by rewrite str_eqb_refl.
  - intros nome i e Hi He Hprev. unfold primeira_chave.
    by rewrite (find_primeiro (casa nome) precedencia i e).
  - apply List.Forall_forall. intros e He.
    assert (Hk : py "pj1" <> snd e).
    { intros Heq. apply pj1_fora_da_precedencia. rewrite Heq. by apply in_map. }
    unfold classificar_arquivos; simpl fst.
    destruct (nao_usados _ _) as [|f ?]; [apply laco_slot|].
    destruct (slot_get (c_slots (laco arquivos)) (py "pj1")).
    + apply laco_slot.
    + rewrite slot_get_set_ne by done. apply laco_slot.
Qed.

(** The names in [usados] are the names of the files in the slots. *)
Lemma fold_passo_usados (arquivos : list upload) (c : classif) :
  (forall n, n ∈ c_usados c <->
             exists k g, slot_get (c_slots c) k = Some g /\ nome_de g = n) ->
  forall n, n ∈ c_usados (fold_left passo arquivos c) <->
            exists k g, slot_get (c_slots (fold_left passo arquivos c)) k = Some g
                        /\ nome_de g = n.
Proof.
  revert c. induction arquivos as [|f rest IH]; intros c Hc; [exact Hc|].
  simpl. apply IH. clear IH. intros n.
  rewrite passo_precedencia.
  destruct (primeira_chave (nome_de f)) as [chave|]; [|apply Hc].
  unfold marca. destruct (slot_get (c_slots c) chave) eqn:E; [apply Hc|].
  simpl. rewrite elem_of_union, elem_of_singleton, Hc. split.
  - intros [->|(k & g & Hk & Hn)].
    + exists chave, f. by rewrite slot_get_set_eq.
    + exists k, g. split; [|done].
      rewrite slot_get_set_ne; [done|]. intros ->. congruence.
  - intros (k & g & Hk & Hn).
    destruct (decide (chave = k)) as [->|Hne].
    + rewrite slot_get_set_eq in Hk. injection Hk as <-. by left.
    + rewrite slot_get_set_ne in Hk by done. right. by exists k, g.
Qed.

Lemma laco_usados (arquivos : list upload) (n : pystr) :
  n ∈ c_usados (laco arquivos) <->
  exists k g, slot_get (c_slots (laco arquivos)) k = Some g /\ nome_de g = n.
Proof.
  apply fold_passo_usados. intros m; cbn [c_slots c_usados]. split.
  - intros H. by apply not_elem_of_empty in H.
  - intros (k & g & Hk & _). by rewrite slots_iniciais_vazios in Hk.
Qed.

Lemma primeiro_arquivo_some (arquivos : list upload) (k : pystr) (g : upload) :
  primeiro_arquivo k arquivos = Some g ->
  In g arquivos /\ primeira_chave (nome_de g) = Some k.
Proof.
  unfold primeiro_arquivo. intros H. apply find_some in H as [Hin Hk].
  split; [done|]. by apply bool_decide_eq_true in Hk.
Qed.

Lemma nao_usados_spec (arquivos : list upload) (f : upload) :
  In f (nao_usados (c_usados (laco arquivos)) arquivos) <->
  In f arquivos /\
  ~ exists k g, slot_get (c_slots (laco arquivos)) k = Some g /\ nome_de g = nome_de f.
Proof.
  unfold nao_usados. rewrite filter_In, negb_true_iff, bool_decide_eq_false.
  by rewrite laco_usados.
Qed.

(** C3, as amended.  The fallback gives the base slot to one file only: the
    first uploaded file whose lowercased name is not the name of a file that
    filled a keyword slot.  Every file that matches no keyword is such a
    candidate, so the base slot is filled whenever some file is unmatched;
    the keyword slots are left as the loop filled them, and every slot holds
    an uploaded file. *)
Theorem fallback_primeiro_nao_usado (arquivos : list upload) :
  let slots := fst (classificar_arquivos arquivos) in
  let candidatos := nao_usados (c_usados (laco arquivos)) arquivos in
  slot_get slots (py "pj1") = head candidatos
  /\ (forall f, In f candidatos <->
        In f arquivos /\
        ~ exists k g, k <> py "pj1" /\ slot_get slots k = Some g
                      /\ nome_de g = nome_de f)
  /\ (forall f, In f arquivos -> primeira_chave (nome_de f) = None ->
        In f candidatos /\ exists g, slot_get slots (py "pj1") = Some g)
  /\ (forall k, k <> py "pj1" -> slot_get slots k = primeiro_arquivo k arquivos)
  /\ (forall k f, slot_get slots k = Some f -> In f arquivos).
Proof.
  intros slots candidatos.
  assert (Hpj1 : slot_get (c_slots (laco arquivos)) (py "pj1") = None).
  { rewrite laco_slot. apply primeiro_arquivo_fora, pj1_fora_da_precedencia. }
  assert (Hhead : slot_get slots (py "pj1") = head candidatos).
  { unfold slots, classificar_arquivos; simpl fst. fold candidatos.
    destruct candidatos as [|f ?]; simpl; [done|].
    rewrite Hpj1. by rewrite slot_get_set_eq. }
  assert (Hkw : forall k, k <> py "pj1" ->
                          slot_get slots k = slot_get (c_slots (laco arquivos)) k).
  { intros k Hk. unfold slots, classificar_arquivos; simpl fst.
    destruct (nao_usados _ _); [done|]. rewrite Hpj1.
    by rewrite slot_get_set_ne. }
  assert (Hcand : forall f, In f candidatos <->
        In f arquivos /\
        ~ exists k g, k <> py "pj1" /\ slot_get slots k = Some g
                      /\ nome_de g = nome_de f).
  { intros f. unfold candidatos. rewrite nao_usados_spec.
    split; intros [Hin Hno]; (split; [done|]).
    - intros (k & g & Hk & Hs & Hn). apply Hno. exists k, g.
      by rewrite <- Hkw.
    - intros (k & g & Hs & Hn). apply Hno. exists k, g.
      assert (k <> py "pj1") by (intros ->; congruence).
      by rewrite Hkw. }
  split; [done|]. split; [done|]. split; [|split].
  - intros f Hin Hnone.
    assert (Hf : In f candidatos).
    { apply Hcand. split; [done|].
      intros (k & g & Hk & Hs & Hn). rewrite Hkw, laco_slot in Hs by done.
      apply primeiro_arquivo_some in Hs as [_ Hs]. congruence. }
    split; [done|]. rewrite Hhead.
    destruct candidatos as [|g ?]; [done|]. by exists g.
  - intros k Hk. by rewrite Hkw, laco_slot.
  - intros k f Hs. destruct (decide (k = py "pj1")) as [->|Hk].
    + rewrite Hhead in Hs. assert (Hin : In f candidatos).
      { destruct candidatos as [|g rest]; [done|]. injection Hs as ->. by left. }
      by apply Hcand in Hin as [Hin _].
    + rewrite Hkw, laco_slot in Hs by done.
      by apply primeiro_arquivo_some in Hs as [Hs _].
Qed.

End ClassifierClaims.

(** C3, as stated, fails: of two uploaded files that match no keyword the
    second is not put in the base slot; it sits in no slot at all. *)
Lemma fallback_um_so_arquivo :
  exists (arquivos : list upload) (f : upload),
    In f arquivos
    /\ primeira_chave (@nome_de unicode_latin1 f) = None
    /\ slot_get (fst (@classificar_arquivos unicode_latin1 arquivos)) (py "pj1") <> Some f
    /\ ~ atribuido (fst (@classificar_arquivos unicode_latin1 arquivos)) f.
Proof.
  exists [ {| filename := Some (py "a.xlsx"); stream := [] |};
           {| filename := Some (py "b.xlsx"); stream := [] |} ],
         {| filename := Some (py "b.xlsx"); stream := [] |}.
  split; [right; by left|]. split; [by vm_compute|]. split; [by vm_compute|].
  intros [k Hk].
  set (s := fst _) in Hk. vm_compute in s. subst s. simpl in Hk.
  repeat (destruct (str_eqb _ k); [discriminate|]). discriminate.
Qed.

(** ** The currency formatter *)

Lemma replace_em_cadeia (s : pystr) :
  replace1 118 46 (replace1 46 44 (replace1 44 118 s)) = List.map troca s.
Proof. unfold replace1. by rewrite !List.map_map. Qed.

Lemma troca_digito (c : N) : 48 <= c <= 57 -> troca c = c.
Proof.
  intros H. unfold troca.
  destruct (N.eqb_spec c 44); [lia|]. destruct (N.eqb_spec c 46); [lia|].
  destruct (N.eqb_spec c 118); [lia|]. done.
Qed.

Lemma digits_of_uint_digitos (u : Decimal.uint) :
  Forall (fun c => 48 <= c <= 57) (digits_of_uint u).
Proof. induction u; simpl; constructor; (lia || done). Qed.

Lemma map_troca_digitos (ds : pystr) :
  Forall (fun c => 48 <= c <= 57) ds -> List.map troca ds = ds.
Proof.
  induction 1 as [|c ds Hc _ IH]; simpl; [done|].
  by rewrite troca_digito, IH.
Qed.

Lemma map_group3_rev (f : N -> N) (sep : N) (n : nat) :
  forall ds, (length ds <= n)%nat ->
             List.map f (group3_rev sep ds) = group3_rev (f sep) (List.map f ds).
Proof.
  induction n as [|n IH]; intros ds Hlen.
  - destruct ds; [done|simpl in Hlen; lia].
  - destruct ds as [|a [|b [|c [|d rest]]]]; try done.
    change (group3_rev sep (a :: b :: c :: d :: rest))
      with (a :: b :: c :: sep :: group3_rev sep (d :: rest)).
    change (group3_rev (f sep) (List.map f (a :: b :: c :: d :: rest)))
      with (f a :: f b :: f c :: f sep :: group3_rev (f sep) (List.map f (d :: rest))).
    do 4 rewrite List.map_cons. do 4 f_equal.
    apply (IH (d :: rest)). simpl in *. lia.
Qed.

Lemma map_group3 (f : N -> N) (sep : N) (ds : pystr) :
  List.map f (group3 sep ds) = group3 (f sep) (List.map f ds).
Proof.
  unfold group3.
  by rewrite List.map_rev, (map_group3_rev f sep (length (rev ds))), List.map_rev.
Qed.

Lemma map_troca_format_cents (c : N) :
  List.map troca (format_cents 44 46 c) = format_cents 46 44 c.
Proof.
  unfold format_cents. rewrite List.map_app, map_group3.
  rewrite map_troca_digitos by apply digits_of_uint_digitos.
  assert (Hlt : c mod 100 < 100) by (apply N.mod_lt; lia).
  assert (H1 : (c mod 100) / 10 < 10) by (apply N.Div0.div_lt_upper_bound; lia).
  assert (H2 : (c mod 100) mod 10 < 10) by (apply N.mod_lt; lia).
  simpl List.map. change (troca 46) with 44. change (troca 44) with 46.
  generalize dependent ((c mod 100) / 10). intros x Hx.
  generalize dependent ((c mod 100) mod 10). intros y Hy.
  rewrite (troca_digito (48 + x)), (troca_digito (48 + y)) by lia. done.
Qed.

Lemma map_troca_format (v : float) :
  List.map troca (format_2f v) = formato_ptbr v.
Proof.
  unfold format_2f, formato_ptbr, format_sep.
  destruct v as [s|s| |s m e]; try done.
  - destruct s; rewrite List.map_app, map_troca_format_cents; done.
  - by destruct s.
  - destruct s; rewrite List.map_app, map_troca_format_cents; done.
Qed.

(** C8.  The currency formatter: [brl v] is ["R$ "] followed by [v] with two
    decimals, ['.'] between the thousands and [','] before the decimals; on
    NaN it is ["R$ 0,00"]. *)
Theorem brl_formato_ptbr (v : float) :
  brl v = py "R$ " ++ (if isna v then py "0,00" else formato_ptbr v).
Proof.
  unfold brl. rewrite replace_em_cadeia, List.map_app.
  change (List.map troca (py "R$ ")) with (py "R$ "). f_equal.
  destruct (isna v) eqn:E; [done|]. apply map_troca_format.
Qed.

(** ** The listing of stored aggregates *)

Lemma str_leb_total (a b : pystr) : str_leb a b = false -> str_leb b a = true.
Proof.
  revert b. induction a as [|x a IH]; intros [|y b]; simpl; try done.
  intros H. apply orb_false_iff in H as [Hlt H].
  apply N.ltb_ge in Hlt.
  destruct (N.eqb_spec x y) as [->|Hne]; simpl in H.
  - rewrite N.eqb_refl, (IH b H). apply orb_true_r.
  - assert (Hyx : (y <? x) = true) by (apply N.ltb_lt; lia). by rewrite Hyx.
Qed.

Lemma str_leb_trans (a b c : pystr) :
  str_leb a b = true -> str_leb b c = true -> str_leb a c = true.
Proof.
  revert b c. induction a as [|x a IH]; intros [|y b] [|z c]; simpl; try done.
  intros Hab Hbc.
  apply orb_true_iff in Hab as [Hxy|Hab]; apply orb_true_iff in Hbc as [Hyz|Hbc].
  - apply N.ltb_lt in Hxy, Hyz.
    assert (H : (x <? z) = true) by (apply N.ltb_lt; lia). by rewrite H.
  - apply andb_true_iff in Hbc as [Hyz _]. apply N.eqb_eq in Hyz; subst z.
    by rewrite Hxy.
  - apply andb_true_iff in Hab as [Hxy _]. apply N.eqb_eq in Hxy; subst y.
    by rewrite Hyz.
  - apply andb_true_iff in Hab as [Hxy Hab]. apply andb_true_iff in Hbc as [Hyz Hbc].
    apply N.eqb_eq in Hxy, Hyz; subst y z.
    rewrite N.eqb_refl, (IH b c Hab Hbc). apply orb_true_r.
Qed.

Lemma str_leb_app (p x y : pystr) : str_leb (p ++ x) (p ++ y) = str_leb x y.
Proof.
  induction p as [|c p IH]; simpl; [done|].
  by rewrite N.ltb_irrefl, N.eqb_refl, IH.
Qed.

Lemma str_leb_take (n : nat) (x y : pystr) :
  str_leb x y = true -> str_leb (take n x) (take n y) = true.
Proof.
  revert x y. induction n as [|n IH]; intros [|a x] [|b y]; simpl; try done.
  intros H. apply orb_true_iff in H as [H|H]; [by rewrite H|].
  apply andb_true_iff in H as [Hab H].
  rewrite Hab, (IH x y H). apply orb_true_r.
Qed.

Lemma insert_desc_perm (x : pystr) (l : list pystr) :
  Permutation (insert_desc x l) (x :: l).
Proof.
  induction l as [|y t IH]; simpl; [done|].
  destruct (str_leb y x); [done|].
  rewrite IH. apply perm_swap.
Qed.

Lemma sorted_reverse_perm (l : list pystr) : Permutation (sorted_reverse l) l.
Proof.
  induction l as [|x l IH]; simpl; [done|].
  rewrite insert_desc_perm. by constructor.
Qed.

Lemma insert_desc_sorted (x : pystr) (l : list pystr) :
  StronglySorted (fun a b => str_leb b a = true) l ->
  StronglySorted (fun a b => str_leb b a = true) (insert_desc x l).
Proof.
  induction 1 as [|y t Ht IH Hy]; simpl.
  - repeat constructor.
  - destruct (str_leb y x) eqn:E.
    + constructor; [by constructor|]. constructor; [done|].
      eapply List.Forall_impl; [|exact Hy]. simpl. intros z Hz.
      by apply (str_leb_trans z y x).
    + constructor; [done|].
      apply str_leb_total in E.
      assert (Hin : forall z, In z (insert_desc x t) -> str_leb z y = true).
      { intros z Hz. apply (Permutation_in _ (insert_desc_perm x t)) in Hz.
        destruct Hz as [<-|Hz]; [done|].
        by apply (proj1 (List.Forall_forall _ _) Hy). }
      by apply List.Forall_forall.
Qed.

Lemma sorted_reverse_sorted (l : list pystr) :
  StronglySorted (fun a b => str_leb b a = true) (sorted_reverse l).
Proof.
  induction l as [|x l IH]; simpl; [constructor|]. by apply insert_desc_sorted.
Qed.

Lemma StronglySorted_impl_on {A : Type} (Q : A -> Prop) (R R' : A -> A -> Prop)
    (l : list A) :
  (forall a b, Q a -> Q b -> R a b -> R' a b) ->
  (forall a, In a l -> Q a) ->
  StronglySorted R l -> StronglySorted R' l.
Proof.
  intros HR HQ Hs. induction Hs as [|x l Hl IH Hx]; constructor.
  - apply IH. intros a Ha. apply HQ. by right.
  - apply List.Forall_forall. intros b Hb.
    apply HR; [apply HQ; by left|apply HQ; by right|].
    by apply (proj1 (List.Forall_forall _ _) Hx).
Qed.

Section StorageClaims.
Context {U : Unicode}.

Lemma eat_lit_spec (l s r : pystr) : eat_lit l s = Some r -> s = l ++ r.
Proof.
  revert s. induction l as [|a l IH]; intros s; simpl.
  - by intros [= ->].
  - destruct s as [|b s]; [done|].
    destruct (N.eqb_spec a b) as [->|]; [|done].
    intros H. by rewrite (IH s H).
Qed.

Lemma eat_digits_spec (n : nat) (s r : pystr) :
  eat_digits n s = Some r ->
  exists d, s = d ++ r /\ length d = n /\ Forall (fun c => is_digit c = true) d.
Proof.
  revert s. induction n as [|n IH]; intros s; simpl.
  - intros [= ->]. by exists [].
  - destruct s as [|c s]; [done|]. destruct (is_digit c) eqn:E; [|done].
    intros H. destruct (IH s H) as (d & -> & Hlen & Hd).
    exists (c :: d). repeat split; simpl; [by rewrite Hlen|by constructor].
Qed.

(** A name the pattern accepts is [df_final_], eight digits, [_], six digits,
    [.xlsx], and nothing more but for a closing newline. *)
Lemma re_df_final_forma (nome : pystr) :
  re_match re_df_final nome = true ->
  exists d8 d6 fim,
    nome = py "df_final_" ++ d8 ++ py "_" ++ d6 ++ py ".xlsx" ++ fim
    /\ length d8 = 8%nat /\ length d6 = 6%nat
    /\ Forall (fun c => is_digit c = true) (d8 ++ d6)
    /\ (fim = [] \/ fim = [10]).
Proof.
  unfold re_match, re_df_final. cbn [eat].
  destruct (eat_lit (py "df_final_") nome) as [r1|] eqn:E1; [|done].
  destruct (eat_digits 8 r1) as [r2|] eqn:E2; [|done].
  destruct (eat_lit (py "_") r2) as [r3|] eqn:E3; [|done].
  destruct (eat_digits 6 r3) as [r4|] eqn:E4; [|done].
  destruct (eat_lit (py ".xlsx") r4) as [r5|] eqn:E5; [|done].
  intros Hend.
  apply eat_lit_spec in E1, E3, E5.
  apply eat_digits_spec in E2 as (d8 & H2 & L8 & D8).
  apply eat_digits_spec in E4 as (d6 & H4 & L6 & D6).
  exists d8, d6, r5. subst. repeat split; try done.
  - by apply Forall_app.
  - destruct r5 as [|c [|? ?]]; simpl in Hend; try done; [by left|].
    apply N.eqb_eq in Hend; subst. by right.
Qed.

Lemma carimbo_listado (competencia nome d8 d6 fim : pystr) :
  length d8 = 8%nat -> length d6 = 6%nat ->
  nome = py "df_final_" ++ d8 ++ py "_" ++ d6 ++ py ".xlsx" ++ fim ->
  carimbo competencia (competencia ++ py "/" ++ nome) = d8 ++ py "_" ++ d6.
Proof.
  intros L8 L6 ->. unfold carimbo.
  replace (competencia ++ py "/" ++ py "df_final_" ++ d8 ++ py "_" ++ d6 ++ py ".xlsx" ++ fim)
    with ((competencia ++ py "/df_final_") ++ (d8 ++ py "_" ++ d6) ++ py ".xlsx" ++ fim).
  - rewrite drop_app_length'.
    + rewrite take_app_length'; [done|].
      rewrite !length_app, L8, L6. done.
    + rewrite length_app. done.
  - rewrite <- !app_assoc. done.
Qed.

End StorageClaims.

Section StorageTheorem.
Context {U : Unicode}.

Lemma listado_forma (w : world) (competencia path : pystr) :
  In path (listar_df_final_por_competencia w competencia) <->
  exists nome, In nome (List.map or_empty (_supabase_list w competencia))
               /\ re_match re_df_final nome = true
               /\ path = competencia ++ py "/" ++ nome.
Proof.
  unfold listar_df_final_por_competencia. split.
  - intros H. apply (Permutation_in _ (sorted_reverse_perm _)) in H.
    apply in_map_iff in H as (nome & <- & Hn).
    apply filter_In in Hn as [Hin Hm]. by exists nome.
  - intros (nome & Hin & Hm & ->).
    apply (Permutation_in _ (Permutation_sym (sorted_reverse_perm _))).
    apply in_map_iff. exists nome. split; [done|]. by apply filter_In.
Qed.

Lemma carimbo_prefixo (competencia x : pystr) :
  carimbo competencia ((competencia ++ py "/df_final_") ++ x) = take 15 x.
Proof.
  unfold carimbo. rewrite drop_app_length'; [done|]. by rewrite length_app.
Qed.

(** C7.  Most-recent-first retrieval: the listing holds exactly the stored
    names that match [df_final_YYYYMMDD_HHMMSS.xlsx], each prefixed with the
    competence, in descending order of the timestamp embedded in the name;
    the most recent one is the head of that list, or [None] when it is empty. *)
Theorem listagem_mais_recente_primeiro (w : world) (competencia : pystr) :
  let arquivos := listar_df_final_por_competencia w competencia in
  Permutation arquivos
    (List.map (fun nome => competencia ++ py "/" ++ nome)
       (List.filter (re_match re_df_final)
          (List.map or_empty (_supabase_list w competencia))))
  /\ (forall path, In path arquivos ->
        exists d8 d6 fim,
          path = competencia ++ py "/" ++ py "df_final_" ++ d8 ++ py "_" ++ d6
                   ++ py ".xlsx" ++ fim
          /\ length d8 = 8%nat /\ length d6 = 6%nat
          /\ Forall (fun c => is_digit c = true) (d8 ++ d6)
          /\ (fim = [] \/ fim = [10])
          /\ carimbo competencia path = d8 ++ py "_" ++ d6)
  /\ StronglySorted (mais_recente competencia) arquivos
  /\ escolher_mais_recente_df_final w competencia = head arquivos
  /\ (forall a b, escolher_mais_recente_df_final w competencia = Some a ->
        In b arquivos -> mais_recente competencia a b).
Proof.
  intros arquivos.
  assert (Hforma : forall path, In path arquivos ->
            exists x, path = (competencia ++ py "/df_final_") ++ x).
  { intros path Hp. apply listado_forma in Hp as (nome & _ & Hm & ->).
    apply re_df_final_forma in Hm as (d8 & d6 & fim & -> & _).
    eexists. rewrite <- !app_assoc. reflexivity. }
  assert (Hsorted : StronglySorted (mais_recente competencia) arquivos).
  { apply (StronglySorted_impl_on
             (fun path => exists x, path = (competencia ++ py "/df_final_") ++ x)
             (fun a b => str_leb b a = true)); [|done|apply sorted_reverse_sorted].
    intros a b [xa ->] [xb ->] Hab. unfold mais_recente.
    rewrite !carimbo_prefixo. apply str_leb_take.
    by rewrite str_leb_app in Hab. }
  assert (Hhead : escolher_mais_recente_df_final w competencia = head arquivos).
  { unfold escolher_mais_recente_df_final. fold arquivos. by destruct arquivos. }
  split; [apply sorted_reverse_perm|]. split; [|split; [done|split; [done|]]].
  - intros path Hp. apply listado_forma in Hp as (nome & _ & Hm & ->).
    apply re_df_final_forma in Hm as (d8 & d6 & fim & Hn & L8 & L6 & Hd & Hfim).
    exists d8, d6, fim. rewrite (carimbo_listado competencia nome d8 d6 fim) by done.
    by subst nome.
  - intros a b Ha Hb. rewrite Hhead in Ha.
    destruct arquivos as [|a' rest]; [done|]. injection Ha as ->.
    destruct Hb as [<-|Hb].
    + destruct (Hforma a) as [x ->]; [by left|]. unfold mais_recente.
      destruct (str_leb (carimbo competencia ((competencia ++ py "/df_final_") ++ x))
                        (carimbo competencia ((competencia ++ py "/df_final_") ++ x))) eqn:E;
        [done|]. by rewrite (str_leb_total _ _ E) in E.
    + inversion Hsorted as [|? ? _ Hall]; subst.
      by apply (proj1 (List.Forall_forall _ _) Hall).
Qed.

End StorageTheorem.

(** ** The local download route *)

(** Unfolding the steps of a computation whose head is known. *)
Ltac mrun :=
  unfold flash_redirect; cbn [mapM];
  unfold mbind, M_bind, mret, M_ret, emit, raise; cbn [heap log].

Section DownloadClaims.
Context {U : Unicode} {P : Pandas}.

Lemma OUTPUT_FILES_lookup (w : world) (nome path : pystr) :
  OUTPUT_FILES w !! nome = Some path -> In (nome, path) (OUTPUT_FILES_itens w).
Proof.
  intros H. apply list_elem_of_In. by apply elem_of_list_to_map_2.
Qed.

Lemma OUTPUT_FILES_fora (w : world) (nome : pystr) :
  ~ In nome (List.map fst (OUTPUT_FILES_itens w)) -> OUTPUT_FILES w !! nome = None.
Proof.
  intros H. apply not_elem_of_list_to_map_1. by rewrite list_elem_of_In.
Qed.

(** C10.  Local download is restricted to fixed paths: a [nome] that is not
    one of the twelve keys of [OUTPUT_FILES] gets no file, only the flash and
    the redirect to the index page; a file that is sent is the path stored
    under [nome] among the twelve fixed entries, never a path taken from the
    request. *)
Theorem download_excel_caminhos_fixos (w : world) (nome : pystr) (s : state) :
  List.map fst (OUTPUT_FILES_itens w) =
    [py "df_final"; py "df_juntar"; py "pj1"; py "seg"; py "cam"; py "co_ter";
     py "co_xpvp"; py "cre"; py "xpcs"; py "lan_man"; py "tim_rep"; py "lan_pro"]
  /\ (~ In nome (List.map fst (OUTPUT_FILES_itens w)) ->
      download_excel w nome s =
        ({| heap := heap s;
            log := log s ++ [Flash (py "Arquivo não encontrado para download local.")] |},
         Some (Redirect url_index)))
  /\ (forall s' path,
        download_excel w nome s = (s', Some (SendFile path)) ->
        In (nome, path) (OUTPUT_FILES_itens w)
        /\ In path (List.map snd (OUTPUT_FILES_itens w))
        /\ w_exists w path = true /\ s' = s)
  /\ (exists s' r, download_excel w nome s = (s', Some r)
        /\ (r = Redirect url_index \/ exists path, r = SendFile path)).
Proof.
  split; [reflexivity|]. split; [|split].
  - intros Hfora. unfold download_excel. by rewrite OUTPUT_FILES_fora.
  - intros s' path. unfold download_excel.
    destruct (OUTPUT_FILES w !! nome) as [[|c p]|] eqn:E; try (by mrun).
    destruct (w_exists w (c :: p)) eqn:Ex; [|by mrun].
    mrun. intros [= <- <-]. apply OUTPUT_FILES_lookup in E.
    split; [done|]. split; [|done].
    apply in_map_iff. by exists (nome, c :: p).
  - unfold download_excel.
    destruct (OUTPUT_FILES w !! nome) as [[|c p]|]; try (eexists _, _; split; [reflexivity|by left]).
    destruct (w_exists w (c :: p)); eexists _, _; (split; [reflexivity|]); [right; by eexists|by left].
Qed.

End DownloadClaims.

(** ** Running a computation *)

Lemma bind_ok {A B : Type} (c : M A) (k : A -> M B) (s s' : state) (b : B) :
  (c ≫= k) s = (s', Some b) ->
  exists s1 a, c s = (s1, Some a) /\ k a s1 = (s', Some b).
Proof.
  unfold mbind, M_bind. destruct (c s) as [s1 [a|]]; [|done].
  intros H. by exists s1, a.
Qed.

Lemma deref_ok (r : ref) (s s1 : state) (df : frame) :
  deref r s = (s1, Some df) -> s1 = s /\ heap s !! r = Some df.
Proof. unfold deref. by intros [= -> ->]. Qed.

Lemma lift_ok {A : Type} (o : option A) (s s1 : state) (a : A) :
  lift o s = (s1, Some a) -> s1 = s /\ o = Some a.
Proof. destruct o; unfold lift, mret, M_ret, raise; by intros [= -> ->]. Qed.

Lemma mret_ok {A : Type} (a b : A) (s s1 : state) :
  (mret a : M A) s = (s1, Some b) -> s1 = s /\ b = a.
Proof. unfold mret, M_ret. by intros [= -> ->]. Qed.

Lemma assign_ok (r : ref) (df : frame) (s s1 : state) (u : unit) :
  assign r df s = (s1, Some u) ->
  s1 = {| heap := <[r := df]> (heap s); log := log s |}.
Proof. unfold assign. by intros [= <-]. Qed.

Lemma emit_ok (e : event) (s s1 : state) (u : unit) :
  emit e s = (s1, Some u) -> s1 = {| heap := heap s; log := log s ++ [e] |}.
Proof. unfold emit. by intros [= <-]. Qed.

Lemma puro_ret {A : Type} (a : A) : puro (mret a : M A).
Proof. done. Qed.

Lemma puro_raise {A : Type} : puro (raise : M A).
Proof. done. Qed.

Lemma puro_lift {A : Type} (o : option A) : puro (lift o).
Proof. by destruct o. Qed.

Lemma puro_deref (r : ref) : puro (deref r).
Proof. done. Qed.

Lemma puro_bind {A B : Type} (c : M A) (k : A -> M B) :
  puro c -> (forall a, puro (k a)) -> puro (c ≫= k).
Proof.
  intros Hc Hk s. unfold mbind, M_bind. specialize (Hc s).
  destruct (c s) as [s1 [a|]]; simpl in *; subst; [apply Hk|done].
Qed.

Lemma puro_mapM {A B : Type} (f : A -> M B) (l : list A) :
  (forall a, puro (f a)) -> puro (mapM f l).
Proof.
  intros Hf. induction l as [|a l IH]; simpl; [apply puro_ret|].
  apply puro_bind; [done|]. intros b. apply puro_bind; [done|]. intros bs. apply puro_ret.
Qed.

Lemma puro_ok {A : Type} (c : M A) (s s1 : state) (o : option A) :
  puro c -> c s = (s1, o) -> s1 = s.
Proof. intros Hc H. specialize (Hc s). by rewrite H in Hc. Qed.

Ltac puro_tac :=
  repeat first
    [ apply puro_ret | apply puro_raise | apply puro_lift | apply puro_deref
    | apply puro_mapM; intros
    | apply puro_bind; [|intros]
    | match goal with
      | |- puro (match ?x with _ => _ end) => destruct x
      | |- puro (let '(_, _) := ?x in _) => destruct x
      end ].

Ltac use_eq H :=
  match type of H with
  | ?x = ?y => first [ subst x | subst y | (unify x y; clear H) | idtac ]
  end.

Ltac minv :=
  repeat match goal with
  | H : (mbind _ _) _ = (_, Some _) |- _ =>
    let s1 := fresh "s" in let a := fresh "a" in let E := fresh "E" in
    apply bind_ok in H as (s1 & a & E & H)
  | H : deref _ _ = (_, Some _) |- _ =>
    let Hs := fresh in apply deref_ok in H as [Hs H]; use_eq Hs
  | H : lift _ _ = (_, Some _) |- _ =>
    let Hs := fresh in apply lift_ok in H as [Hs H]; use_eq Hs
  | H : mret _ _ = (_, Some _) |- _ =>
    let Hs := fresh in apply mret_ok in H as [Hs H]; use_eq Hs
  | H : assign _ _ _ = (_, Some _) |- _ =>
    apply assign_ok in H; use_eq H
  | H : emit _ _ = (_, Some _) |- _ =>
    apply emit_ok in H; use_eq H
  end.

Ltac key_ne := let H := fresh in intros H; vm_compute in H; discriminate H.

Ltac ctx_lookup :=
  rewrite ?list_to_map_cons; cbn [fst snd];
  repeat (rewrite lookup_insert_ne by key_ne); rewrite ?lookup_delete_ne by key_ne;
  repeat (rewrite lookup_insert_ne by key_ne);
  first [ apply lookup_insert_eq | apply lookup_delete_eq | idtac ].

Section DashboardFacts.
Context {U : Unicode} {P : Pandas}.

Lemma arredondar_round_col (colunas : list pystr) (df : frame) :
  (forall n c, In (n, c) (cols df) -> is_number c = true -> n ∈ colunas) ->
  cols (arredondar colunas df) = List.map (fun nc => (fst nc, round_col (snd nc))) (cols df).
Proof.
  intros H. unfold arredondar; simpl. apply map_ext_in. intros [n c] Hin; simpl.
  destruct (bool_decide (n ∈ colunas)) eqn:E; [done|].
  apply bool_decide_eq_false in E.
  destruct c; simpl; try done. exfalso. apply E. by apply (H n (ColFloat l)).
Qed.

Lemma select_number_in (df : frame) (n : pystr) (c : column) :
  In (n, c) (cols df) -> is_number c = true -> n ∈ select_number df.
Proof.
  intros Hin Hc. unfold select_number. apply list_elem_of_In, in_map_iff.
  exists (n, c). split; [done|]. by apply filter_In.
Qed.

Lemma arredondar_cols (df : frame) :
  cols (arredondar (select_number df) df)
  = List.map (fun nc => (fst nc, round_col (snd nc))) (cols df).
Proof. apply arredondar_round_col. intros n c. apply select_number_in. Qed.

Lemma is_number_round_col (c : column) : is_number (round_col c) = is_number c.
Proof. by destruct c. Qed.

Lemma select_number_arredondar (df : frame) :
  select_number (arredondar (select_number df) df) = select_number df.
Proof.
  unfold select_number at 1 3. rewrite arredondar_cols.
  induction (cols df) as [|[n c] l IH]; simpl; [done|].
  rewrite is_number_round_col. destruct (is_number c); simpl; by rewrite IH.
Qed.

Lemma montar_spec (w : world) (r : ref) (label : pystr) (caminho : option pystr)
    (dj : option ref) (fontes : option (list (pystr * ref)))
    (s s' : state) (ctx : gmap pystr value) :
  montar_contexto_dashboard w r label caminho dj fontes s = (s', Some ctx) ->
  exists df0 soma media maxi,
    heap s !! r = Some df0
    /\ s' = {| heap := <[r := arredondar (select_number df0) df0]> (heap s);
               log := log s ++ [RoundInPlace r] |}
    /\ match coluna (cols (arredondar (select_number df0) df0)) (py "Valor Total Assessor") with
       | Some c => col_sum c = Some soma /\ col_mean c = Some media /\ col_max c = Some maxi
       | None => soma = S754_zero false /\ media = S754_zero false /\ maxi = S754_zero false
       end
    /\ ctx !! py "tabela"
       = Some (VStr (to_html (display (select_number df0) (arredondar (select_number df0) df0))))
    /\ ctx !! py "total_assessores" = Some (VNat (nrows df0))
    /\ ctx !! py "soma_total" = Some (VStr (brl soma))
    /\ ctx !! py "media_total" = Some (VStr (brl media))
    /\ ctx !! py "max_total" = Some (VStr (brl media))
    /\ ctx !! py "max_total_val" = Some (VStr (brl maxi)).
Proof.
  unfold montar_contexto_dashboard. intros H. minv. cbn [heap log] in *.
  rewrite lookup_insert_eq in E2. injection E2 as <-.
  assert (Hs : s4 = {| heap := <[r:=arredondar (select_number a) a]> (heap s);
                       log := log s ++ [RoundInPlace r] |})
    by (eapply puro_ok; [|exact E3]; puro_tac).
  subst s4.
  destruct a3 as [[[total soma] media] maxi].
  assert (Hs : s' = {| heap := <[r:=arredondar (select_number a) a]> (heap s);
                       log := log s ++ [RoundInPlace r] |})
    by (eapply puro_ok; [|exact H]; puro_tac).
  minv. subst ctx.
  exists a, soma, media, maxi. split; [done|]. split; [done|].
  assert (Hm : total = nrows a /\
    match coluna (cols (arredondar (select_number a) a)) (py "Valor Total Assessor") with
    | Some c => col_sum c = Some soma /\ col_mean c = Some media /\ col_max c = Some maxi
    | None => soma = S754_zero false /\ media = S754_zero false /\ maxi = S754_zero false
    end).
  { destruct (coluna _ _) as [c|]; minv; by simplify_eq. }
  destruct Hm as [-> Hm]. split; [done|].
  repeat split; ctx_lookup.
Qed.

Lemma bind_run {A B : Type} (c : M A) (k : A -> M B) (s s1 : state) (a : A) :
  c s = (s1, Some a) -> (c ≫= k) s = k a s1.
Proof. intros H. unfold mbind, M_bind. by rewrite H. Qed.

Lemma montar_estado (w : world) (r : ref) (label : pystr) (caminho : option pystr)
    (dj : option ref) (fontes : option (list (pystr * ref)))
    (s : state) (df0 : frame) :
  heap s !! r = Some df0 ->
  fst (montar_contexto_dashboard w r label caminho dj fontes s)
  = {| heap := <[r := arredondar (select_number df0) df0]> (heap s);
       log := log s ++ [RoundInPlace r] |}.
Proof.
  intros Hr. unfold montar_contexto_dashboard.
  erewrite bind_run; [|unfold deref; by rewrite Hr].
  erewrite bind_run; [|reflexivity].
  erewrite bind_run; [|reflexivity].
  erewrite bind_run; [|unfold deref; cbn [heap]; by rewrite lookup_insert_eq].
  cbn [heap log].
  match goal with |- fst (?c ?s0) = _ => assert (Hp : puro c) by puro_tac end.
  apply Hp.
Qed.

(** C9.  In-place mutation of the aggregate: the call leaves the object
    [df_final] with every float column rounded to two decimals cell by cell,
    in the same row order, and with every other column, the labels and the
    number of rows as they were; no other object changes. *)
Theorem montar_arredonda_no_lugar (w : world) (df_final : ref) (label : pystr)
    (caminho : option pystr) (dj : option ref)
    (fontes : option (list (pystr * ref))) (s : state) (df0 : frame) :
  heap s !! df_final = Some df0 ->
  let s' := fst (montar_contexto_dashboard w df_final label caminho dj fontes s) in
  exists df,
    heap s' = <[df_final := df]> (heap s)
    /\ nrows df = nrows df0
    /\ cols df =
       List.map (fun nc => (fst nc,
                            match snd nc with
                            | ColFloat l => ColFloat (List.map round2 l)
                            | ColInt l => ColInt l
                            | ColObj l => ColObj l
                            end)) (cols df0).
Proof.
  intros Hr s'. exists (arredondar (select_number df0) df0).
  unfold s'. rewrite (montar_estado _ _ _ _ _ _ _ df0 Hr). cbn [heap].
  split; [done|]. split; [done|]. apply arredondar_cols.
Qed.

End DashboardFacts.

(** ** The result page *)

Lemma corrigir_ok (ctx0 ctx : gmap pystr value) (s s' : state) :
  corrigir_max_total ctx0 s = (s', Some ctx) ->
  s' = s /\ exists v, ctx0 !! py "max_total_val" = Some v
                      /\ ctx = <[py "max_total" := v]> (delete (py "max_total_val") ctx0).
Proof.
  unfold corrigir_max_total. destruct (ctx0 !! py "max_total_val") as [v|]; [|done].
  intros H. apply mret_ok in H as [-> ->]. split; [done|]. by exists v.
Qed.

Section PageFacts.
Context {U : Unicode} {P : Pandas}.

Lemma montar_corrigir (w : world) (r : ref) (label : pystr) (caminho : option pystr)
    (dj : option ref) (fontes : option (list (pystr * ref)))
    (s s1 s' : state) (ctx0 ctx : gmap pystr value) :
  montar_contexto_dashboard w r label caminho dj fontes s = (s1, Some ctx0) ->
  corrigir_max_total ctx0 s1 = (s', Some ctx) ->
  exists df0,
    heap s !! r = Some df0
    /\ s' = {| heap := <[r := arredondar (select_number df0) df0]> (heap s);
               log := log s ++ [RoundInPlace r] |}
    /\ pagina_de (arredondar (select_number df0) df0) ctx.
Proof.
  intros Hm Hc. apply montar_spec in Hm
    as (df0 & soma & media & maxi & Hr & -> & Hmet & Htab & _ & _ & _ & _ & Hval).
  apply corrigir_ok in Hc as [-> (v & Hv & ->)].
  rewrite Hval in Hv. injection Hv as <-.
  exists df0. split; [done|]. split; [done|]. unfold pagina_de.
  rewrite select_number_arredondar. split; [|split].
  - rewrite lookup_insert_ne, lookup_delete_ne by key_ne. done.
  - rewrite lookup_insert_ne by key_ne. apply lookup_delete_eq.
  - destruct (coluna _ _) as [c|].
    + exists maxi. split; [tauto|]. apply lookup_insert_eq.
    + destruct Hmet as (_ & _ & ->). apply lookup_insert_eq.
Qed.

End PageFacts.

(** ** What a stage may log, and stages that leave the heap alone *)

Lemma emite_puro (Q : event -> Prop) {A : Type} (c : M A) : puro c -> emite Q c.
Proof.
  intros Hc s s' o H. apply puro_ok in H; [|done]. subst.
  exists []. by rewrite app_nil_r.
Qed.

Lemma conserva_puro {A : Type} (c : M A) : puro c -> conserva c.
Proof. intros Hc s s' o H. apply puro_ok in H; [|done]. by subst. Qed.

Lemma emite_emit (Q : event -> Prop) (e : event) : Q e -> emite Q (emit e).
Proof.
  intros He s s' o [= <- <-]. exists [e]. split; [done|]. by constructor.
Qed.

Lemma conserva_emit (e : event) : conserva (emit e).
Proof. by intros s s' o [= <- <-]. Qed.

Lemma emite_bind (Q : event -> Prop) {A B : Type} (c : M A) (k : A -> M B) :
  emite Q c -> (forall a, emite Q (k a)) -> emite Q (c ≫= k).
Proof.
  intros Hc Hk s s' o. unfold mbind, M_bind.
  destruct (c s) as [s1 [a|]] eqn:E.
  - intros H. destruct (Hc _ _ _ E) as (evs1 & L1 & F1).
    destruct (Hk a _ _ _ H) as (evs2 & L2 & F2).
    exists (evs1 ++ evs2). rewrite L2, L1, <- app_assoc. split; [done|].
    by apply Forall_app.
  - intros [= <- <-]. by apply (Hc _ _ _ E).
Qed.

Lemma conserva_bind {A B : Type} (c : M A) (k : A -> M B) :
  conserva c -> (forall a, conserva (k a)) -> conserva (c ≫= k).
Proof.
  intros Hc Hk s s' o. unfold mbind, M_bind.
  destruct (c s) as [s1 [a|]] eqn:E.
  - intros H. rewrite (Hk a _ _ _ H). by apply (Hc _ _ _ E).
  - intros [= <- <-]. by apply (Hc _ _ _ E).
Qed.

Lemma emite_mapM (Q : event -> Prop) {A B : Type} (f : A -> M B) (l : list A) :
  (forall a, emite Q (f a)) -> emite Q (mapM f l).
Proof.
  intros Hf. induction l as [|a l IH]; simpl.
  - apply emite_puro, puro_ret.
  - apply emite_bind; [done|]. intros b. apply emite_bind; [done|].
    intros bs. apply emite_puro, puro_ret.
Qed.

Lemma conserva_mapM {A B : Type} (f : A -> M B) (l : list A) :
  (forall a, conserva (f a)) -> conserva (mapM f l).
Proof.
  intros Hf. induction l as [|a l IH]; simpl.
  - apply conserva_puro, puro_ret.
  - apply conserva_bind; [done|]. intros b. apply conserva_bind; [done|].
    intros bs. apply conserva_puro, puro_ret.
Qed.

Ltac emite_tac :=
  repeat first
    [ apply emite_emit; simpl; tauto
    | apply emite_puro; solve [puro_tac]
    | apply emite_mapM; intros
    | apply emite_bind; [|intros]
    | match goal with
      | |- emite _ (match ?x with _ => _ end) => destruct x
      end ].

Ltac conserva_tac :=
  repeat first
    [ apply conserva_emit
    | apply conserva_puro; solve [puro_tac]
    | apply conserva_mapM; intros
    | apply conserva_bind; [|intros]
    | match goal with
      | |- conserva (match ?x with _ => _ end) => destruct x
      end ].

Section StageFacts.
Context {U : Unicode} {P : Pandas} {B : Backend}.

Lemma emite_salvar (r : ref) (path : pystr) : emite e_gravacao (salvar r path).
Proof. unfold salvar. emite_tac. Qed.

Lemma conserva_salvar (r : ref) (path : pystr) : conserva (salvar r path).
Proof. unfold salvar. conserva_tac. Qed.

Lemma emite_upload_todos (w : world) (itens : list (ref * pystr)) :
  emite e_envio (upload_todos w itens).
Proof.
  induction itens as [|[r path] rest IH]; simpl.
  - apply emite_puro, puro_ret.
  - intros s s' o. destruct (heap s !! r) as [df|].
    + destruct (w_upload_ok w path).
      * revert s s' o. apply emite_bind; [by apply emite_emit|]. by intros.
      * intros [= <- <-]. exists []. by rewrite app_nil_r.
    + intros [= <- <-]. exists []. by rewrite app_nil_r.
Qed.

Lemma conserva_upload_todos (w : world) (itens : list (ref * pystr)) :
  conserva (upload_todos w itens).
Proof.
  induction itens as [|[r path] rest IH]; simpl.
  - apply conserva_puro, puro_ret.
  - intros s s' o. destruct (heap s !! r) as [df|].
    + destruct (w_upload_ok w path).
      * revert s s' o. apply conserva_bind; [apply conserva_emit|]. by intros.
      * by intros [= <- <-].
    + by intros [= <- <-].
Qed.

Lemma emite_ler_slot (slots : slots_t) (chave : pystr) :
  emite e_leitura (ler_slot slots chave).
Proof.
  unfold ler_slot. apply emite_bind; [apply emite_puro; puro_tac|]. intros f.
  apply emite_bind; [apply emite_puro; puro_tac|]. intros df.
  apply emite_bind.
  - intros s s' o [= <- <-]. exists []. by rewrite app_nil_r.
  - intros r. emite_tac.
Qed.

End StageFacts.

Section ProcessarFacts.
Context {U : Unicode} {P : Pandas} {B : Backend}.

Lemma chamar_engine_ok (fontes : list ref) (s s' : state) (rs : ref * ref) :
  chamar_engine fontes s = (s', Some rs) ->
  exists h, calcular_comissoes (heap s) fontes = Some (h, rs)
            /\ s' = {| heap := h; log := log s ++ [Engine (fst rs) (snd rs)] |}.
Proof.
  unfold chamar_engine.
  destruct (calcular_comissoes (heap s) fontes) as [[h [a b]]|]; [|done].
  intros [= <- <-]. by exists h.
Qed.

Lemma gravacao_local_spec (w : world) (prefixo : pystr) (df_final df_juntar : ref)
    (fontes : list ref) (s s' : state) (df1 : frame) (u : unit) :
  heap s !! df_final = Some df1 ->
  (if negb (w_vercel w) then
     let pasta_competencia := w_join w (OUTPUT_DIR w) prefixo in
     emit (Makedirs pasta_competencia);;
     p ← lift (OUTPUT_FILES w !! py "df_final"); salvar df_final p;;
     p ← lift (OUTPUT_FILES w !! py "df_juntar"); salvar df_juntar p;;
     mapM (fun rk => p ← lift (OUTPUT_FILES w !! fst (snd rk)); salvar (fst rk) p)
          (zip fontes nomes_fontes);;
     salvar df_final (w_join w pasta_competencia (py "df_final.xlsx"))
   else mret tt) s = (s', Some u) ->
  exists evs, s' = {| heap := heap s; log := log s ++ evs |}
    /\ Forall e_gravacao evs
    /\ (if w_vercel w then evs = []
        else exists p resto,
               OUTPUT_FILES w !! py "df_final" = Some p
               /\ evs = Makedirs (w_join w (OUTPUT_DIR w) prefixo)
                          :: ToExcel p df1 :: resto).
Proof.
  intros Hdf. destruct (w_vercel w); simpl negb; cbv iota.
  - intros H. apply mret_ok in H as [-> _]. exists []. rewrite app_nil_r.
    by destruct s.
  - cbv zeta. intros H.
    apply bind_ok in H as (s1 & [] & E1 & H). apply emit_ok in E1. subst s1.
    apply bind_ok in H as (s1 & p & E1 & H). apply lift_ok in E1 as [-> Hp].
    apply bind_ok in H as (s1 & [] & E1 & H).
    match type of H with ?c ?s0 = _ =>
      assert (He : emite e_gravacao c) by
        (repeat first [ apply emite_salvar | apply emite_mapM; intros
                      | apply emite_bind; [|intros]
                      | apply emite_puro; solve [puro_tac] ]);
      assert (Hc : conserva c) by
        (repeat first [ apply conserva_salvar | apply conserva_mapM; intros
                      | apply conserva_bind; [|intros]
                      | apply conserva_puro; solve [puro_tac] ])
    end.
    destruct (He _ _ _ H) as (evs & Hl & Hf). specialize (Hc _ _ _ H).
    clear H He.
    unfold salvar in E1. minv. cbn [heap log] in *. simplify_eq.
    exists (Makedirs (w_join w (OUTPUT_DIR w) prefixo) :: ToExcel p df1 :: evs).
    split; [|split].
    + destruct s' as [h' l']. cbn in *. subst. by rewrite <- !app_assoc.
    + repeat constructor; done.
    + by exists p, evs.
Qed.

Lemma upload_todos_cons (w : world) (r : ref) (path : pystr)
    (rest : list (ref * pystr)) (s : state) :
  upload_todos w ((r, path) :: rest) s =
  match heap s !! r with
  | Some df =>
    if w_upload_ok w path
    then (emit (Upload path df);; upload_todos w rest) s
    else (s, Some false)
  | None => (s, Some false)
  end.
Proof. reflexivity. Qed.

Lemma envio_spec (w : world) (prefixo : pystr) (df_final df_juntar : ref)
    (fontes : list ref) (s s' : state) (df1 : frame) (nome : option pystr) :
  heap s !! df_final = Some df1 ->
  ((if w_supabase w then
       let timestamp := w_now w in
       let nome := prefixo ++ py "/df_final_" ++ timestamp ++ py ".xlsx" in
       (ok ← upload_todos w
              ((df_final, nome)
               :: (df_juntar, prefixo ++ py "/df_juntar_" ++ timestamp ++ py ".xlsx")
               :: List.map (fun rk => (fst rk, prefixo ++ py "/" ++ snd (snd rk)
                                                 ++ py "_" ++ timestamp ++ py ".xlsx"))
                           (zip fontes nomes_fontes));
       if (ok : bool) then mret (Some nome)
       else
         emit (Print (py "Erro ao fazer upload para o Supabase:"));;
         emit (Flash (py "Não consegui enviar os Excels para o Supabase. Você ainda pode ver a tabela na tela."));;
         mret None) : M (option pystr)
     else mret None) : M (option pystr)) s = (s', Some nome) ->
  exists evs, s' = {| heap := heap s; log := log s ++ evs |}
    /\ Forall e_envio evs
    /\ (w_supabase w = false -> evs = [])
    /\ (forall caminho, nome = Some caminho ->
          exists resto,
            caminho = prefixo ++ py "/df_final_" ++ w_now w ++ py ".xlsx"
            /\ evs = Upload caminho df1 :: resto)
    /\ (w_supabase w = true ->
        w_upload_ok w (prefixo ++ py "/df_final_" ++ w_now w ++ py ".xlsx") = true ->
        exists resto,
          evs = Upload (prefixo ++ py "/df_final_" ++ w_now w ++ py ".xlsx") df1 :: resto).
Proof.
  intros Hdf H.
  match type of H with ?c ?s0 = _ =>
    assert (He : emite e_envio c) by
      (repeat first [ apply emite_upload_todos | apply emite_emit; simpl; tauto
                    | apply emite_bind; [|intros]
                    | apply emite_puro; solve [puro_tac]
                    | match goal with
                      | |- emite _ (if ?x then _ else _) => destruct x
                      end ]);
    assert (Hc : conserva c) by
      (repeat first [ apply conserva_upload_todos | apply conserva_emit
                    | apply conserva_bind; [|intros]
                    | apply conserva_puro; solve [puro_tac]
                    | match goal with
                      | |- conserva (if ?x then _ else _) => destruct x
                      end ])
  end.
  destruct (He _ _ _ H) as (evs & Hl & Hf). specialize (Hc _ _ _ H).
  exists evs. split; [|split; [done|split; [|split]]].
  - destruct s' as [h' l']. cbn in *. by subst.
  - intros Hsup. rewrite Hsup in H. apply mret_ok in H as [-> _].
    rewrite <- (app_nil_r (log s)) in Hl at 1. by apply app_inv_head in Hl.
  - intros caminho ->. destruct (w_supabase w); [|by apply mret_ok in H as [_ [=]]].
    cbv zeta in H. apply bind_ok in H as (s1 & ok & E1 & H).
    destruct ok.
    + apply mret_ok in H as [-> [= ->]].
      rewrite upload_todos_cons, Hdf in E1.
      destruct (w_upload_ok w _); [|done].
      apply bind_ok in E1 as (s2 & [] & E2 & E1). apply emit_ok in E2. subst s2.
      destruct (emite_upload_todos w _ _ _ _ E1) as (resto & Hr & _).
      cbn [log] in Hr. rewrite Hr, <- app_assoc in Hl.
      apply app_inv_head in Hl. exists resto. by subst evs.
    + minv. done.
  - intros Hsup Hok. rewrite Hsup in H. cbv zeta in H.
    apply bind_ok in H as (s1 & ok & E1 & H).
    rewrite upload_todos_cons, Hdf, Hok in E1.
    apply bind_ok in E1 as (s2 & [] & E2 & E1). apply emit_ok in E2. subst s2.
    destruct (emite_upload_todos w _ _ _ _ E1) as (resto1 & Hr1 & _).
    assert (He2 : emite e_envio
              (if ok then mret (Some (prefixo ++ py "/df_final_" ++ w_now w ++ py ".xlsx"))
               else emit (Print (py "Erro ao fazer upload para o Supabase:"));;
                    emit (Flash (py "Não consegui enviar os Excels para o Supabase. Você ainda pode ver a tabela na tela."));;
                    mret None))
      by (destruct ok; repeat first [ apply emite_emit; simpl; tauto
                                    | apply emite_bind; [|intros]
                                    | apply emite_puro; solve [puro_tac] ]).
    destruct (He2 _ _ _ H) as (resto2 & Hr2 & _).
    cbn [log] in Hr1. rewrite Hr2, Hr1, <- !app_assoc in Hl.
    apply app_inv_head in Hl. exists (resto1 ++ resto2). by subst evs.
Qed.

Lemma processar_completo_spec (w : world) (slots : slots_t)
    (prefixo label : pystr) (s s' : state) (resp : response) :
  processar_completo w slots prefixo label s = (s', Some resp) ->
  exists fontes s1 h df_final df_juntar df_e evs_r evs_l evs_u nome ctx,
    log s1 = log s ++ evs_r /\ Forall e_leitura evs_r
    /\ calcular_comissoes (heap s1) fontes = Some (h, (df_final, df_juntar))
    /\ h !! df_final = Some df_e
    /\ let df1 := arredondar (select_number df_e) df_e in
       let df2 := arredondar (select_number df1) df1 in
       s' = {| heap := <[df_final := df2]> (<[df_final := df1]> h);
               log := log s ++ evs_r
                        ++ [Engine df_final df_juntar; RoundInPlace df_final]
                        ++ evs_l ++ evs_u ++ [RoundInPlace df_final] |}
       /\ Forall e_gravacao evs_l /\ Forall e_envio evs_u
       /\ (if w_vercel w then evs_l = []
           else exists p resto,
                  OUTPUT_FILES w !! py "df_final" = Some p
                  /\ evs_l = Makedirs (w_join w (OUTPUT_DIR w) prefixo)
                               :: ToExcel p df1 :: resto)
       /\ (w_supabase w = false -> evs_u = [])
       /\ (forall caminho, nome = Some caminho ->
             exists resto,
               caminho = prefixo ++ py "/df_final_" ++ w_now w ++ py ".xlsx"
               /\ evs_u = Upload caminho df1 :: resto)
       /\ (w_supabase w = true ->
           w_upload_ok w (prefixo ++ py "/df_final_" ++ w_now w ++ py ".xlsx") = true ->
           exists resto,
             evs_u = Upload (prefixo ++ py "/df_final_" ++ w_now w ++ py ".xlsx") df1
                       :: resto)
       /\ resp = Render (py "resultado.html") ctx
       /\ pagina_de df2 ctx.
Proof.
  unfold processar_completo. intros H.
  apply bind_ok in H as (s1 & fontes & E1 & H).
  apply bind_ok in H as (s2 & [df_final df_juntar] & E2 & H).
  apply bind_ok in H as (s3 & df_e & E3 & H). apply deref_ok in E3 as [-> E3].
  apply bind_ok in H as (s3 & [] & E4 & H). apply assign_ok in E4. subst s3.
  apply bind_ok in H as (s3 & [] & E4 & H). apply emit_ok in E4. subst s3.
  apply bind_ok in H as (s4 & [] & E4 & H).
  apply bind_ok in H as (s5 & nome & E5 & H).
  apply bind_ok in H as (s6 & ctx0 & E6 & H).
  apply bind_ok in H as (s7 & ctx & E7 & H).
  apply mret_ok in H as [-> ->].
  assert (Hr : emite e_leitura
                 (mapM (fun kn : pystr * pystr => ler_slot slots (fst kn)) nomes_fontes))
    by (apply emite_mapM; intros; apply emite_ler_slot).
  destruct (Hr _ _ _ E1) as (evs_r & Hlr & Hfr).
  apply chamar_engine_ok in E2 as (h & Heng & ->). cbn [heap log fst snd] in *.
  set (df1 := arredondar (select_number df_e) df_e) in *.
  apply (gravacao_local_spec _ _ _ _ _ _ _ df1) in E4
    as (evs_l & -> & Hfl & Hl); [|cbn [heap]; apply lookup_insert_eq].
  apply (envio_spec _ _ _ _ _ _ _ df1) in E5
    as (evs_u & -> & Hfu & Hu1 & Hu2 & Hu3); [|cbn [heap]; apply lookup_insert_eq].
  cbn [heap log] in *.
  destruct (montar_corrigir _ _ _ _ _ _ _ _ _ _ _ E6 E7) as (df0 & Hdf0 & -> & Hpag).
  cbn [heap log] in *. rewrite lookup_insert_eq in Hdf0. injection Hdf0 as <-.
  exists fontes, s1, h, df_final, df_juntar, df_e, evs_r, evs_l, evs_u, nome, ctx.
  split; [done|]. split; [done|]. split; [done|]. split; [done|].
  cbv zeta. fold df1. split.
  { f_equal. rewrite Hlr. by rewrite <- !app_assoc. }
  repeat (split; [done|]). done.
Qed.

End ProcessarFacts.

(** ** Missing sources *)

Lemma split1_sem_sep (sep : N) (s : pystr) :
  Forall (fun c => c <> sep) s -> split1 sep s = [s].
Proof.
  induction 1 as [|c s Hc _ IH]; simpl; [done|].
  destruct (N.eqb_spec c sep); [done|]. by rewrite IH.
Qed.

Lemma split1_app (sep : N) (a b : pystr) :
  Forall (fun c => c <> sep) a -> split1 sep (a ++ sep :: b) = a :: split1 sep b.
Proof.
  induction 1 as [|c a Hc _ IH]; simpl.
  - by rewrite N.eqb_refl.
  - destruct (N.eqb_spec c sep); [done|]. by rewrite IH.
Qed.

Lemma startswith_app (n b : pystr) : startswith n (n ++ b) = true.
Proof. induction n as [|c n IH]; simpl; [done|]. by rewrite N.eqb_refl, IH. Qed.

Lemma contains_unfold (n h : pystr) :
  contains n h = startswith n h || match h with [] => false | _ :: t => contains n t end.
Proof. by destruct h. Qed.

Lemma contains_meio (n a b : pystr) : contains n (a ++ n ++ b) = true.
Proof.
  induction a as [|c a IH]; rewrite contains_unfold.
  - by rewrite app_nil_l, startswith_app.
  - cbn [app]. rewrite IH. apply orb_true_r.
Qed.

Lemma join_in (sep k : pystr) (l : list pystr) :
  In k l -> exists a b, join sep l = a ++ k ++ b.
Proof.
  induction l as [|p l IH]; [done|].
  intros [->|Hin].
  - destruct l as [|q l]; simpl.
    + exists [], []. by rewrite app_nil_r.
    + by exists [], (sep ++ join sep (q :: l)).
  - destruct (IH Hin) as (a & b & E). destruct l as [|q l]; [done|].
    change (join sep (p :: q :: l)) with (p ++ sep ++ join sep (q :: l)).
    rewrite E. exists (p ++ sep ++ a), b. by rewrite <- !app_assoc.
Qed.

Section MissingFacts.
Context {U : Unicode}.

Lemma re_competencia_split (c : pystr) :
  re_match re_competencia c = true ->
  exists ano mes, split1 45 c = [ano; mes].
Proof.
  unfold re_match, re_competencia. cbn [eat].
  destruct (eat_digits 4 c) as [r1|] eqn:E1; [|done].
  destruct (eat_lit (py "-") r1) as [r2|] eqn:E2; [|done].
  destruct (eat_digits 2 r2) as [r3|] eqn:E3; [|done].
  intros Hend.
  apply eat_digits_spec in E1 as (d4 & -> & _ & D4).
  apply eat_lit_spec in E2 as ->.
  apply eat_digits_spec in E3 as (d2 & -> & _ & D2).
  assert (Hd : forall d, Forall (fun c => is_digit c = true) d ->
                         Forall (fun c => c <> 45) d).
  { intros d. apply List.Forall_impl. intros x Hx ->.
    by rewrite digit_hyphen in Hx. }
  exists d4, (d2 ++ r3). change (py "-" ++ d2 ++ r3) with (45 :: d2 ++ r3).
  rewrite split1_app by auto. rewrite split1_sem_sep; [done|].
  apply Forall_app. split; [auto|].
  destruct r3 as [|x [|? ?]]; simpl in Hend; try done.
  apply N.eqb_eq in Hend; subst. by repeat constructor.
Qed.

Lemma marca_chaves (f : upload) (nome chave : pystr) (c : classif) :
  In chave (List.map fst (c_slots c)) ->
  List.map fst (c_slots (marca f nome chave c)) = List.map fst (c_slots c).
Proof.
  intros Hin. unfold marca. destruct (slot_get _ _); [done|].
  simpl. by apply slot_set_keys.
Qed.

Lemma precedencia_em_slots (chave : pystr) :
  In chave (List.map snd precedencia) -> In chave (List.map fst slots_iniciais).
Proof. vm_compute. tauto. Qed.

Lemma fold_passo_chaves (arquivos : list upload) (c : classif) :
  List.map fst (c_slots c) = List.map fst slots_iniciais ->
  List.map fst (c_slots (fold_left passo arquivos c)) = List.map fst slots_iniciais.
Proof.
  revert c. induction arquivos as [|f rest IH]; intros c Hc; [done|].
  simpl. apply IH. rewrite passo_precedencia.
  destruct (primeira_chave (nome_de f)) as [chave|] eqn:E; [|done].
  rewrite marca_chaves; [done|]. rewrite Hc.
  apply precedencia_em_slots. by apply chaves_precedencia in E.
Qed.

Lemma classificar_chaves (arquivos : list upload) :
  List.map fst (fst (classificar_arquivos arquivos)) = List.map fst slots_iniciais.
Proof.
  assert (H : List.map fst (c_slots (laco arquivos)) = List.map fst slots_iniciais)
    by by apply fold_passo_chaves.
  unfold classificar_arquivos; simpl fst.
  destruct (nao_usados _ _); [done|]. destruct (slot_get _ _); [done|].
  rewrite slot_set_keys; [done|]. rewrite H. vm_compute. tauto.
Qed.

Lemma faltando_de_spec (slots : slots_t) (k : pystr) :
  NoDup (List.map fst slots) ->
  In k (faltando_de slots) <-> In k (List.map fst slots) /\ slot_get slots k = None.
Proof.
  unfold faltando_de. induction slots as [|[k0 v] rest IH]; simpl.
  - tauto.
  - intros Hnd. apply NoDup_cons in Hnd as [Hk0 Hnd]. specialize (IH Hnd).
    destruct (str_eqb k0 k) eqn:E.
    + apply str_eqb_true in E; subst k0.
      destruct v; simpl.
      * rewrite IH. split; [|intros [_ [=]]].
        intros [Hin _]. exfalso. by apply Hk0, list_elem_of_In.
      * split; [by auto|]. by left.
    + apply str_eqb_false in E.
      destruct v; simpl; rewrite IH; intuition congruence.
Qed.

End MissingFacts.

Section MissingClaim.
Context {U : Unicode} {P : Pandas} {B : Backend}.

Lemma flash_redirect_run (msgs : list pystr) (s : state) :
  flash_redirect msgs s
  = ({| heap := heap s; log := log s ++ List.map Flash msgs |}, Some (Redirect url_index)).
Proof.
  unfold flash_redirect.
  assert (H : forall s0, mapM (fun m => emit (Flash m)) msgs s0
            = ({| heap := heap s0; log := log s0 ++ List.map Flash msgs |},
               Some (List.map (fun _ => tt) msgs))).
  { induction msgs as [|m msgs IH]; intros s0; simpl.
    - rewrite app_nil_r. by destruct s0.
    - unfold mbind, M_bind, emit at 1. rewrite IH. cbn [heap log].
      by rewrite <- app_assoc. }
  unfold mbind, M_bind. by rewrite H.
Qed.

(** C2, as amended.  When the classification of the batch leaves a slot
    unfilled, the run ends in the redirect to the index page having logged
    flash messages only: no file is read, the engine is not invoked, nothing
    is saved, uploaded or rendered.  When the run gets as far as the
    classification (the competence is valid, the batch is not empty and its
    first file has a name), the first message names every unfilled slot at
    once. *)
Theorem fontes_faltando_abortam (w : world) (req : request) (s : state)
    (slots : slots_t) (faltando : list pystr) :
  classificar_arquivos (files req) = (slots, faltando) ->
  faltando <> [] ->
  (forall k, In k faltando <->
             In k (List.map fst slots_iniciais) /\ slot_get slots k = None)
  /\ (exists s' msgs,
        processar w req s = (s', Some (Redirect url_index))
        /\ heap s' = heap s /\ log s' = log s ++ List.map Flash msgs)
  /\ (re_match re_competencia (strip (or_empty (form_competencia req))) = true ->
      (exists f rest, files req = f :: rest /\ filename f <> Some []) ->
      let msg := py "Não consegui identificar estes tipos de arquivo: "
                   ++ join (py ", ") faltando in
      processar w req s
      = ({| heap := heap s;
            log := log s ++
              [ Flash msg;
                Flash (py "Confira se os nomes contêm: Seguro, Câmbio, Terceiras, XPVP, Crédito, XPCS, Lançamentos Manuais, Times e Repasses, Lançamento de Produtos.") ] |},
         Some (Redirect url_index))
      /\ forall k, In k faltando -> contains k msg = true).
Proof.
  intros Hcl Hne. split; [|split].
  - intros k.
    assert (Hs : slots = fst (classificar_arquivos (files req))) by by rewrite Hcl.
    assert (Hf : faltando = faltando_de slots).
    { rewrite Hs. unfold classificar_arquivos in *. by injection Hcl as <- <-. }
    rewrite Hf, faltando_de_spec.
    + by rewrite Hs, classificar_chaves.
    + rewrite Hs, classificar_chaves. vm_compute.
      repeat (constructor; [rewrite ?list_elem_of_In; simpl; intuition discriminate|]).
      constructor.
  - unfold processar.
    destruct (re_match re_competencia _) eqn:Hre; cbn [negb].
    + destruct (re_competencia_split _ Hre) as (ano & mes & ->).
      destruct (match files req with [] => true | f :: _ => bool_decide (filename f = Some []) end).
      * rewrite flash_redirect_run. by eexists _, _.
      * rewrite Hcl. destruct faltando; [done|].
        rewrite flash_redirect_run. by eexists _, _.
    + rewrite flash_redirect_run. by eexists _, _.
  - intros Hre (f & rest & Hfiles & Hname) msg. split.
    + unfold processar. rewrite Hre; cbn [negb].
      destruct (re_competencia_split _ Hre) as (ano & mes & ->).
      rewrite Hfiles, bool_decide_eq_false_2 by done.
      rewrite <- Hfiles, Hcl. destruct faltando; [done|].
      by rewrite flash_redirect_run.
    + intros k Hk. destruct (join_in (py ", ") k faltando Hk) as (a & b & E).
      unfold msg. rewrite E, app_assoc. apply contains_meio.
Qed.

End MissingClaim.

(** C2 on a concrete batch: nine of the ten sources, the base one missing. *)
Lemma fontes_faltando_exemplo :
  let req := pedido_processar (List.tl lote_completo) in
  snd (@classificar_arquivos unicode_latin1 (files req)) = [py "pj1"]
  /\ @processar unicode_latin1 pandas_ref backend_ref world_ref req estado_inicial
     = ({| heap := ∅;
           log := [ Flash (py "Não consegui identificar estes tipos de arquivo: pj1");
                    Flash (py "Confira se os nomes contêm: Seguro, Câmbio, Terceiras, XPVP, Crédito, XPCS, Lançamentos Manuais, Times e Repasses, Lançamento de Produtos.") ] |},
        Some (Redirect url_index)).
Proof.
  intros req. split; [by vm_compute|].
  refine (proj1 (proj2 (proj2
    (@fontes_faltando_abortam unicode_latin1 pandas_ref backend_ref world_ref req
       estado_inicial
       (fst (@classificar_arquivos unicode_latin1 (files req))) [py "pj1"] _ _)) _ _)).
  - by vm_compute.
  - discriminate.
  - by vm_compute.
  - eexists _, _. split; [reflexivity|]. discriminate.
Defined.

(** C2, as stated, fails: an empty batch leaves all ten slots unfilled, yet
    the only message of the run names none of them; and nine of the ten
    sources sent without a competence get the message of the competence
    guard, which does not name the tenth. *)
Lemma lote_vazio_nao_nomeia :
  (exists req : request,
     let r := @processar unicode_latin1 pandas_ref backend_ref world_ref req estado_inicial in
     In (py "pj1") (snd (@classificar_arquivos unicode_latin1 (files req)))
     /\ snd r = Some (Redirect url_index)
     /\ log (fst r) = [Flash (py "Nenhum arquivo foi enviado. Selecione a pasta ou os arquivos de comissão.")]
     /\ forall msg, In (Flash msg) (log (fst r)) -> contains (py "pj1") msg = false)
  /\ (exists req : request,
        let r := @processar unicode_latin1 pandas_ref backend_ref world_ref req estado_inicial in
        snd (@classificar_arquivos unicode_latin1 (files req)) = [py "pj1"]
        /\ length (files req) = 9%nat
        /\ snd r = Some (Redirect url_index)
        /\ log (fst r) = [Flash (py "Selecione a competência (mês/ano) antes de processar.")]
        /\ forall msg, In (Flash msg) (log (fst r)) -> contains (py "pj1") msg = false).
Proof.
  split.
  - exists (pedido_processar []). cbv zeta.
    split; [vm_compute; tauto|]. split; [by vm_compute|]. split; [by vm_compute|].
    intros msg Hin. vm_compute in Hin. destruct Hin as [[= <-]|[]]. by vm_compute.
  - exists {| form_competencia := None; files := List.tl lote_completo;
              args_file := None; args_competencia := None |}. cbv zeta.
    split; [by vm_compute|]. split; [done|]. split; [by vm_compute|].
    split; [by vm_compute|].
    intros msg Hin. vm_compute in Hin. destruct Hin as [[= <-]|[]]. by vm_compute.
Qed.

(** ** The two flows that render the result page *)



Section FlowFacts.
Context {U : Unicode} {P : Pandas} {B : Backend}.

Lemma processar_render (w : world) (req : request) (s s' : state) (resp : response) :
  processar w req s = (s', Some resp) ->
  resp = Redirect url_index
  \/ exists slots ano mes,
       split1 45 (strip (or_empty (form_competencia req))) = [ano; mes]
       /\ processar_completo w slots (ano ++ py "-" ++ mes) (mes ++ py "/" ++ ano) s
          = (s', Some resp).
Proof.
  unfold processar.
  destruct (re_match re_competencia _) eqn:Hre; cbn [negb].
  - destruct (re_competencia_split _ Hre) as (ano & mes & Hsp). rewrite Hsp.
    destruct (match files req with [] => true | f :: _ => bool_decide (filename f = Some []) end).
    + rewrite flash_redirect_run. intros [= <- <-]. by left.
    + destruct (classificar_arquivos (files req)) as [slots [|k faltando]].
      * intros H. right. by exists slots, ano, mes.
      * rewrite flash_redirect_run. intros [= <- <-]. by left.
  - rewrite flash_redirect_run. intros [= <- <-]. by left.
Qed.

Lemma visualizar_arquivo_render (w : world) (file_path competencia : pystr)
    (s s' : state) (t : pystr) (ctx : gmap pystr value) :
  visualizar_arquivo w file_path competencia s = (s', Some (Render t ctx)) ->
  exists r label dj fontes s0 s1 ctx0,
    montar_contexto_dashboard w r label (Some file_path) dj fontes s0 = (s1, Some ctx0)
    /\ corrigir_max_total ctx0 s1 = (s', Some ctx).
Proof.
  unfold visualizar_arquivo. intros H.
  apply bind_ok in H as (s1 & o & E1 & H).
  destruct o as [df_final|]; [|by minv].
  apply bind_ok in H as (s2 & label & E2 & H).
  apply bind_ok in H as (s3 & [dj fontes] & E3 & H).
  apply bind_ok in H as (s4 & ctx0 & E4 & H).
  apply bind_ok in H as (s5 & ctx1 & E5 & H).
  apply mret_ok in H as [-> [= -> ->]].
  by exists df_final, label, dj, fontes, s3, s4, ctx0.
Qed.

Lemma visualizar_render (w : world) (req : request) (s s' : state)
    (t : pystr) (ctx : gmap pystr value) :
  visualizar_antigo w req s = (s', Some (Render t ctx)) ->
  exists r label caminho dj fontes s0 s1 ctx0,
    montar_contexto_dashboard w r label caminho dj fontes s0 = (s1, Some ctx0)
    /\ corrigir_max_total ctx0 s1 = (s', Some ctx).
Proof.
  unfold visualizar_antigo.
  destruct (w_supabase w); cbn [negb]; [|intros H; by minv].
  destruct (strip (or_empty (args_file req))) as [|c fp].
  - destruct (re_match re_competencia _); cbn [negb]; [|intros H; by minv].
    destruct (escolher_mais_recente_df_final w _) as [[|c fp]|]; try (intros H; by minv).
    intros H. apply visualizar_arquivo_render in H
      as (r & label & dj & fontes & s0 & s1 & ctx0 & H1 & H2).
    by exists r, label, (Some (c :: fp)), dj, fontes, s0, s1, ctx0.
  - intros H. apply visualizar_arquivo_render in H
      as (r & label & dj & fontes & s0 & s1 & ctx0 & H1 & H2).
    by exists r, label, (Some (c :: fp)), dj, fontes, s0, s1, ctx0.
Qed.

(** C5.  True maximum in the dashboard: in both flows the context given to
    the result page holds, under [max_total], the currency-formatted maximum
    of the column "Valor Total Assessor" of the frame it displays (and no
    [max_total_val]); when the frame has no such column it holds the
    formatted zero. *)
Theorem max_total_verdadeiro (w : world) (req : request) (s : state) :
  let pagina := fun (s' : state) (ctx : gmap pystr value) =>
    exists df_final df,
      heap s' !! df_final = Some df
      /\ ctx !! py "tabela" = Some (VStr (to_html (display (select_number df) df)))
      /\ ctx !! py "max_total_val" = None
      /\ match coluna (cols df) (py "Valor Total Assessor") with
         | Some c => exists m, col_max c = Some m
                               /\ ctx !! py "max_total" = Some (VStr (brl m))
         | None => ctx !! py "max_total" = Some (VStr (brl (S754_zero false)))
         end in
  (forall s' t ctx,
     processar w req s = (s', Some (Render t ctx)) -> pagina s' ctx)
  /\ (forall s' t ctx,
        visualizar_antigo w req s = (s', Some (Render t ctx)) -> pagina s' ctx).
Proof.
  intros pagina.
  assert (Hpag : forall r label caminho dj fontes s0 s1 s' ctx0 ctx,
            montar_contexto_dashboard w r label caminho dj fontes s0 = (s1, Some ctx0) ->
            corrigir_max_total ctx0 s1 = (s', Some ctx) -> pagina s' ctx).
  { intros r label caminho dj fontes s0 s1 s' ctx0 ctx H1 H2.
    destruct (montar_corrigir _ _ _ _ _ _ _ _ _ _ _ H1 H2) as (df0 & _ & -> & Hp).
    exists r, (arredondar (select_number df0) df0). split; [apply lookup_insert_eq|].
    exact Hp. }
  split; intros s' t ctx H.
  - apply processar_render in H as [[=]|(slots & ano & mes & _ & H)].
    apply processar_completo_spec in H
      as (fontes & s1 & h & df_final & df_juntar & df_e & evs_r & evs_l & evs_u & nome
          & ctx' & _ & _ & _ & _ & Hs & _ & _ & _ & _ & _ & _ & [= _ <-] & Hp).
    eexists df_final, _. split; [|exact Hp]. rewrite Hs. apply lookup_insert_eq.
  - apply visualizar_render in H
      as (r & label & caminho & dj & fontes & s0 & s1 & ctx0 & H1 & H2).
    by eapply Hpag.
Qed.





End FlowFacts.

(** ** The flows on concrete requests *)

Section Exemplos.
#[local] Existing Instance unicode_latin1.
#[local] Existing Instance pandas_ref.
#[local] Existing Instance backend_ref.

Example execucao_exemplo_max_total :
  contexto_de (snd execucao_exemplo) !! py "max_total" = Some (VStr (py "R$ 2,88"))
  /\ contexto_de (snd execucao_exemplo) !! py "media_total" = Some (VStr (py "R$ 0,98"))
  /\ contexto_de (snd visualizacao_exemplo) !! py "max_total" = Some (VStr (py "R$ 1,00")).
Proof. vm_compute. by repeat split. Qed.

(** C5 on the two concrete requests. *)
Lemma max_total_exemplo :
  let pagina := fun (s' : state) (ctx : gmap pystr value) =>
    exists df_final df,
      heap s' !! df_final = Some df
      /\ ctx !! py "tabela" = Some (VStr (to_html (display (select_number df) df)))
      /\ ctx !! py "max_total_val" = None
      /\ match coluna (cols df) (py "Valor Total Assessor") with
         | Some c => exists m, col_max c = Some m
                               /\ ctx !! py "max_total" = Some (VStr (brl m))
         | None => ctx !! py "max_total" = Some (VStr (brl (S754_zero false)))
         end in
  pagina (fst execucao_exemplo) (contexto_de (snd execucao_exemplo))
  /\ pagina (fst visualizacao_exemplo) (contexto_de (snd visualizacao_exemplo)).
Proof.
  intros pagina. split.
  - apply (proj1 (max_total_verdadeiro world_ref (pedido_processar lote_completo)
                    estado_inicial) _ (py "resultado.html")).
    vm_compute; reflexivity.
  - apply (proj2 (max_total_verdadeiro world_ref
                    {| form_competencia := None; files := [];
                       args_file := None; args_competencia := Some (py " 2025-12 ") |}
                    estado_inicial) _ (py "resultado.html")).
    vm_compute; reflexivity.
Defined.



(** C9 on a concrete aggregate. *)
Lemma montar_arredonda_exemplo :
  heap estado_exemplo !! 0%nat = Some frame_exemplo
  /\ exists df,
       heap (fst (montar_contexto_dashboard world_ref 0%nat (py "12/2025") None None None
                    estado_exemplo))
       = <[0%nat := df]> (heap estado_exemplo)
       /\ nrows df = nrows frame_exemplo
       /\ cols df =
          List.map (fun nc => (fst nc,
                               match snd nc with
                               | ColFloat l => ColFloat (List.map round2 l)
                               | ColInt l => ColInt l
                               | ColObj l => ColObj l
                               end)) (cols frame_exemplo).
Proof.
  split; [done|].
  apply (montar_arredonda_no_lugar world_ref 0%nat (py "12/2025") None None None
           estado_exemplo frame_exemplo).
  done.
Defined.

Example montar_exemplo_valores :
  heap (fst (montar_contexto_dashboard world_ref 0%nat (py "12/2025") None None None
               estado_exemplo)) !! 0%nat
  = Some {| nrows := 2;
            cols := [ (py "Assessor", ColObj [py "A1"; py "A2"]);
                      (py "Valor Total Assessor",
                       ColFloat [ SFdiv 53 1024 (float_of_Z 15012) (float_of_Z 100);
                                  SFdiv 53 1024 (float_of_Z 9988) (float_of_Z 100) ]);
                      (py "Clientes", ColInt [3%Z; 4%Z]) ] |}.
Proof. vm_compute; reflexivity. Qed.

End Exemplos.

(** * Further properties of the routes *)

(** ** The classifier: what a batch can and cannot fill *)

Lemma find_app_l {A : Type} (P : A -> bool) (a b : list A) :
  List.find P (a ++ b) =
  match List.find P a with
  | Some x => Some x
  | None => List.find P b
  end.
Proof. induction a as [|x a IH]; simpl; [done|]. by destruct (P x). Qed.

Lemma slots_iniciais_NoDup : NoDup (List.map fst slots_iniciais).
Proof.
  vm_compute.
  repeat (constructor; [rewrite ?list_elem_of_In; simpl; intuition discriminate|]).
  constructor.
Qed.

Lemma slot_get_in (slots : slots_t) (k : pystr) (f : upload) :
  NoDup (List.map fst slots) ->
  In (k, Some f) slots <-> slot_get slots k = Some f.
Proof.
  induction slots as [|[k0 v] rest IH]; simpl; [intros _; split; [tauto|done]|].
  intros Hnd. apply NoDup_cons in Hnd as [Hk0 Hnd]. specialize (IH Hnd).
  destruct (str_eqb k0 k) eqn:E.
  - apply str_eqb_true in E; subst k0. split.
    + intros [[= ->]|Hin]; [done|]. exfalso. apply Hk0, list_elem_of_In.
      apply in_map_iff. by exists (k, Some f).
    + intros ->. by left.
  - apply str_eqb_false in E. rewrite <- IH. split; [|tauto].
    intros [[= -> _]|Hin]; [done|done].
Qed.

Lemma cheios_faltando (slots : slots_t) :
  (length (omap snd slots) + length (faltando_de slots))%nat = length slots.
Proof.
  unfold faltando_de. induction slots as [|[k [f|]] rest IH]; [done| |]; cbn in *; lia.
Qed.

Lemma faltando_sublist (slots : slots_t) : sublist (faltando_de slots) (List.map fst slots).
Proof.
  unfold faltando_de. induction slots as [|[k [f|]] rest IH]; simpl.
  - constructor.
  - by apply sublist_cons.
  - by apply sublist_skip.
Qed.

Section BatchFacts.
Context {U : Unicode}.

Lemma classificar_slots (arquivos : list upload) :
  let slots := fst (classificar_arquivos arquivos) in
  slot_get slots (py "pj1") = head (nao_usados (c_usados (laco arquivos)) arquivos)
  /\ (forall k, k <> py "pj1" -> slot_get slots k = primeiro_arquivo k arquivos).
Proof.
  intros slots.
  assert (Hpj1 : slot_get (c_slots (laco arquivos)) (py "pj1") = None).
  { rewrite laco_slot. apply primeiro_arquivo_fora, pj1_fora_da_precedencia. }
  unfold slots, classificar_arquivos; simpl fst. split.
  - destruct (nao_usados _ _) as [|f ?]; simpl; [done|].
    rewrite Hpj1. by rewrite slot_get_set_eq.
  - intros k Hk. destruct (nao_usados _ _); [apply laco_slot|]. rewrite Hpj1.
    rewrite slot_get_set_ne by done. apply laco_slot.
Qed.

Lemma slot_de_arquivo (arquivos : list upload) (k : pystr) (f : upload) :
  slot_get (fst (classificar_arquivos arquivos)) k = Some f -> In f arquivos.
Proof.
  destruct (classificar_slots arquivos) as [Hh Hk]. intros Hs.
  destruct (decide (k = py "pj1")) as [->|Hne].
  - rewrite Hh in Hs.
    destruct (nao_usados _ _) as [|g rest] eqn:E; [done|]. injection Hs as ->.
    assert (Hin : In f (nao_usados (c_usados (laco arquivos)) arquivos))
      by (rewrite E; by left).
    by apply nao_usados_spec in Hin as [Hin _].
  - rewrite Hk in Hs by done. by apply primeiro_arquivo_some in Hs as [Hs _].
Qed.

Lemma nomes_distintos (arquivos : list upload) (k k' : pystr) (f g : upload) :
  k <> k' ->
  slot_get (fst (classificar_arquivos arquivos)) k = Some f ->
  slot_get (fst (classificar_arquivos arquivos)) k' = Some g ->
  nome_de f <> nome_de g.
Proof.
  destruct (classificar_slots arquivos) as [Hh Hk].
  assert (Hbase : forall k0 f0 g0, k0 <> py "pj1" ->
            slot_get (fst (classificar_arquivos arquivos)) (py "pj1") = Some f0 ->
            slot_get (fst (classificar_arquivos arquivos)) k0 = Some g0 ->
            nome_de g0 <> nome_de f0).
  { intros k0 f0 g0 Hk0 Hf Hg Heq. rewrite Hh in Hf.
    destruct (nao_usados _ _) as [|x rest] eqn:E; [done|]. injection Hf as ->.
    assert (Hin : In f0 (nao_usados (c_usados (laco arquivos)) arquivos))
      by (rewrite E; by left).
    apply nao_usados_spec in Hin as [_ Hno]. apply Hno. exists k0, g0.
    rewrite laco_slot, <- Hk by done. done. }
  intros Hne Hf Hg.
  destruct (decide (k = py "pj1")) as [->|Hk1].
  - intros Heq. by apply (Hbase k' f g).
  - destruct (decide (k' = py "pj1")) as [->|Hk2].
    + by apply (Hbase k g f).
    + rewrite Hk in Hf, Hg by done.
      apply primeiro_arquivo_some in Hf as [_ Hf].
      apply primeiro_arquivo_some in Hg as [_ Hg].
      intros Heq. rewrite Heq in Hf. congruence.
Qed.

Lemma nomes_NoDup (l : slots_t) :
  NoDup (List.map fst l) ->
  (forall k k' f g, k <> k' -> In (k, Some f) l -> In (k', Some g) l ->
                    nome_de f <> nome_de g) ->
  NoDup (List.map nome_de (omap snd l)).
Proof.
  induction l as [|[k v] rest IH]; simpl; [intros; constructor|].
  intros Hnd Hdif. apply NoDup_cons in Hnd as [Hk Hnd].
  assert (Hrest : NoDup (List.map nome_de (omap snd rest))).
  { apply IH; [done|]. intros k1 k2 f g Hne H1 H2.
    apply (Hdif k1 k2); [done|by right|by right]. }
  destruct v as [f|]; simpl; [|done].
  apply NoDup_cons. split; [|done].
  rewrite list_elem_of_In, in_map_iff. intros (g & Hn & Hg).
  apply list_elem_of_In, list_elem_of_omap in Hg as ([k' v'] & Hin & Hv).
  simpl in Hv. subst v'. apply list_elem_of_In in Hin.
  apply (Hdif k k' f g); [|by left|by right|done].
  intros ->. apply Hk, list_elem_of_In, in_map_iff. by exists (k', Some g).
Qed.

Lemma cheios_limitados (arquivos : list upload) :
  (10 <= length (snd (classificar_arquivos arquivos)) + length arquivos)%nat.
Proof.
  set (slots := fst (classificar_arquivos arquivos)).
  assert (Hf : snd (classificar_arquivos arquivos) = faltando_de slots) by done.
  assert (Hkeys : List.map fst slots = List.map fst slots_iniciais)
    by apply classificar_chaves.
  assert (Hnd : NoDup (List.map fst slots))
    by (rewrite Hkeys; apply slots_iniciais_NoDup).
  assert (Hlen : length slots = 10%nat).
  { rewrite <- (length_map fst), Hkeys. done. }
  assert (Hn : NoDup (List.map nome_de (omap snd slots))).
  { apply nomes_NoDup; [done|]. intros k k' f g Hne H1 H2.
    apply slot_get_in in H1, H2; try done.
    by apply (nomes_distintos arquivos k k'). }
  assert (Hincl : incl (List.map nome_de (omap snd slots)) (List.map nome_de arquivos)).
  { intros n Hin. apply in_map_iff in Hin as (f & <- & Hin).
    apply in_map. apply list_elem_of_In, list_elem_of_omap in Hin as ([k v] & Hin & Hv).
    simpl in Hv. subst v. apply list_elem_of_In, slot_get_in in Hin; [|done].
    by apply (slot_de_arquivo arquivos k). }
  pose proof (List.NoDup_incl_length (proj1 (NoDup_ListNoDup _) Hn) Hincl) as Hle.
  rewrite !length_map in Hle.
  pose proof (cheios_faltando slots) as Hsum. rewrite Hf. lia.
Qed.

(** X1.  Two slots never share a file: the files that
    [classificar_arquivos] puts in two different slots have different
    lower-cased names, and both come from the batch.  Hence the missing
    slots and the files of the batch together number at least ten. *)
Theorem slots_com_nomes_distintos (arquivos : list upload) :
  let slots := fst (classificar_arquivos arquivos) in
  let faltando := snd (classificar_arquivos arquivos) in
  (forall k k' f g, k <> k' -> slot_get slots k = Some f -> slot_get slots k' = Some g ->
     nome_de f <> nome_de g /\ In f arquivos /\ In g arquivos)
  /\ (10 <= length faltando + length arquivos)%nat.
Proof.
  intros slots faltando. split; [|apply cheios_limitados].
  intros k k' f g Hne Hf Hg. split; [by apply (nomes_distintos arquivos k k')|].
  split; [by apply (slot_de_arquivo arquivos k)|by apply (slot_de_arquivo arquivos k')].
Qed.

(** X3.  The slots returned are always the ten keys of the source, in its
    order; the missing keys are listed in that same order, none of them
    twice. *)
Theorem faltando_na_ordem_dos_slots (arquivos : list upload) :
  let chaves := [py "pj1"; py "seg"; py "cam"; py "co_ter"; py "co_xpvp"; py "cre";
                 py "xpcs"; py "lan_man"; py "tim_rep"; py "lan_pro"] in
  List.map fst (fst (classificar_arquivos arquivos)) = chaves
  /\ sublist (snd (classificar_arquivos arquivos)) chaves
  /\ NoDup (snd (classificar_arquivos arquivos)).
Proof.
  intros chaves.
  assert (Hk : List.map fst (fst (classificar_arquivos arquivos)) = chaves)
    by apply classificar_chaves.
  assert (Hs : sublist (snd (classificar_arquivos arquivos)) chaves).
  { rewrite <- Hk. apply faltando_sublist. }
  split; [done|]. split; [done|].
  eapply sublist_NoDup; [apply slots_iniciais_NoDup|exact Hs].
Qed.

Lemma nao_usados_app (usados : gset pystr) (a b : list upload) :
  nao_usados usados (a ++ b) = nao_usados usados a ++ nao_usados usados b.
Proof. unfold nao_usados. apply List.filter_app. Qed.

Lemma primeiro_arquivo_app (k : pystr) (a b : list upload) :
  primeiro_arquivo k (a ++ b) =
  match primeiro_arquivo k a with
  | Some f => Some f
  | None => primeiro_arquivo k b
  end.
Proof. apply find_app_l. Qed.

(** X4.  Files that come later in the batch change no slot that the earlier
    ones fill: a slot filled from the files [a] holds the same file when the
    batch is [a ++ b]. *)
Theorem slot_preenchido_permanece (a b : list upload) (k : pystr) (f : upload) :
  slot_get (fst (classificar_arquivos a)) k = Some f ->
  slot_get (fst (classificar_arquivos (a ++ b))) k = Some f.
Proof.
  destruct (classificar_slots a) as [Ha Hka].
  destruct (classificar_slots (a ++ b)) as [Hab Hkab].
  intros Hs. destruct (decide (k = py "pj1")) as [->|Hne].
  - rewrite Ha in Hs. rewrite Hab, nao_usados_app.
    assert (Heq : nao_usados (c_usados (laco (a ++ b))) a
                  = nao_usados (c_usados (laco a)) a).
    { unfold nao_usados. apply List.filter_ext_in. intros x Hx. f_equal.
      apply bool_decide_ext. rewrite !laco_usados. setoid_rewrite laco_slot.
      split.
      - intros (k0 & g & Hg & Hn). rewrite primeiro_arquivo_app in Hg.
        destruct (primeiro_arquivo k0 a) as [g'|] eqn:E.
        + injection Hg as ->. by exists k0, g.
        + exfalso. apply primeiro_arquivo_some in Hg as [_ Hg].
          unfold primeiro_arquivo in E.
          apply (find_none _ _ E) in Hx. apply bool_decide_eq_false in Hx.
          apply Hx. by rewrite <- Hn.
      - intros (k0 & g & Hg & Hn). exists k0, g. split; [|done].
        by rewrite primeiro_arquivo_app, Hg. }
    rewrite Heq. by destruct (nao_usados (c_usados (laco a)) a).
  - rewrite Hka in Hs by done. rewrite Hkab by done.
    by rewrite primeiro_arquivo_app, Hs.
Qed.

End BatchFacts.

(** ** Too few files *)

Section FewFiles.
Context {U : Unicode} {P : Pandas} {B : Backend}.

(** X2.  A request with fewer than ten files never reaches the engine: some
    source is missing, and [processar] answers with a redirect to the index
    page, having logged flash messages only and left every object as it
    was. *)
Theorem poucos_arquivos_nao_processam (w : world) (req : request) (s : state) :
  (length (files req) < 10)%nat ->
  snd (classificar_arquivos (files req)) <> []
  /\ exists msgs,
       processar w req s
       = ({| heap := heap s; log := log s ++ List.map Flash msgs |},
          Some (Redirect url_index)).
Proof.
  intros Hlen.
  assert (Hf : snd (classificar_arquivos (files req)) <> []).
  { pose proof (cheios_limitados (files req)) as Hb.
    destruct (snd (classificar_arquivos (files req))); [simpl in Hb; lia|done]. }
  split; [done|]. unfold processar.
  destruct (re_match re_competencia _) eqn:Hre; cbn [negb].
  - destruct (re_competencia_split _ Hre) as (ano & mes & ->).
    destruct (match files req with [] => true | f :: _ => bool_decide (filename f = Some []) end).
    + rewrite flash_redirect_run. by eexists.
    + destruct (classificar_arquivos (files req)) as [slots [|k faltando]]; [done|].
      rewrite flash_redirect_run. by eexists.
  - rewrite flash_redirect_run. by eexists.
Qed.

End FewFiles.

(** ** The two number formats *)

Lemma replace1_app (old new : N) (a b : pystr) :
  replace1 old new (a ++ b) = replace1 old new a ++ replace1 old new b.
Proof. unfold replace1. apply List.map_app. Qed.

(** X5.  The two number formats agree: [brl] writes ["R$ "] and then what a
    numeric cell of the displayed table shows for the same amount, with a
    missing amount taken as zero.  On a missing amount they differ: the cell
    shows ["nan"], [brl] gives ["R$ 0,00"]. *)
Theorem brl_e_celula (x : float) :
  brl x = py "R$ " ++ formata_celula (if isna x then S754_zero false else x)
  /\ (isna x = true -> formata_celula x = py "nan" /\ brl x = py "R$ 0,00").
Proof.
  split.
  - unfold brl, formata_celula. by rewrite !replace1_app.
  - destruct x; first [done | intros _; split; by vm_compute].
Qed.

(** ** The competences on offer *)

Lemma str_leb_antisym (a b : pystr) :
  str_leb a b = true -> str_leb b a = true -> a = b.
Proof.
  revert b. induction a as [|x a IH]; intros [|y b]; simpl; try done.
  intros H1 H2.
  apply orb_true_iff in H1 as [H1|H1]; apply orb_true_iff in H2 as [H2|H2].
  - apply N.ltb_lt in H1, H2. lia.
  - apply andb_true_iff in H2 as [H2 _]. apply N.eqb_eq in H2. apply N.ltb_lt in H1. lia.
  - apply andb_true_iff in H1 as [H1 _]. apply N.eqb_eq in H1. apply N.ltb_lt in H2. lia.
  - apply andb_true_iff in H1 as [H1 Ha]. apply andb_true_iff in H2 as [_ Hb].
    apply N.eqb_eq in H1. subst y. f_equal. by apply IH.
Qed.

(** Two descending lists with the same elements are the same list. *)
Lemma sorted_perm_eq (l1 l2 : list pystr) :
  StronglySorted (fun a b => str_leb b a = true) l1 ->
  StronglySorted (fun a b => str_leb b a = true) l2 ->
  Permutation l1 l2 -> l1 = l2.
Proof.
  intros H1. revert l2. induction H1 as [|x l1 Hs1 IH Hx]; intros l2 H2 Hp.
  - by apply Permutation_nil in Hp.
  - destruct H2 as [|y l2 Hs2 Hy]; [by apply Permutation_sym, Permutation_nil in Hp|].
    assert (Hxy : x = y).
    { assert (Hin1 : In x (y :: l2)) by (apply (Permutation_in _ Hp); by left).
      assert (Hin2 : In y (x :: l1))
        by (apply (Permutation_in _ (Permutation_sym Hp)); by left).
      destruct Hin1 as [->|Hin1]; [done|]. destruct Hin2 as [->|Hin2]; [done|].
      apply str_leb_antisym.
      - by apply (proj1 (List.Forall_forall _ _) Hy).
      - by apply (proj1 (List.Forall_forall _ _) Hx). }
    subst y. f_equal. apply IH; [done|]. by apply Permutation_cons_inv in Hp.
Qed.

Lemma sorted_reverse_perm_eq (l1 l2 : list pystr) :
  Permutation l1 l2 -> sorted_reverse l1 = sorted_reverse l2.
Proof.
  intros Hp. apply sorted_perm_eq; try apply sorted_reverse_sorted.
  by rewrite !sorted_reverse_perm.
Qed.

Lemma filter_perm {A : Type} (f : A -> bool) (l1 l2 : list A) :
  Permutation l1 l2 -> Permutation (List.filter f l1) (List.filter f l2).
Proof.
  induction 1 as [|x l1 l2 _ IH|x y l|l1 l2 l3 _ IH1 _ IH2]; simpl.
  - done.
  - destruct (f x); [by constructor|done].
  - destruct (f x), (f y); try done. apply perm_swap.
  - by etransitivity.
Qed.

Section Listings.
Context {U : Unicode}.

Lemma re_competencia_forma (c : pystr) :
  re_match re_competencia c = true ->
  exists ano mes fim,
    c = ano ++ py "-" ++ mes ++ fim
    /\ length ano = 4%nat /\ length mes = 2%nat
    /\ Forall (fun d => is_digit d = true) (ano ++ mes)
    /\ (fim = [] \/ fim = [10]).
Proof.
  unfold re_match, re_competencia. cbn [eat].
  destruct (eat_digits 4 c) as [r1|] eqn:E1; [|done].
  destruct (eat_lit (py "-") r1) as [r2|] eqn:E2; [|done].
  destruct (eat_digits 2 r2) as [r3|] eqn:E3; [|done].
  intros Hend.
  apply eat_digits_spec in E1 as (d4 & -> & L4 & D4).
  apply eat_lit_spec in E2 as ->.
  apply eat_digits_spec in E3 as (d2 & -> & L2 & D2).
  exists d4, d2, r3. repeat split; try done.
  - by apply Forall_app.
  - destruct r3 as [|x [|? ?]]; simpl in Hend; try done; [by left|].
    apply N.eqb_eq in Hend; subst. by right.
Qed.


(** X7.  The three listings do not depend on the order in which the bucket
    lists its objects: two environments whose listings of the root and of
    the folder are permutations of each other give the same competences, the
    same aggregates of the folder and the same most recent aggregate. *)
Theorem listagem_independe_da_ordem (w w' : world) (competencia : pystr) :
  Permutation (_supabase_list w []) (_supabase_list w' []) ->
  Permutation (_supabase_list w competencia) (_supabase_list w' competencia) ->
  listar_competencias w = listar_competencias w'
  /\ listar_df_final_por_competencia w competencia
     = listar_df_final_por_competencia w' competencia
  /\ escolher_mais_recente_df_final w competencia
     = escolher_mais_recente_df_final w' competencia.
Proof.
  intros H0 Hc.
  assert (Hl : listar_df_final_por_competencia w competencia
               = listar_df_final_por_competencia w' competencia).
  { unfold listar_df_final_por_competencia. apply sorted_reverse_perm_eq.
    apply Permutation_map, filter_perm. by apply Permutation_map. }
  split; [|split; [done|]].
  - unfold listar_competencias. apply sorted_reverse_perm_eq.
    apply filter_perm. by apply Permutation_map.
  - unfold escolher_mais_recente_df_final. by rewrite Hl.
Qed.

(** X8.  [api_arquivos] answers [ok] exactly when the stripped parameter
    [competencia] matches the competence pattern.  When it does not, [files]
    is empty; when it does, [files] is the listing of that competence, so
    every path in it is the competence, a slash and a stored name that
    matches the aggregate pattern.  Without a client [files] is empty. *)
Theorem api_arquivos_resposta (w : world) (req : request) :
  let comp := strip (or_empty (args_competencia req)) in
  let r := api_arquivos w req in
  j_ok r = re_match re_competencia comp
  /\ (j_ok r = false -> j_files r = [])
  /\ (j_ok r = true -> j_files r = listar_df_final_por_competencia w comp)
  /\ (forall p, In p (j_files r) ->
        j_ok r = true
        /\ exists nome, In (Some nome) (_supabase_list w comp)
                        /\ re_match re_df_final nome = true
                        /\ p = comp ++ py "/" ++ nome)
  /\ (w_supabase w = false -> j_files r = []).
Proof.
  intros comp r. unfold r, api_arquivos. fold comp.
  destruct (re_match re_competencia comp) eqn:E; cbn [negb j_ok j_files].
  - split; [done|]. split; [done|]. split; [done|]. split.
    + intros p Hp. split; [done|].
      apply listado_forma in Hp as (nome & Hin & Hm & ->).
      exists nome. split; [|done].
      apply in_map_iff in Hin as ([x|] & Hx & Hin); simpl in Hx; subst; [done|].
      by vm_compute in Hm.
    + intros Hs. unfold listar_df_final_por_competencia, _supabase_list.
      by rewrite Hs.
  - split; [done|]. split; [done|]. split; [done|]. split; [|done].
    by intros p [].
Qed.

End Listings.

(** ** The download routes *)

Section Downloads.
Context {U : Unicode} {P : Pandas}.

Lemma OUTPUT_FILES_df_final (w : world) :
  OUTPUT_FILES w !! py "df_final" = Some (w_join w (OUTPUT_DIR w) (py "df_final.xlsx")).
Proof. unfold OUTPUT_FILES, OUTPUT_FILES_itens. ctx_lookup. Qed.

(** X9.  [download] answers as [download_excel] does for the name
    [df_final], provided the path of [OUTPUT_FILES] is not the empty string:
    the file [OUTPUT_DIR/df_final.xlsx] is sent when it exists and nothing is
    logged; otherwise one message is flashed and the answer is a redirect to
    the index page.  No object changes. *)
Theorem download_e_download_excel (w : world) (s : state) :
  w_join w (OUTPUT_DIR w) (py "df_final.xlsx") <> [] ->
  snd (download w s) = snd (download_excel w (py "df_final") s)
  /\ heap (fst (download w s)) = heap s
  /\ (exists resp, snd (download w s) = Some resp
        /\ (resp = SendFile (w_join w (OUTPUT_DIR w) (py "df_final.xlsx"))
            /\ w_exists w (w_join w (OUTPUT_DIR w) (py "df_final.xlsx")) = true
            /\ fst (download w s) = s
            \/ resp = Redirect url_index
               /\ w_exists w (w_join w (OUTPUT_DIR w) (py "df_final.xlsx")) = false
               /\ exists msg, log (fst (download w s)) = log s ++ [Flash msg])).
Proof.
  intros Hne. unfold download, download_excel. rewrite !OUTPUT_FILES_df_final.
  destruct (w_join w (OUTPUT_DIR w) (py "df_final.xlsx")) as [|c p] eqn:Ep; [done|].
  mrun. unfold lift; mrun.
  destruct (w_exists w (c :: p)); cbn [negb fst snd heap log].
  - split; [done|]. split; [done|]. eexists. split; [done|]. left. by destruct s.
  - split; [done|]. split; [done|]. eexists. split; [done|]. right.
    split; [done|]. split; [done|]. by eexists.
Qed.

(** X10.  [download_supabase] always answers with a redirect and changes no
    object.  The redirect goes to the public address of the object,
    [SUPABASE_URL/storage/v1/object/public/SUPABASE_BUCKET/file], with
    nothing logged, only when there is a client and the address, the bucket
    and the parameter [file] are not empty; in every other case it goes to
    the index page, with one flash message. *)
Theorem download_supabase_destino (w : world) (SUPABASE_URL : option pystr)
    (SUPABASE_BUCKET : pystr) (req : request) (s : state) :
  exists s' destino,
    download_supabase w SUPABASE_URL SUPABASE_BUCKET req s = (s', Some (Redirect destino))
    /\ heap s' = heap s
    /\ (destino = url_index /\ (exists msg, log s' = log s ++ [Flash msg])
        \/ s' = s
           /\ w_supabase w = true
           /\ exists base nome,
                SUPABASE_URL = Some base /\ base <> [] /\ SUPABASE_BUCKET <> []
                /\ args_file req = Some nome /\ nome <> []
                /\ destino = base ++ py "/storage/v1/object/public/" ++ SUPABASE_BUCKET
                               ++ py "/" ++ nome).
Proof.
  unfold download_supabase.
  destruct (args_file req) as [[|c nome]|] eqn:Ef;
    try (mrun; eexists _, _; split; [reflexivity|]; split; [done|]; left;
         split; [done|]; by eexists).
  destruct (w_supabase w) eqn:Es; cbn [negb orb];
    [|mrun; eexists _, _; split; [reflexivity|]; split; [done|]; left;
      split; [done|]; by eexists].
  destruct (str_eqb (or_empty SUPABASE_URL) []) eqn:Eu; cbn [orb];
    [mrun; eexists _, _; split; [reflexivity|]; split; [done|]; left;
     split; [done|]; by eexists|].
  destruct (str_eqb SUPABASE_BUCKET []) eqn:Eb;
    [mrun; eexists _, _; split; [reflexivity|]; split; [done|]; left;
     split; [done|]; by eexists|].
  apply str_eqb_false in Eu, Eb.
  destruct SUPABASE_URL as [base|]; [|done]. simpl in Eu.
  mrun. eexists _, _. split; [reflexivity|]. split; [done|]. right.
  split; [done|]. split; [done|]. exists base, (c :: nome).
  rewrite <- !app_assoc. done.
Qed.

End Downloads.

(** ** The context of the result page, key by key *)

Lemma split1_nao_vazio (sep : N) (s : pystr) : split1 sep s <> [].
Proof.
  induction s as [|c t IH]; [done|]. cbn [split1].
  destruct (c =? sep); [done|]. by destruct (split1 sep t).
Qed.

Lemma join_split1 (sep : N) (s : pystr) : join [sep] (split1 sep s) = s.
Proof.
  induction s as [|c t IH]; [done|]. cbn [split1].
  pose proof (split1_nao_vazio sep t) as Hne.
  destruct (split1 sep t) as [|p ps] eqn:Es; [done|].
  destruct (c =? sep) eqn:E.
  - apply N.eqb_eq in E. subst c.
    change (join [sep] ([] :: p :: ps)) with ([] ++ [sep] ++ join [sep] (p :: ps)).
    by rewrite IH.
  - destruct ps as [|q ps]; simpl in *; by rewrite <- IH.
Qed.

Lemma split1_duas (c ano mes : pystr) :
  split1 45 c = [ano; mes] -> ano ++ py "-" ++ mes = c.
Proof. intros H. rewrite <- (join_split1 45 c), H. done. Qed.

Section ContextFacts.
Context {U : Unicode} {P : Pandas}.

Lemma tabelas_nomes (fs : list (pystr * ref)) (s s' : state)
    (tf : list (pystr * pystr)) :
  mapM (fun nr => d ← deref (snd nr); mret (fst nr, to_html d)) fs s = (s', Some tf) ->
  List.map fst tf = List.map fst fs.
Proof.
  revert s s' tf. induction fs as [|nr fs IH]; intros s s' tf H; cbn [mapM] in H.
  - by apply mret_ok in H as [_ ->].
  - apply bind_ok in H as (s1 & b & E1 & H).
    apply bind_ok in H as (s2 & tf' & E2 & H). apply mret_ok in H as [_ ->].
    apply bind_ok in E1 as (s3 & d & _ & E1). apply mret_ok in E1 as [_ ->].
    simpl. f_equal. by apply (IH _ _ _ E2).
Qed.

Lemma montar_contexto_forma (w : world) (r : ref) (label : pystr)
    (caminho : option pystr) (dj : option ref) (fontes : option (list (pystr * ref)))
    (s s' : state) (ctx : gmap pystr value) :
  montar_contexto_dashboard w r label caminho dj fontes s = (s', Some ctx) ->
  exists tabela total soma media maxi tf regs,
    let atual :=
      match caminho with
      | Some c => if negb (str_eqb c []) && contains (py "/") c
                  then head (split1 47 c) else None
      | None => None
      end in
    ctx = list_to_map
      [ (py "tabela", VStr tabela);
        (py "total_assessores", VNat total);
        (py "soma_total", VStr (brl soma));
        (py "media_total", VStr (brl media));
        (py "max_total", VStr (brl media));
        (py "max_total_val", VStr (brl maxi));
        (py "tabelas_fontes", VDict tf);
        (py "links_fontes", VDict links_fontes);
        (py "df_juntar", VRecords regs);
        (py "caminho_df_final", VOpt caminho);
        (py "competencia", VStr label);
        (py "competencias_disponiveis", VStrs (listar_competencias w));
        (py "competencia_atual", VOpt atual);
        (py "arquivos_df_final",
         VStrs match atual with
               | Some ((_ :: _) as c) => listar_df_final_por_competencia w c
               | _ => []
               end) ]
    /\ (dj = None -> regs = [])
    /\ List.map fst tf = match fontes with Some fs => List.map fst fs | None => [] end.
Proof.
  unfold montar_contexto_dashboard. intros H.
  apply bind_ok in H as (s1 & df & E1 & H).
  apply bind_ok in H as (s2 & [] & E2 & H).
  apply bind_ok in H as (s3 & [] & E3 & H).
  apply bind_ok in H as (s4 & df' & E4 & H).
  apply bind_ok in H as (s5 & [[[total soma] media] maxi] & E5 & H).
  apply bind_ok in H as (s6 & regs & E6 & H).
  apply bind_ok in H as (s7 & tf & E7 & H).
  apply mret_ok in H as [_ ->].
  eexists _, total, soma, media, maxi, tf, regs. cbv zeta.
  split; [reflexivity|]. split.
  - intros ->. by apply mret_ok in E6 as [_ ->].
  - destruct fontes as [[|nr fs]|].
    + by apply mret_ok in E7 as [_ ->].
    + by apply tabelas_nomes in E7.
    + by apply mret_ok in E7 as [_ ->].
Qed.

Lemma pagina_forma (w : world) (r : ref) (label : pystr)
    (caminho : option pystr) (dj : option ref) (fontes : option (list (pystr * ref)))
    (s s1 s' : state) (ctx0 ctx : gmap pystr value) :
  montar_contexto_dashboard w r label caminho dj fontes s = (s1, Some ctx0) ->
  corrigir_max_total ctx0 s1 = (s', Some ctx) ->
  exists tf regs,
    let atual :=
      match caminho with
      | Some c => if negb (str_eqb c []) && contains (py "/") c
                  then head (split1 47 c) else None
      | None => None
      end in
    dom ctx = list_to_set chaves_da_pagina
    /\ ctx !! py "caminho_df_final" = Some (VOpt caminho)
    /\ ctx !! py "competencia" = Some (VStr label)
    /\ ctx !! py "competencias_disponiveis" = Some (VStrs (listar_competencias w))
    /\ ctx !! py "competencia_atual" = Some (VOpt atual)
    /\ ctx !! py "arquivos_df_final"
       = Some (VStrs match atual with
                     | Some ((_ :: _) as c) => listar_df_final_por_competencia w c
                     | _ => []
                     end)
    /\ ctx !! py "links_fontes" = Some (VDict links_fontes)
    /\ ctx !! py "tabelas_fontes" = Some (VDict tf)
    /\ ctx !! py "df_juntar" = Some (VRecords regs)
    /\ (dj = None -> regs = [])
    /\ List.map fst tf = match fontes with Some fs => List.map fst fs | None => [] end.
Proof.
  intros Hm Hc.
  apply montar_contexto_forma in Hm
    as (tabela & total & soma & media & maxi & tf & regs & Hctx & Hregs & Htf).
  cbv zeta in Hctx.
  apply corrigir_ok in Hc as [_ (v & _ & ->)].
  exists tf, regs. cbv zeta.
  split.
  { rewrite dom_insert_L, dom_delete_L, Hctx, dom_list_to_map_L.
    vm_compute. reflexivity. }
  subst ctx0.
  repeat (split; [rewrite lookup_insert_ne, lookup_delete_ne by key_ne; ctx_lookup|]).
  done.
Qed.

End ContextFacts.

(** ** A run of [processar], stage by stage *)

Lemma omap_nenhum {A B : Type} (f : A -> option B) (l : list A) :
  Forall (fun a => f a = None) l -> omap f l = [].
Proof. induction 1 as [|a l Ha _ IH]; [done|]. cbn. by rewrite Ha. Qed.

Lemma omap_cons_Some {A B : Type} (f : A -> option B) (a : A) (b : B) (l : list A) :
  f a = Some b -> omap f (a :: l) = b :: omap f l.
Proof. intros H. cbn. by rewrite H. Qed.

Lemma omap_cons_None {A B : Type} (f : A -> option B) (a : A) (l : list A) :
  f a = None -> omap f (a :: l) = omap f l.
Proof. intros H. cbn. by rewrite H. Qed.

Lemma mapM_length {A B : Type} (f : A -> M B) (l : list A) (s s' : state) (bs : list B) :
  mapM f l s = (s', Some bs) -> length bs = length l.
Proof.
  revert s s' bs. induction l as [|a l IH]; intros s s' bs H; cbn [mapM] in H.
  - apply mret_ok in H as [_ ->]. done.
  - apply bind_ok in H as (s1 & b & _ & H).
    apply bind_ok in H as (s2 & bs' & E & H). apply mret_ok in H as [_ ->].
    simpl. by rewrite (IH _ _ _ E).
Qed.

Section RunFacts.
Context {U : Unicode} {P : Pandas} {B : Backend}.

(** The ten reads: each one parses the file of its slot into a new object. *)
Lemma ler_slots_spec (slots : slots_t) (l : list (pystr * pystr))
    (s s' : state) (rs : list ref) :
  mapM (fun kn => ler_slot slots (fst kn)) l s = (s', Some rs) ->
  log s' = log s ++ List.map ReadExcel rs
  /\ Forall2 (fun kn r => exists f df,
                slot_get slots (fst kn) = Some f
                /\ read_excel (stream f) = Some df
                /\ heap s' !! r = Some df) l rs
  /\ (forall r, is_Some (heap s !! r) -> heap s' !! r = heap s !! r).
Proof.
  revert s s' rs. induction l as [|kn l IH]; intros s s' rs H; cbn [mapM] in H.
  - apply mret_ok in H as [-> ->]. rewrite app_nil_r. by repeat split.
  - apply bind_ok in H as (s1 & r & E1 & H).
    apply bind_ok in H as (s2 & rs' & E2 & H). apply mret_ok in H as [-> ->].
    unfold ler_slot in E1.
    apply bind_ok in E1 as (s3 & f & Ef & E1). apply lift_ok in Ef as [-> Ef].
    apply bind_ok in E1 as (s3 & df & Ed & E1). apply lift_ok in Ed as [-> Ed].
    apply bind_ok in E1 as (s3 & r' & Ea & E1).
    unfold alloc in Ea. injection Ea as <- <-.
    apply bind_ok in E1 as (s4 & [] & Ee & E1). apply emit_ok in Ee. subst s4.
    apply mret_ok in E1 as [-> ->].
    destruct (IH _ _ _ E2) as (Hlog & Hall & Hkeep). cbn [heap log] in *.
    match type of E2 with context [fresh ?d] =>
      assert (Hfresh : heap s !! fresh d = None) by apply not_elem_of_dom, is_fresh
    end.
    split; [|split].
    + rewrite Hlog. cbn [List.map]. by rewrite <- app_assoc.
    + constructor; [|done]. exists f, df. split; [done|]. split; [done|].
      rewrite Hkeep; [apply lookup_insert_eq|]. rewrite lookup_insert_eq. by eexists.
    + intros r0 Hr0. rewrite Hkeep.
      * apply lookup_insert_ne. intros <-. destruct Hr0 as [x Hx].
        assert (Hbad : Some x = None) by exact (eq_trans (eq_sym Hx) Hfresh).
        discriminate.
      * rewrite lookup_insert_ne; [done|]. intros <-. destruct Hr0 as [x Hx].
        assert (Hbad : Some x = None) by exact (eq_trans (eq_sym Hx) Hfresh).
        discriminate.
Qed.

(** The copies of the sources written under [OUTPUT_DIR]. *)
Lemma gravar_fontes_spec (w : world) (l : list (ref * (pystr * pystr)))
    (s s' : state) (us : list unit) :
  mapM (fun rk => p ← lift (OUTPUT_FILES w !! fst (snd rk)); salvar (fst rk) p) l s
  = (s', Some us) ->
  exists evs, s' = {| heap := heap s; log := log s ++ evs |}
    /\ gravados evs = omap (fun rk => OUTPUT_FILES w !! fst (snd rk)) l
    /\ criadas evs = [].
Proof.
  revert s s' us. induction l as [|rk l IH]; intros s s' us H; cbn [mapM] in H.
  - apply mret_ok in H as [-> _]. exists []. rewrite app_nil_r. by destruct s.
  - apply bind_ok in H as (s1 & [] & E1 & H).
    apply bind_ok in H as (s2 & us' & E2 & H). apply mret_ok in H as [-> _].
    apply bind_ok in E1 as (s3 & p & Ep & E1). apply lift_ok in Ep as [-> Ep].
    unfold salvar in E1.
    apply bind_ok in E1 as (s3 & df & Ed & E1). apply deref_ok in Ed as [-> Ed].
    apply emit_ok in E1. subst s1.
    destruct (IH _ _ _ E2) as (evs & -> & Hg & Hc). cbn [heap log].
    exists (ToExcel p df :: evs). split; [by rewrite <- app_assoc|].
    split; [|done].
    rewrite (omap_cons_Some _ _ p) by done. cbn [gravados omap]. unfold gravados in Hg.
    cbn. by f_equal.
Qed.

(** What the [try] block uploaded before it ended. *)
Lemma upload_todos_detalhe (w : world) (itens : list (ref * pystr))
    (s s' : state) (ok : bool) :
  upload_todos w itens s = (s', Some ok) ->
  exists evs n, s' = {| heap := heap s; log := log s ++ evs |}
    /\ Forall (fun e => match e with Upload _ _ => True | _ => False end) evs
    /\ enviados evs = take n (List.map snd itens)
    /\ (if ok then n = length itens else (n < length itens)%nat).
Proof.
  revert s s'. induction itens as [|[r path] rest IH]; intros s s' H.
  - apply mret_ok in H as [-> ->]. exists [], 0%nat. rewrite app_nil_r.
    by destruct s.
  - rewrite upload_todos_cons in H.
    destruct (heap s !! r) as [df|];
      [|injection H as <- <-; exists [], 0%nat; rewrite app_nil_r; destruct s;
        repeat split; simpl; [done|lia]].
    destruct (w_upload_ok w path);
      [|injection H as <- <-; exists [], 0%nat; rewrite app_nil_r; destruct s;
        repeat split; simpl; [done|lia]].
    apply bind_ok in H as (s1 & [] & E1 & H). apply emit_ok in E1. subst s1.
    destruct (IH _ _ H) as (evs & n & -> & Hf & He & Hn). cbn [heap log].
    exists (Upload path df :: evs), (S n). split; [by rewrite <- app_assoc|].
    split; [by constructor|]. split; [cbn; by f_equal|].
    destruct ok; simpl; [by f_equal|lia].
Qed.

End RunFacts.

Section RunDetail.
Context {U : Unicode} {P : Pandas} {B : Backend}.

Lemma processar_completo_detalhe (w : world) (slots : slots_t)
    (prefixo label : pystr) (s s' : state) (resp : response) :
  processar_completo w slots prefixo label s = (s', Some resp) ->
  exists fontes s1 h df_final df_juntar evs_l evs_u nome ctx,
    log s1 = log s ++ List.map ReadExcel fontes
    /\ Forall2 (fun kn r => exists f df,
                  slot_get slots (fst kn) = Some f
                  /\ read_excel (stream f) = Some df
                  /\ heap s1 !! r = Some df) nomes_fontes fontes
    /\ (forall r, is_Some (heap s !! r) -> heap s1 !! r = heap s !! r)
    /\ calcular_comissoes (heap s1) fontes = Some (h, (df_final, df_juntar))
    /\ log s' = log s ++ List.map ReadExcel fontes
                  ++ [Engine df_final df_juntar; RoundInPlace df_final]
                  ++ evs_l ++ evs_u ++ [RoundInPlace df_final]
    /\ (if w_vercel w then evs_l = []
        else criadas evs_l = [w_join w (OUTPUT_DIR w) prefixo]
             /\ gravados evs_l
                = List.map snd (OUTPUT_FILES_itens w)
                    ++ [w_join w (w_join w (OUTPUT_DIR w) prefixo) (py "df_final.xlsx")])
    /\ Forall e_gravacao evs_l
    /\ Forall e_envio evs_u
    /\ (if w_supabase w then
          exists n, enviados evs_u = take n (destinos prefixo (w_now w))
            /\ (nome = head (destinos prefixo (w_now w)) /\ n = 12%nat
                /\ Forall (fun e => match e with Upload _ _ => True | _ => False end) evs_u
                \/ nome = None /\ (n < 12)%nat
                   /\ In (Flash (py "Não consegui enviar os Excels para o Supabase. Você ainda pode ver a tabela na tela.")) evs_u)
        else evs_u = [] /\ nome = None)
    /\ resp = Render (py "resultado.html") ctx
    /\ exists s5 s6 ctx0,
         montar_contexto_dashboard w df_final label nome (Some df_juntar)
           (Some (zip (List.map fst nomes_bonitos) fontes)) s5 = (s6, Some ctx0)
         /\ corrigir_max_total ctx0 s6 = (s', Some ctx).
Proof.
  unfold processar_completo. intros H.
  apply bind_ok in H as (s1 & fontes & E1 & H).
  apply bind_ok in H as (s2 & [df_final df_juntar] & E2 & H).
  apply bind_ok in H as (s3 & df_e & E3 & H). apply deref_ok in E3 as [-> E3].
  apply bind_ok in H as (s3 & [] & E4 & H). apply assign_ok in E4. subst s3.
  apply bind_ok in H as (s3 & [] & E4 & H). apply emit_ok in E4. subst s3.
  apply bind_ok in H as (s4 & [] & E4 & H).
  apply bind_ok in H as (s5 & nome & E5 & H).
  apply bind_ok in H as (s6 & ctx0 & E6 & H).
  apply bind_ok in H as (s7 & ctx & E7 & H).
  apply mret_ok in H as [-> ->].
  pose proof (mapM_length _ _ _ _ _ E1) as Hlen.
  destruct (ler_slots_spec _ _ _ _ _ E1) as (Hlr & Hall & Hkeep).
  apply chamar_engine_ok in E2 as (h & Heng & ->). cbn [heap log fst snd] in *.
  set (df1 := arredondar (select_number df_e) df_e) in *.
  (* the local copies *)
  assert (Hl : exists evs_l,
             s4 = {| heap := <[df_final := df1]> h;
                     log := ((log s1 ++ [Engine df_final df_juntar])
                               ++ [RoundInPlace df_final]) ++ evs_l |}
             /\ Forall e_gravacao evs_l
             /\ (if w_vercel w then evs_l = []
                 else criadas evs_l = [w_join w (OUTPUT_DIR w) prefixo]
                      /\ gravados evs_l
                         = List.map snd (OUTPUT_FILES_itens w)
                             ++ [w_join w (w_join w (OUTPUT_DIR w) prefixo)
                                   (py "df_final.xlsx")])).
  { pose proof (gravacao_local_spec _ _ _ _ _ _ _ df1 _ (lookup_insert_eq _ _ _) E4)
      as (evs0 & Hs4 & Hf0 & _).
    exists evs0. split; [exact Hs4|]. split; [done|].
    destruct (w_vercel w) eqn:Ev; cbn [negb] in E4.
    - apply mret_ok in E4 as [E4 _]. rewrite Hs4 in E4.
      injection E4 as E4. rewrite <- (app_nil_r (_ ++ [RoundInPlace _])) in E4 at 2.
      by apply app_inv_head in E4.
    - cbv zeta in E4.
      apply bind_ok in E4 as (t1 & [] & F1 & E4). apply emit_ok in F1. subst t1.
      apply bind_ok in E4 as (t1 & p1 & F1 & E4). apply lift_ok in F1 as [-> F1].
      apply bind_ok in E4 as (t1 & [] & F2 & E4).
      unfold salvar in F2.
      apply bind_ok in F2 as (t2 & d1 & F3 & F2). apply deref_ok in F3 as [-> F3].
      apply emit_ok in F2. subst t1.
      apply bind_ok in E4 as (t1 & p2 & F4 & E4). apply lift_ok in F4 as [-> F4].
      apply bind_ok in E4 as (t1 & [] & F5 & E4).
      unfold salvar in F5.
      apply bind_ok in F5 as (t2 & d2 & F6 & F5). apply deref_ok in F6 as [-> F6].
      apply emit_ok in F5. subst t1.
      apply bind_ok in E4 as (t1 & us & F7 & E4).
      apply gravar_fontes_spec in F7 as (evs7 & -> & Hg7 & Hc7).
      unfold salvar in E4.
      apply bind_ok in E4 as (t2 & d3 & F8 & E4). apply deref_ok in F8 as [-> F8].
      apply emit_ok in E4. cbn [heap log] in *.
      rewrite Hs4 in E4. injection E4 as E4.
      rewrite <- !app_assoc in E4. repeat apply app_inv_head in E4.
      subst evs0. cbn [app].
      unfold criadas, gravados in *. split.
      + cbn [omap]. cbn. rewrite omap_app, Hc7. done.
      + cbn. rewrite omap_app, Hg7. cbn. 
        destruct fontes as [|r1 [|r2 [|r3 [|r4 [|r5 [|r6 [|r7 [|r8 [|r9 [|r10 [|]]]]]]]]]]];
          try discriminate Hlen.
        vm_compute in F1. vm_compute in F4. injection F1 as <-. injection F4 as <-.
        vm_compute. reflexivity. }
  destruct Hl as (evs_l & -> & Hfl & Hl).
  (* the uploads *)
  assert (Hu : exists evs_u,
             s5 = {| heap := <[df_final := df1]> h;
                     log := (((log s1 ++ [Engine df_final df_juntar])
                               ++ [RoundInPlace df_final]) ++ evs_l) ++ evs_u |}
             /\ Forall e_envio evs_u
             /\ (if w_supabase w then
                   exists n, enviados evs_u = take n (destinos prefixo (w_now w))
                     /\ (nome = head (destinos prefixo (w_now w)) /\ n = 12%nat
                         /\ Forall (fun e => match e with Upload _ _ => True | _ => False end) evs_u
                         \/ nome = None /\ (n < 12)%nat
                            /\ In (Flash (py "Não consegui enviar os Excels para o Supabase. Você ainda pode ver a tabela na tela.")) evs_u)
                 else evs_u = [] /\ nome = None)).
  { pose proof (envio_spec _ _ _ _ _ _ _ df1 _ (lookup_insert_eq _ _ _) E5)
      as (evs0 & Hs5 & Hf0 & _).
    exists evs0. split; [exact Hs5|]. split; [done|].
    destruct (w_supabase w) eqn:Es.
    - cbv zeta in E5.
      apply bind_ok in E5 as (t1 & ok & F1 & E5).
      destruct fontes as [|r1 [|r2 [|r3 [|r4 [|r5 [|r6 [|r7 [|r8 [|r9 [|r10 [|]]]]]]]]]]];
        try discriminate Hlen.
      apply upload_todos_detalhe in F1 as (evs1 & n & -> & Hf1 & He1 & Hn).
      change (List.map snd _) with (destinos prefixo (w_now w)) in He1.
      cbn [length List.map zip zip_with nomes_fontes] in Hn.
      destruct ok.
      + apply mret_ok in E5 as [-> ->]. cbn [heap log] in Hs5.
        injection Hs5 as Hs5. apply app_inv_head in Hs5. subst evs0.
        exists n. split; [done|]. left. by repeat split.
      + apply bind_ok in E5 as (t1 & [] & F2 & E5). apply emit_ok in F2. subst t1.
        apply bind_ok in E5 as (t1 & [] & F3 & E5). apply emit_ok in F3. subst t1.
        apply mret_ok in E5 as [-> ->]. cbn [heap log] in Hs5.
        injection Hs5 as Hs5. rewrite <- !app_assoc in Hs5.
        repeat apply app_inv_head in Hs5. subst evs0.
        exists n. split.
        * unfold enviados in *. rewrite omap_app, He1. cbn. by rewrite app_nil_r.
        * right. split; [done|]. split; [done|].
          apply in_or_app. right. right. by left.
    - apply mret_ok in E5 as [-> ->].
      injection Hs5 as Hs5. rewrite <- (app_nil_r (_ ++ evs_l)) in Hs5 at 1.
      apply app_inv_head in Hs5. by subst evs0. }
  destruct Hu as (evs_u & -> & Hfu & Hu).
  destruct (montar_spec _ _ _ _ _ _ _ _ _ E6) as (df0 & ? & ? & ? & _ & Hs6 & _).
  pose proof (corrigir_ok _ _ _ _ E7) as [Hs7 _].
  exists fontes, s1, h, df_final, df_juntar, evs_l, evs_u, nome, ctx.
  split; [done|]. split; [done|]. split; [done|]. split; [done|].
  split.
  { rewrite Hs7, Hs6. cbn [log]. rewrite Hlr. by rewrite <- !app_assoc. }
  split; [done|]. split; [done|]. split; [done|]. split; [done|]. split; [done|].
  by eexists _, _, ctx0.
Qed.

End RunDetail.

Section RunTheorems.
Context {U : Unicode} {P : Pandas} {B : Backend}.

Lemma processar_chega (w : world) (req : request) (s s' : state)
    (t : pystr) (ctx : gmap pystr value) :
  processar w req s = (s', Some (Render t ctx)) ->
  let comp := strip (or_empty (form_competencia req)) in
  exists slots ano mes,
    re_match re_competencia comp = true
    /\ split1 45 comp = [ano; mes]
    /\ classificar_arquivos (files req) = (slots, [])
    /\ processar_completo w slots comp (mes ++ py "/" ++ ano) s
       = (s', Some (Render t ctx)).
Proof.
  intros H comp. unfold processar in H. fold comp in H.
  destruct (re_match re_competencia comp) eqn:Hre; cbn [negb] in H;
    [|by rewrite flash_redirect_run in H].
  destruct (re_competencia_split _ Hre) as (ano & mes & Hsp). rewrite Hsp in H.
  destruct (match files req with [] => true | f :: _ => bool_decide (filename f = Some []) end);
    [by rewrite flash_redirect_run in H|].
  destruct (classificar_arquivos (files req)) as [slots [|k faltando]];
    [|by rewrite flash_redirect_run in H].
  rewrite (split1_duas _ _ _ Hsp) in H.
  by exists slots, ano, mes.
Qed.

(** X11.  In a run of [processar] that renders the page the engine is called
    once, on the ten frames read from the files of the ten slots, in the
    order [pj1], [seg], [cam], [co_ter], [co_xpvp], [cre], [xpcs], [lan_man],
    [tim_rep], [lan_pro]; each of these files comes from the request.  The
    ten reads come first in the log, the call of the engine next, and nothing
    is read and no engine called after that; reading changes no object that
    existed before. *)
Theorem motor_recebe_as_dez_fontes (w : world) (req : request) (s s' : state)
    (t : pystr) (ctx : gmap pystr value) :
  processar w req s = (s', Some (Render t ctx)) ->
  exists slots fontes h1 h df_final df_juntar resto,
    classificar_arquivos (files req) = (slots, [])
    /\ Forall2 (fun chave r => exists f df,
                  slot_get slots chave = Some f
                  /\ In f (files req)
                  /\ read_excel (stream f) = Some df
                  /\ h1 !! r = Some df)
         [py "pj1"; py "seg"; py "cam"; py "co_ter"; py "co_xpvp"; py "cre";
          py "xpcs"; py "lan_man"; py "tim_rep"; py "lan_pro"] fontes
    /\ (forall r, is_Some (heap s !! r) -> h1 !! r = heap s !! r)
    /\ calcular_comissoes h1 fontes = Some (h, (df_final, df_juntar))
    /\ log s' = log s ++ List.map ReadExcel fontes ++ Engine df_final df_juntar :: resto
    /\ Forall (fun e => match e with ReadExcel _ | Engine _ _ => False | _ => True end)
              resto.
Proof.
  intros H. apply processar_chega in H as (slots & ano & mes & _ & _ & Hcl & H).
  apply processar_completo_detalhe in H
    as (fontes & s1 & h & df_final & df_juntar & evs_l & evs_u & nome & ctx'
        & _ & Hall & Hkeep & Heng & Hlog & _ & Hfl & Hfu & _).
  exists slots, fontes, (heap s1), h, df_final, df_juntar,
         (RoundInPlace df_final :: evs_l ++ evs_u ++ [RoundInPlace df_final]).
  split; [done|]. split; [|split; [done|split; [done|split; [done|]]]].
  - change [py "pj1"; py "seg"; py "cam"; py "co_ter"; py "co_xpvp"; py "cre";
            py "xpcs"; py "lan_man"; py "tim_rep"; py "lan_pro"]
      with (List.map fst nomes_fontes).
    apply Forall2_fmap_l. eapply Forall2_impl; [exact Hall|].
    intros kn r (f & df & Hf & Hd & Hr). exists f, df. split; [done|].
    split; [|done].
    apply (slot_de_arquivo (files req) (fst kn)). by rewrite Hcl.
  - constructor; [done|]. apply Forall_app. split.
    + eapply List.Forall_impl; [|exact Hfl]. by intros [].
    + apply Forall_app. split; [|by repeat constructor].
      eapply List.Forall_impl; [|exact Hfu]. by intros [].
Qed.

(** X12.  What a run of [processar] that renders the page writes locally.
    On Vercel it writes no file and creates no directory.  Elsewhere it
    creates the directory of the competence under [OUTPUT_DIR] and writes
    thirteen files: the twelve of [OUTPUT_FILES], in its order, and then
    [df_final.xlsx] in the directory of the competence. *)
Theorem processar_grava_localmente (w : world) (req : request) (s s' : state)
    (t : pystr) (ctx : gmap pystr value) :
  processar w req s = (s', Some (Render t ctx)) ->
  let comp := strip (or_empty (form_competencia req)) in
  let pasta := w_join w (OUTPUT_DIR w) comp in
  exists evs,
    log s' = log s ++ evs
    /\ (if w_vercel w then gravados evs = [] /\ criadas evs = []
        else criadas evs = [pasta]
             /\ gravados evs
                = List.map snd (OUTPUT_FILES_itens w) ++ [w_join w pasta (py "df_final.xlsx")]).
Proof.
  intros H comp pasta.
  apply processar_chega in H as (slots & ano & mes & _ & _ & _ & H).
  apply processar_completo_detalhe in H
    as (fontes & s1 & h & df_final & df_juntar & evs_l & evs_u & nome & ctx'
        & _ & _ & _ & _ & Hlog & Hl & Hfl & Hfu & _).
  eexists. split; [exact Hlog|].
  assert (Hr : forall f : event -> option pystr,
            (forall r, f (ReadExcel r) = None) ->
            omap f (List.map ReadExcel fontes) = []).
  { intros f Hf. apply omap_nenhum, List.Forall_forall. intros e He.
    apply in_map_iff in He as (r & <- & _). apply Hf. }
  assert (Hu : forall f : event -> option pystr,
            (forall e, e_envio e -> f e = None) -> omap f evs_u = []).
  { intros f Hf. apply omap_nenhum. eapply List.Forall_impl; [|exact Hfu]. apply Hf. }
  assert (Hg : gravados (List.map ReadExcel fontes
                 ++ [Engine df_final df_juntar; RoundInPlace df_final]
                 ++ evs_l ++ evs_u ++ [RoundInPlace df_final]) = gravados evs_l).
  { unfold gravados. rewrite !omap_app, Hr, Hu; [|by intros []|done].
    cbn. by rewrite app_nil_r. }
  assert (Hc : criadas (List.map ReadExcel fontes
                 ++ [Engine df_final df_juntar; RoundInPlace df_final]
                 ++ evs_l ++ evs_u ++ [RoundInPlace df_final]) = criadas evs_l).
  { unfold criadas. rewrite !omap_app, Hr, Hu; [|by intros []|done].
    cbn. by rewrite app_nil_r. }
  rewrite Hg, Hc. destruct (w_vercel w); [by subst evs_l|done].
Qed.


End RunTheorems.

(** ** Opening a stored aggregate *)










Section ViewFacts.
Context {U : Unicode} {P : Pandas}.











End ViewFacts.

(** ** The stored path, written and read back *)

Section PathFacts.
Context {U : Unicode}.

Lemma eat_lit_app (l r : pystr) : eat_lit l (l ++ r) = Some r.
Proof. induction l as [|a l IH]; simpl; [done|]. by rewrite N.eqb_refl. Qed.

Lemma eat_digits_app (d r : pystr) :
  Forall (fun c => is_digit c = true) d -> eat_digits (length d) (d ++ r) = Some r.
Proof. induction 1 as [|c d Hc _ IH]; simpl; [done|]. by rewrite Hc. Qed.

Lemma nome_df_final_casa (d8 d6 : pystr) :
  length d8 = 8%nat -> length d6 = 6%nat ->
  Forall (fun c => is_digit c = true) (d8 ++ d6) ->
  re_match re_df_final (py "df_final_" ++ d8 ++ py "_" ++ d6 ++ py ".xlsx") = true.
Proof.
  intros L8 L6 Hd. apply Forall_app in Hd as [H8 H6].
  unfold re_match, re_df_final. cbn [eat].
  rewrite eat_lit_app. rewrite <- L8, eat_digits_app by done.
  rewrite eat_lit_app. rewrite <- L6.
  rewrite <- (app_nil_r (py ".xlsx")) at 1.
  rewrite eat_digits_app by done. by rewrite eat_lit_app.
Qed.

Lemma competencia_casa (ano mes : pystr) :
  length ano = 4%nat -> length mes = 2%nat ->
  Forall (fun c => is_digit c = true) (ano ++ mes) ->
  re_match re_competencia (ano ++ py "-" ++ mes) = true.
Proof.
  intros L4 L2 Hd. apply Forall_app in Hd as [H4 H2].
  unfold re_match, re_competencia. cbn [eat].
  rewrite <- L4, eat_digits_app by done. rewrite eat_lit_app.
  rewrite <- L2. rewrite <- (app_nil_r mes) at 2.
  by rewrite eat_digits_app.
Qed.

Lemma re_search_aqui (p : list atom) (s : pystr) :
  re_match p s = true -> re_search p s = Some s.
Proof. intros H. destruct s; simpl; by rewrite H. Qed.

(** The pattern matches a path at one place only: where its file name starts. *)
Lemma re_search_no_nome (x d8 d6 : pystr) :
  length d8 = 8%nat -> length d6 = 6%nat ->
  Forall (fun c => is_digit c = true) (d8 ++ d6) ->
  re_search re_df_final (x ++ py "df_final_" ++ d8 ++ py "_" ++ d6 ++ py ".xlsx")
  = Some (py "df_final_" ++ d8 ++ py "_" ++ d6 ++ py ".xlsx").
Proof.
  intros L8 L6 Hd.
  set (nome := py "df_final_" ++ d8 ++ py "_" ++ d6 ++ py ".xlsx").
  assert (Hn : re_match re_df_final nome = true) by by apply nome_df_final_casa.
  assert (Hlen : length nome = 29%nat).
  { unfold nome. rewrite !length_app, L8, L6. reflexivity. }
  induction x as [|c x IH].
  - rewrite app_nil_l. by apply re_search_aqui.
  - cbn [app re_search].
    destruct (re_match re_df_final (c :: x ++ nome)) eqn:E; [|exact IH].
    exfalso. apply re_df_final_forma in E
      as (e8 & e6 & fim & E & M8 & M6 & _ & Hfim).
    assert (Hl : length (c :: x ++ nome) = (29 + length fim)%nat).
    { rewrite E, !length_app, M8, M6. reflexivity. }
    cbn [length] in Hl. rewrite length_app, Hlen in Hl.
    destruct Hfim as [->| ->]; cbn [length] in Hl; [lia|].
    assert (Hx : x = []) by (destruct x; [done|simpl in Hl; lia]). subst x.
    rewrite app_nil_l in E.
    assert (E' : (c :: py "df_final_" ++ d8 ++ py "_" ++ d6 ++ py ".xls") ++ [120]
                 = (py "df_final_" ++ e8 ++ py "_" ++ e6 ++ py ".xlsx") ++ [10]).
    { transitivity (c :: nome).
      - unfold nome. cbn [app]. f_equal. rewrite <- !app_assoc. reflexivity.
      - rewrite E, <- !app_assoc. reflexivity. }
    apply app_inj_tail in E' as [_ E']. discriminate E'.
Qed.

Lemma competencia_sem_barra (c : pystr) :
  is_digit 47 = false -> re_match re_competencia c = true ->
  Forall (fun x => x <> 47) c.
Proof.
  intros H47 Hc. apply re_competencia_forma in Hc
    as (ano & mes & fim & -> & _ & _ & Hd & Hfim).
  assert (Hdig : forall d, Forall (fun x => is_digit x = true) d ->
                           Forall (fun x => x <> 47) d).
  { intros d. apply List.Forall_impl. intros x Hx ->. congruence. }
  apply Forall_app in Hd as [Ha Hm].
  apply Forall_app. split; [auto|]. apply Forall_app. split; [by repeat constructor|].
  apply Forall_app. split; [auto|]. destruct Hfim as [->| ->]; by repeat constructor.
Qed.

Lemma pasta_do_caminho (c resto : pystr) :
  Forall (fun x => x <> 47) c ->
  contains (py "/") (c ++ py "/" ++ resto) = true
  /\ head (split1 47 (c ++ py "/" ++ resto)) = Some c.
Proof.
  intros Hc. split; [apply contains_meio|].
  change (py "/" ++ resto) with (47 :: resto). by rewrite split1_app.
Qed.

(** X15.  The path under which [processar] uploads an aggregate is one that
    the rest of the program takes back: for a competence [YYYY-MM] and a
    timestamp [YYYYMMDD_HHMMSS] (digits, and the slash not counted as a
    digit), the first destination is [YYYY-MM/df_final_YYYYMMDD_HHMMSS.xlsx];
    the folder matches the competence pattern and the name the aggregate
    pattern, so the listing of the competence shows the path once the bucket
    lists the name; and from the path [visualizar_antigo] recovers the
    timestamp and, before the first slash, the competence. *)
Theorem caminho_ida_e_volta (w : world) (ano mes d8 d6 : pystr) :
  length ano = 4%nat -> length mes = 2%nat ->
  length d8 = 8%nat -> length d6 = 6%nat ->
  Forall (fun c => is_digit c = true) (ano ++ mes ++ d8 ++ d6) ->
  is_digit 47 = false ->
  let comp := ano ++ py "-" ++ mes in
  let ts := d8 ++ py "_" ++ d6 in
  let nome := py "df_final_" ++ ts ++ py ".xlsx" in
  let caminho := comp ++ py "/" ++ nome in
  head (destinos comp ts) = Some caminho
  /\ re_match re_competencia comp = true
  /\ re_match re_df_final nome = true
  /\ (In (Some nome) (_supabase_list w comp) ->
      In caminho (listar_df_final_por_competencia w comp))
  /\ (take 15 <$> (drop 9 <$> re_search re_df_final caminho)) = Some ts
  /\ contains (py "/") caminho = true
  /\ head (split1 47 caminho) = Some comp.
Proof.
  intros L4 L2 L8 L6 Hd H47 comp ts nome caminho.
  apply Forall_app in Hd as [Ha Hd]. apply Forall_app in Hd as [Hm Hd].
  assert (Hc : re_match re_competencia comp = true).
  { apply competencia_casa; [done..|]. by apply Forall_app. }
  assert (Hnome : nome = py "df_final_" ++ d8 ++ py "_" ++ d6 ++ py ".xlsx").
  { unfold nome, ts. by rewrite <- !app_assoc. }
  assert (Hn : re_match re_df_final nome = true).
  { rewrite Hnome. by apply nome_df_final_casa. }
  split; [reflexivity|].
  split; [done|]. split; [done|]. split; [|split].
  - intros Hin. apply listado_forma. exists nome. split; [|done].
    apply in_map_iff. by exists (Some nome).
  - unfold caminho. rewrite Hnome, app_assoc, re_search_no_nome by done.
    cbn [fmap option_fmap option_map].
    f_equal. change (drop 9 (py "df_final_" ++ ?x)) with x. unfold ts.
    replace (d8 ++ py "_" ++ d6 ++ py ".xlsx") with ((d8 ++ py "_" ++ d6) ++ py ".xlsx")
      by (by rewrite <- !app_assoc).
    rewrite take_app_length'; [done|].
    rewrite !length_app, L8, L6. done.
  - apply pasta_do_caminho. by apply competencia_sem_barra.
Qed.

End PathFacts.

Section ViewDetail.
Context {U : Unicode} {P : Pandas}.

Lemma carregar_ok (w : world) (path : pystr) (s s' : state) (o : option ref) :
  carregar_excel_do_supabase w path s = (s', Some o) ->
  match baixado w path with
  | Some b => exists df r, read_excel b = Some df /\ o = Some r
                /\ s' = {| heap := <[r := df]> (heap s); log := log s ++ [ReadExcel r] |}
  | None => o = None /\ s' = s
  end.
Proof.
  unfold carregar_excel_do_supabase, baixado.
  destruct (if w_supabase w then w_download w path else None) as [[|c b]|];
    try (by intros H; apply mret_ok in H as [-> ->]).
  intros H.
  apply bind_ok in H as (s1 & df & E1 & H). apply lift_ok in E1 as [-> E1].
  apply bind_ok in H as (s1 & r & E2 & H). unfold alloc in E2. injection E2 as <- <-.
  apply bind_ok in H as (s1 & [] & E3 & H). apply emit_ok in E3. subst s1.
  apply mret_ok in H as [-> ->]. by eexists _, _.
Qed.

(** The tabs of the sources: one for each stored copy that can be loaded. *)
Lemma carregar_casos (w : world) (path : pystr) (s s' : state) (o : option ref) :
  carregar_excel_do_supabase w path s = (s', Some o) ->
  (o = None /\ s' = s /\ baixado w path = None)
  \/ (exists b df r, baixado w path = Some b /\ read_excel b = Some df /\ o = Some r
        /\ s' = {| heap := <[r := df]> (heap s); log := log s ++ [ReadExcel r] |}).
Proof.
  intros H. apply carregar_ok in H.
  destruct (baixado w path) as [b|].
  - destruct H as (df & r & ? & -> & ->). right. by exists b, df, r.
  - destruct H as [-> ->]. by left.
Qed.

Lemma carregar_rotulo (w : world) (path : pystr) (s s' : state) (o : option ref) :
  carregar_excel_do_supabase w path s = (s', Some o) ->
  (o = None /\ s' = s /\ forall l, rotulo_se_baixado w path l = None)
  \/ (exists df r, o = Some r
        /\ s' = {| heap := <[r := df]> (heap s); log := log s ++ [ReadExcel r] |}
        /\ forall l, rotulo_se_baixado w path l = Some l).
Proof.
  intros H. apply carregar_ok in H. unfold rotulo_se_baixado.
  destruct (baixado w path) as [b|].
  - destruct H as (df & r & _ & -> & ->). right. by exists df, r.
  - destruct H as [-> ->]. by left.
Qed.

Lemma carregar_fontes_nomes (w : world) (comp ts : pystr) (nomes : list (pystr * pystr))
    (s s' : state) (fl : list (pystr * ref)) :
  carregar_fontes w comp ts nomes s = (s', Some fl) ->
  List.map fst fl
  = omap (fun nc =>
            kn ← List.find (fun kn => str_eqb (fst kn) (snd nc)) nomes_fontes;
            rotulo_se_baixado w (comp ++ py "/" ++ snd kn ++ py "_" ++ ts ++ py ".xlsx")
                              (fst nc)) nomes
  /\ exists rs, log s' = log s ++ List.map ReadExcel rs /\ length rs = length fl.
Proof.
  revert s s' fl. induction nomes as [|[nb ch] rest IH]; intros s s' fl H;
    cbn [carregar_fontes] in H.
  - apply mret_ok in H as [-> ->]. split; [done|]. exists []. by rewrite app_nil_r.
  - apply bind_ok in H as (s1 & arq & E1 & H). apply lift_ok in E1 as [-> E1].
    apply bind_ok in H as (s1 & o & E2 & H).
    apply bind_ok in H as (s2 & resto & E3 & H). apply mret_ok in H as [-> ->].
    destruct (IH _ _ _ E3) as (Hn & rs & Hlog & Hlen).
    destruct (List.find (fun kn => str_eqb (fst kn) ch) nomes_fontes) as [kn|] eqn:Ef;
      [|done].
    simpl in E1. injection E1 as <-.
    apply carregar_rotulo in E2 as [(-> & -> & Hr)|(df & r & -> & -> & Hr)].
    + split; [|by exists rs].
      rewrite Hn. symmetry. apply omap_cons_None.
      cbn [fst snd]. rewrite Ef. apply Hr.
    + cbn [heap log] in *. split.
      * rewrite (omap_cons_Some _ _ nb).
        -- cbn [List.map fst]. by f_equal.
        -- cbn [fst snd]. rewrite Ef. apply Hr.
      * exists (r :: rs). rewrite Hlog. split; [by rewrite <- app_assoc|].
        simpl. by f_equal.
Qed.

(** The keys of [mapping_nomes] are keys of [caminhos], in the same order. *)
Lemma chaves_dos_caminhos :
  Forall2 (fun nc kn => List.find (fun kn' => str_eqb (fst kn') (snd nc)) nomes_fontes
                        = Some kn) nomes_bonitos nomes_fontes.
Proof. repeat (constructor; [vm_compute; reflexivity|]). constructor. Qed.

Lemma omap_pelos_caminhos (w : world) (comp ts : pystr)
    (l1 l2 : list (pystr * pystr)) :
  Forall2 (fun nc kn => List.find (fun kn' => str_eqb (fst kn') (snd nc)) nomes_fontes
                        = Some kn) l1 l2 ->
  omap (fun nc =>
          kn ← List.find (fun kn => str_eqb (fst kn) (snd nc)) nomes_fontes;
          rotulo_se_baixado w (comp ++ py "/" ++ snd kn ++ py "_" ++ ts ++ py ".xlsx")
                            (fst nc)) l1
  = disponiveis w
      (zip (List.map fst l1)
           (List.map (fun kn => comp ++ py "/" ++ snd kn ++ py "_" ++ ts ++ py ".xlsx") l2)).
Proof.
  unfold disponiveis.
  induction 1 as [|nc kn l1 l2 Hf _ IH]; [done|].
  cbn [List.map zip zip_with].
  destruct (rotulo_se_baixado w (comp ++ py "/" ++ snd kn ++ py "_" ++ ts ++ py ".xlsx")
              (fst nc)) as [x|] eqn:E.
  - rewrite (omap_cons_Some _ _ x); [|by rewrite Hf].
    rewrite (omap_cons_Some _ _ x); [|done]. by f_equal.
  - rewrite omap_cons_None; [|by rewrite Hf].
    rewrite omap_cons_None; [|done]. done.
Qed.

Lemma fontes_nos_destinos (w : world) (comp ts : pystr) :
  omap (fun nc =>
          kn ← List.find (fun kn => str_eqb (fst kn) (snd nc)) nomes_fontes;
          rotulo_se_baixado w (comp ++ py "/" ++ snd kn ++ py "_" ++ ts ++ py ".xlsx")
                            (fst nc)) nomes_bonitos
  = disponiveis w (zip (List.map fst nomes_bonitos) (drop 2 (destinos comp ts))).
Proof. apply (omap_pelos_caminhos w comp ts _ _ chaves_dos_caminhos). Qed.

Lemma visualizar_arquivo_detalhe (w : world) (file_path competencia : pystr)
    (s s' : state) (t : pystr) (ctx : gmap pystr value) :
  visualizar_arquivo w file_path competencia s = (s', Some (Render t ctx)) ->
  let timestamp :=
    match re_search re_df_final file_path with
    | Some m => Some (take 15 (drop 9 m))
    | None => None
    end in
  let comp :=
    if contains (py "/") file_path then default [] (head (split1 47 file_path))
    else competencia in
  exists b df r label dj fontes lidos s2 s3 ctx0,
    baixado w file_path = Some b /\ read_excel b = Some df
    /\ (if re_match re_competencia comp
        then exists ano mes, split1 45 comp = [ano; mes] /\ label = mes ++ py "/" ++ ano
        else label = py "—")
    /\ match timestamp with
       | Some ((_ :: _) as ts) =>
         if re_match re_competencia comp then
           (dj = None <-> baixado w (comp ++ py "/df_juntar_" ++ ts ++ py ".xlsx") = None)
           /\ List.map fst (default [] fontes)
              = disponiveis w (zip (List.map fst nomes_bonitos)
                                   (drop 2 (destinos comp ts)))
         else dj = None /\ fontes = None /\ lidos = []
       | _ => dj = None /\ fontes = None /\ lidos = []
       end
    /\ (length lidos = (match dj with Some _ => 1 | None => 0 end
                        + length (default [] fontes))%nat)
    /\ log s2 = log s ++ ReadExcel r :: List.map ReadExcel lidos
    /\ montar_contexto_dashboard w r label (Some file_path) dj fontes s2 = (s3, Some ctx0)
    /\ corrigir_max_total ctx0 s3 = (s', Some ctx)
    /\ t = py "resultado.html".
Proof.
  intros H timestamp comp. unfold visualizar_arquivo in H.
  fold timestamp comp in H.
  apply bind_ok in H as (s1 & o & E1 & H).
  apply carregar_casos in E1 as [(-> & -> & _)|(b & df & r & Hb & Hdf & -> & ->)];
    [apply bind_ok in H as (? & [] & _ & H); by apply mret_ok in H as [_ [=]]|].
  apply bind_ok in H as (s2 & label & E2 & H).
  apply bind_ok in H as (s3 & [dj fontes] & E3 & H).
  apply bind_ok in H as (s4 & ctx0 & E4 & H).
  apply bind_ok in H as (s5 & ctx1 & E5 & H).
  apply mret_ok in H as [-> [= -> ->]].
  assert (Hlabel : s2 = {| heap := <[r := df]> (heap s); log := log s ++ [ReadExcel r] |}
            /\ if re_match re_competencia comp
               then exists ano mes, split1 45 comp = [ano; mes]
                                    /\ label = mes ++ py "/" ++ ano
               else label = py "—").
  { destruct (re_match re_competencia comp) eqn:Hre.
    - destruct (re_competencia_split _ Hre) as (ano & mes & Hsp).
      rewrite Hsp in E2. cbn [nth_error] in E2.
      apply bind_ok in E2 as (t1 & m & F1 & E2). apply lift_ok in F1 as [-> [= <-]].
      apply bind_ok in E2 as (t1 & a & F2 & E2). apply lift_ok in F2 as [-> [= <-]].
      apply mret_ok in E2 as [-> ->]. split; [done|]. by exists ano, mes.
    - by apply mret_ok in E2 as [-> ->]. }
  destruct Hlabel as [-> Hlabel].
  assert (Hcar : exists lidos,
            log s3 = log s ++ ReadExcel r :: List.map ReadExcel lidos
            /\ length lidos = (match dj with Some _ => 1 | None => 0 end
                               + length (default [] fontes))%nat
            /\ match timestamp with
               | Some ((_ :: _) as ts) =>
                 if re_match re_competencia comp then
                   (dj = None <-> baixado w (comp ++ py "/df_juntar_" ++ ts ++ py ".xlsx") = None)
                   /\ List.map fst (default [] fontes)
                      = disponiveis w (zip (List.map fst nomes_bonitos)
                                           (drop 2 (destinos comp ts)))
                 else dj = None /\ fontes = None /\ lidos = []
               | _ => dj = None /\ fontes = None /\ lidos = []
               end).
  { assert (Hnada : (mret (None, None) : M (option ref * option (list (pystr * ref))))
                      {| heap := <[r := df]> (heap s); log := log s ++ [ReadExcel r] |}
                    = (s3, Some (dj, fontes)) ->
                    exists lidos,
                      log s3 = log s ++ ReadExcel r :: List.map ReadExcel lidos
                      /\ length lidos = (match dj with Some _ => 1 | None => 0 end
                                         + length (default [] fontes))%nat
                      /\ dj = None /\ fontes = None /\ lidos = []).
    { intros F. apply mret_ok in F as [-> [= -> ->]]. by exists []. }
    destruct timestamp as [[|c ts]|].
    - destruct (Hnada E3) as (l & ? & ? & ?). by exists l.
    - destruct (re_match re_competencia comp).
      + apply bind_ok in E3 as (t1 & dj' & F1 & E3).
        apply bind_ok in E3 as (t2 & fl & F2 & E3).
        apply mret_ok in E3 as [-> [= -> ->]].
        apply carregar_fontes_nomes in F2 as (Hn & rs & Hlog & Hlen).
        assert (Hfl : default [] (match fl with [] => None | _ :: _ => Some fl end) = fl)
          by by destruct fl.
        rewrite Hfl.
        assert (Hdisp : List.map fst fl
                        = disponiveis w (zip (List.map fst nomes_bonitos)
                                             (drop 2 (destinos comp (c :: ts))))).
        { rewrite Hn. apply fontes_nos_destinos. }
        apply carregar_casos in F1
          as [(-> & -> & Hj)|(bj & dfj & rj & Hj & _ & -> & ->)]; cbn [heap log] in *.
        * exists rs. rewrite Hlog, <- !app_assoc. split; [done|].
          split; [simpl; by rewrite Hlen|]. split; [|done].
          split; [intros _; exact Hj|done].
        * exists (rj :: rs). rewrite Hlog, <- !app_assoc. split; [done|].
          split; [simpl; by rewrite Hlen|]. split; [|done].
          split; [done|]. intros Hx.
          assert (Hbad : Some bj = None) by exact (eq_trans (eq_sym Hj) Hx).
          discriminate.
      + destruct (Hnada E3) as (l & ? & ? & ?). by exists l.
    - destruct (Hnada E3) as (l & ? & ? & ?). by exists l. }
  destruct Hcar as (lidos & Hlog & Hlen & Hts).
  exists b, df, r, label, dj, fontes, lidos, s3, s4, ctx0.
  split; [exact Hb|]. by repeat (split; [done|]).
Qed.

End ViewDetail.

Section ViewTheorems.
Context {U : Unicode} {P : Pandas}.

Lemma visualizar_arquivo_resposta (w : world) (file_path competencia : pystr)
    (s s' : state) (resp : response) :
  visualizar_arquivo w file_path competencia s = (s', Some resp) ->
  resp = Redirect url_index
  \/ exists r label dj fontes s0 s1 ctx0 ctx,
       montar_contexto_dashboard w r label (Some file_path) dj fontes s0 = (s1, Some ctx0)
       /\ corrigir_max_total ctx0 s1 = (s', Some ctx)
       /\ resp = Render (py "resultado.html") ctx.
Proof.
  unfold visualizar_arquivo. intros H.
  apply bind_ok in H as (s1 & o & E1 & H).
  destruct o as [df_final|].
  - apply bind_ok in H as (s2 & label & E2 & H).
    apply bind_ok in H as (s3 & [dj fontes] & E3 & H).
    apply bind_ok in H as (s4 & ctx0 & E4 & H).
    apply bind_ok in H as (s5 & ctx1 & E5 & H).
    apply mret_ok in H as [-> ->]. right.
    by exists df_final, label, dj, fontes, s3, s4, ctx0, ctx1.
  - apply bind_ok in H as (s2 & [] & _ & H). apply mret_ok in H as [_ ->]. by left.
Qed.

Lemma visualizar_resposta (w : world) (req : request) (s s' : state) (resp : response) :
  visualizar_antigo w req s = (s', Some resp) ->
  resp = Redirect url_index
  \/ exists r label caminho dj fontes s0 s1 ctx0 ctx,
       montar_contexto_dashboard w r label caminho dj fontes s0 = (s1, Some ctx0)
       /\ corrigir_max_total ctx0 s1 = (s', Some ctx)
       /\ resp = Render (py "resultado.html") ctx.
Proof.
  unfold visualizar_antigo.
  assert (Hflash : forall msg, (emit (Flash msg);; mret (Redirect url_index)) s
                               = (s', Some resp) -> resp = Redirect url_index).
  { intros msg H. apply bind_ok in H as (s2 & [] & _ & H). by apply mret_ok in H as [_ ->]. }
  assert (Harq : forall fp c, visualizar_arquivo w fp c s = (s', Some resp) ->
            resp = Redirect url_index
            \/ exists r label caminho dj fontes s0 s1 ctx0 ctx,
                 montar_contexto_dashboard w r label caminho dj fontes s0 = (s1, Some ctx0)
                 /\ corrigir_max_total ctx0 s1 = (s', Some ctx)
                 /\ resp = Render (py "resultado.html") ctx).
  { intros fp c H. apply visualizar_arquivo_resposta in H
      as [->|(r & label & dj & fontes & s0 & s1 & ctx0 & ctx & H1 & H2 & ->)]; [by left|].
    right. by exists r, label, (Some fp), dj, fontes, s0, s1, ctx0, ctx. }
  destruct (w_supabase w); cbn [negb]; [|intros H; left; by eapply Hflash].
  destruct (strip (or_empty (args_file req))) as [|c fp]; [|apply Harq].
  destruct (re_match re_competencia _); cbn [negb]; [|intros H; left; by eapply Hflash].
  destruct (escolher_mais_recente_df_final w _) as [[|c fp]|];
    [intros H; left; by eapply Hflash|apply Harq|intros H; left; by eapply Hflash].
Qed.

End ViewTheorems.

Section PageTheorem.
Context {U : Unicode} {P : Pandas} {B : Backend}.

(** X16.  The only answers of [processar] and [visualizar_antigo] are a
    redirect to the index page and [resultado.html].  The page is given
    exactly thirteen keys ([max_total_val] is not among them), the ten fixed
    local links and the competences on offer.  From [processar] it also gets
    the label [MM/YYYY] of the competence [YYYY-MM] of the form, and one
    source table for each of the ten labels of the links, in their order. *)
Theorem pagina_de_resultado (w : world) (req : request) (s : state) :
  let pagina := fun (ctx : gmap pystr value) =>
    dom ctx = list_to_set chaves_da_pagina
    /\ ctx !! py "links_fontes" = Some (VDict links_fontes)
    /\ ctx !! py "competencias_disponiveis" = Some (VStrs (listar_competencias w)) in
  (forall s' resp, processar w req s = (s', Some resp) ->
     resp = Redirect url_index
     \/ exists ctx tf ano mes,
          resp = Render (py "resultado.html") ctx /\ pagina ctx
          /\ strip (or_empty (form_competencia req)) = ano ++ py "-" ++ mes
          /\ ctx !! py "competencia" = Some (VStr (mes ++ py "/" ++ ano))
          /\ ctx !! py "tabelas_fontes" = Some (VDict tf)
          /\ List.map fst tf = List.map fst links_fontes)
  /\ (forall s' resp, visualizar_antigo w req s = (s', Some resp) ->
        resp = Redirect url_index
        \/ exists ctx, resp = Render (py "resultado.html") ctx /\ pagina ctx).
Proof.
  intros pagina. split; intros s' resp H.
  - destruct resp as [url|t ctx|path].
    + apply processar_render in H as [H|(slots & ano & mes & _ & H)]; [by left|].
      by apply processar_completo_spec in H
        as (? & ? & ? & ? & ? & ? & ? & ? & ? & ? & ? & _ & _ & _ & _ & _ & _ & _ & _ & _
            & _ & _ & [=] & _).
    + right. apply processar_chega in H as (slots & ano & mes & _ & Hsp & _ & H).
      apply processar_completo_detalhe in H
        as (fontes & s1 & h & df_final & df_juntar & evs_l & evs_u & nome & ctx'
            & _ & Hall & _ & _ & _ & _ & _ & _ & _ & [= -> <-] & s5 & s6 & ctx0 & Hm & Hc).
      destruct (pagina_forma _ _ _ _ _ _ _ _ _ _ _ Hm Hc)
        as (tf & regs & Hdom & _ & Hlabel & Hcomps & _ & _ & Hlinks & Htf & _ & _ & Hnomes).
      exists ctx, tf, ano, mes. split; [done|]. split; [done|].
      split; [by rewrite (split1_duas _ _ _ Hsp)|]. split; [done|]. split; [done|].
      rewrite Hnomes. apply Forall2_length in Hall.
      destruct fontes as [|r1 [|r2 [|r3 [|r4 [|r5 [|r6 [|r7 [|r8 [|r9 [|r10 [|]]]]]]]]]]];
        try discriminate Hall. vm_compute; reflexivity.
    + apply processar_render in H as [[=]|(slots & ano & mes & _ & H)].
      by apply processar_completo_spec in H
        as (? & ? & ? & ? & ? & ? & ? & ? & ? & ? & ? & _ & _ & _ & _ & _ & _ & _ & _ & _
            & _ & _ & [=] & _).
  - apply visualizar_resposta in H
      as [->|(r & label & caminho & dj & fontes & s0 & s1 & ctx0 & ctx & Hm & Hc & ->)];
      [by left|].
    right. exists ctx. split; [done|].
    destruct (pagina_forma _ _ _ _ _ _ _ _ _ _ _ Hm Hc)
      as (tf & regs & Hdom & _ & _ & Hcomps & _ & _ & Hlinks & _).
    done.
Qed.

End PageTheorem.

Section ReopenTheorems.
Context {U : Unicode} {P : Pandas}.

Lemma visualizar_arquivo_pagina (w : world) (fp c : pystr) (s s' : state)
    (t : pystr) (ctx : gmap pystr value) :
  visualizar_arquivo w fp c s = (s', Some (Render t ctx)) ->
  let timestamp :=
    match re_search re_df_final fp with
    | Some m => Some (take 15 (drop 9 m))
    | None => None
    end in
  let comp :=
    if contains (py "/") fp then default [] (head (split1 47 fp)) else c in
  exists (r : ref) (label : pystr) (dj : option ref)
         (fontes : option (list (pystr * ref))) (lidos : list ref)
         (tf : list (pystr * pystr)) regs,
    (if re_match re_competencia comp
     then exists ano mes, split1 45 comp = [ano; mes] /\ label = mes ++ py "/" ++ ano
     else label = py "—")
    /\ match timestamp with
       | Some ((_ :: _) as ts) =>
         if re_match re_competencia comp then
           (dj = None <-> baixado w (comp ++ py "/df_juntar_" ++ ts ++ py ".xlsx") = None)
           /\ List.map fst (default [] fontes)
              = disponiveis w (zip (List.map fst nomes_bonitos)
                                   (drop 2 (destinos comp ts)))
         else dj = None /\ fontes = None /\ lidos = []
       | _ => dj = None /\ fontes = None /\ lidos = []
       end
    /\ (length lidos = (match dj with Some _ => 1 | None => 0 end
                        + length (default [] fontes))%nat)
    /\ log s' = log s ++ ReadExcel r :: List.map ReadExcel lidos ++ [RoundInPlace r]
    /\ ctx !! py "caminho_df_final" = Some (VOpt (Some fp))
    /\ ctx !! py "competencia" = Some (VStr label)
    /\ ctx !! py "competencia_atual"
       = Some (VOpt (if negb (str_eqb fp []) && contains (py "/") fp
                     then head (split1 47 fp) else None))
    /\ ctx !! py "tabelas_fontes" = Some (VDict tf)
    /\ List.map fst tf = List.map fst (default [] fontes)
    /\ ctx !! py "df_juntar" = Some (VRecords regs)
    /\ (dj = None -> regs = []).
Proof.
  intros H timestamp comp.
  apply visualizar_arquivo_detalhe in H
    as (b & df & r & label & dj & fontes & lidos & s2 & s3 & ctx0
        & _ & _ & Hlabel & Hts & Hlen & Hlog & Hm & Hc & _).
  fold timestamp comp in Hlabel, Hts.
  destruct (pagina_forma _ _ _ _ _ _ _ _ _ _ _ Hm Hc)
    as (tf & regs & _ & Hcam & Hlab & _ & Hatual & _ & _ & Htf & Hregs & Hdj & Hnomes).
  cbv zeta in Hatual.
  destruct (montar_spec _ _ _ _ _ _ _ _ _ Hm) as (? & ? & ? & ? & _ & Hs3 & _).
  apply corrigir_ok in Hc as [-> _].
  exists r, label, dj, fontes, lidos, tf, regs.
  split; [exact Hlabel|]. split; [exact Hts|]. split; [exact Hlen|].
  split.
  { rewrite Hs3. cbn [log]. rewrite Hlog, <- app_assoc. reflexivity. }
  split; [exact Hcam|]. split; [exact Hlab|]. split; [exact Hatual|].
  split; [exact Htf|]. split; [|split; [exact Hregs|exact Hdj]].
  rewrite Hnomes. by destruct fontes.
Qed.

Lemma competencia_split (ano mes : pystr) :
  Forall (fun c => is_digit c = true) (ano ++ mes) ->
  split1 45 (ano ++ py "-" ++ mes) = [ano; mes].
Proof.
  intros Hd. apply Forall_app in Hd as [Ha Hm].
  assert (Hdig : forall d, Forall (fun x => is_digit x = true) d ->
                           Forall (fun x => x <> 45) d).
  { intros d. apply List.Forall_impl. intros x Hx ->. by rewrite digit_hyphen in Hx. }
  change (py "-" ++ mes) with (45 :: mes).
  rewrite split1_app by auto. by rewrite split1_sem_sep by auto.
Qed.

(** X17.  Reopening one run by the path of its aggregate,
    [YYYY-MM/df_final_YYYYMMDD_HHMMSS.xlsx]: when the page is rendered it is
    given that path, the label [MM/YYYY] and the competence [YYYY-MM] as the
    current one; its source tables are those of the sources whose copy with
    the same timestamp can be downloaded, under their labels and in the order
    of the uploads; the records of [df_juntar] are empty when its copy cannot
    be downloaded. *)
Theorem reabrir_uma_execucao (w : world) (req : request) (s s' : state)
    (t : pystr) (ctx : gmap pystr value) (ano mes d8 d6 : pystr) :
  length ano = 4%nat -> length mes = 2%nat ->
  length d8 = 8%nat -> length d6 = 6%nat ->
  Forall (fun c => is_digit c = true) (ano ++ mes ++ d8 ++ d6) ->
  is_digit 47 = false ->
  let comp := ano ++ py "-" ++ mes in
  let ts := d8 ++ py "_" ++ d6 in
  strip (or_empty (args_file req)) = comp ++ py "/df_final_" ++ ts ++ py ".xlsx" ->
  visualizar_antigo w req s = (s', Some (Render t ctx)) ->
  ctx !! py "caminho_df_final"
  = Some (VOpt (Some (comp ++ py "/df_final_" ++ ts ++ py ".xlsx")))
  /\ ctx !! py "competencia" = Some (VStr (mes ++ py "/" ++ ano))
  /\ ctx !! py "competencia_atual" = Some (VOpt (Some comp))
  /\ exists tf regs,
       ctx !! py "tabelas_fontes" = Some (VDict tf)
       /\ List.map fst tf
          = disponiveis w (zip (List.map fst nomes_bonitos) (drop 2 (destinos comp ts)))
       /\ ctx !! py "df_juntar" = Some (VRecords regs)
       /\ (baixado w (comp ++ py "/df_juntar_" ++ ts ++ py ".xlsx") = None -> regs = []).
Proof.
  intros L4 L2 L8 L6 Hd H47 comp ts Hfile H.
  set (fp := comp ++ py "/df_final_" ++ ts ++ py ".xlsx") in *.
  assert (Hd' := Hd).
  apply Forall_app in Hd' as [Ha Hd']. apply Forall_app in Hd' as [Hm Hd'].
  assert (Hcomp : re_match re_competencia comp = true).
  { apply competencia_casa; [done..|]. by apply Forall_app. }
  assert (Hfp : fp = comp ++ py "/" ++ py "df_final_" ++ d8 ++ py "_" ++ d6 ++ py ".xlsx").
  { unfold fp, ts. rewrite <- !app_assoc. reflexivity. }
  assert (Hrs : re_search re_df_final fp
                = Some (py "df_final_" ++ d8 ++ py "_" ++ d6 ++ py ".xlsx")).
  { rewrite Hfp, app_assoc. by apply re_search_no_nome. }
  assert (Hts : take 15 (drop 9 (py "df_final_" ++ d8 ++ py "_" ++ d6 ++ py ".xlsx")) = ts).
  { change (drop 9 (py "df_final_" ++ ?x)) with x. unfold ts.
    replace (d8 ++ py "_" ++ d6 ++ py ".xlsx") with ((d8 ++ py "_" ++ d6) ++ py ".xlsx")
      by (by rewrite <- !app_assoc).
    rewrite take_app_length'; [done|]. rewrite !length_app, L8, L6. done. }
  destruct (pasta_do_caminho comp (py "df_final_" ++ d8 ++ py "_" ++ d6 ++ py ".xlsx")
              (competencia_sem_barra _ H47 Hcomp)) as [Hbarra Hpasta].
  rewrite <- Hfp in Hbarra, Hpasta.
  assert (Hcons : exists c0 r0, fp = c0 :: r0).
  { rewrite Hfp. unfold comp. destruct ano; [discriminate L4|]. by eexists _, _. }
  assert (Htscons : exists c0 r0, ts = c0 :: r0).
  { unfold ts. destruct d8; [discriminate L8|]. by eexists _, _. }
  assert (Hccons : exists c0 r0, comp = c0 :: r0).
  { unfold comp. destruct ano; [discriminate L4|]. by eexists _, _. }
  unfold visualizar_antigo in H.
  destruct (w_supabase w); cbn [negb] in H;
    [|apply bind_ok in H as (? & [] & _ & H); by apply mret_ok in H as [_ [=]]].
  rewrite Hfile in H. destruct Hcons as (c0 & r0 & Hcons).
  rewrite Hcons in H. rewrite <- Hcons in H.
  apply visualizar_arquivo_pagina in H
    as (r & label & dj & fontes & lidos & tf & regs & Hlabel & Hcar & _ & _
        & Hcam & Hlab & Hatual & Htf & Hnomes & Hregs & Hdj).
  cbv zeta in Hlabel, Hcar.
  assert (Hcompeq : forall c', (if contains (py "/") fp
                                then default [] (head (split1 47 fp)) else c') = comp)
    by (intros c'; by rewrite Hbarra, Hpasta).
  rewrite Hcompeq in Hlabel, Hcar. rewrite Hrs, Hts in Hcar.
  rewrite Hcomp in Hlabel, Hcar.
  destruct Hlabel as (ano' & mes' & Hsp & ->).
  assert (Hs2 : split1 45 comp = [ano; mes])
    by (apply competencia_split; by apply Forall_app).
  rewrite Hs2 in Hsp.
  injection Hsp as <- <-.
  destruct Htscons as (c1 & r1 & Htscons). rewrite Htscons in Hcar.
  rewrite <- Htscons in Hcar. destruct Hcar as [Hdjb Hdisp].
  rewrite Hbarra, Hpasta in Hatual.
  assert (Hne : negb (str_eqb fp []) = true).
  { rewrite Hcons. apply negb_true_iff, str_eqb_false. discriminate. }
  rewrite Hne in Hatual. cbn [andb] in Hatual.
  split; [exact Hcam|]. split; [exact Hlab|]. split; [exact Hatual|].
  exists tf, regs. split; [exact Htf|]. split; [by rewrite Hnomes|].
  split; [exact Hregs|]. intros Hb. apply Hdj. by apply Hdjb.
Qed.


End ReopenTheorems.

(** ** The further properties on concrete requests *)

Section ExemplosDasRotas.
#[local] Existing Instance unicode_latin1.
#[local] Existing Instance pandas_ref.
#[local] Existing Instance backend_ref.

(** X2 on nine files. *)
Lemma poucos_arquivos_exemplo :
  let req := pedido_processar (List.tl lote_completo) in
  (length (files req) < 10)%nat
  /\ snd (classificar_arquivos (files req)) <> []
  /\ exists msgs,
       processar world_ref req estado_inicial
       = ({| heap := heap estado_inicial;
             log := log estado_inicial ++ List.map Flash msgs |},
          Some (Redirect url_index)).
Proof.
  intros req.
  assert (H : (length (files req) < 10)%nat) by (vm_compute; lia).
  split; [exact H|].
  exact (poucos_arquivos_nao_processam world_ref req estado_inicial H).
Defined.

(** X4 on a batch that grows by a second insurance file and a base file. *)
Lemma slot_preenchido_exemplo :
  let a := [arquivo "Seguro PJ.xlsx" [1]] in
  let b := [arquivo "seguro novo.xlsx" [2]; arquivo "base.xlsx" [3]] in
  slot_get (fst (classificar_arquivos a)) (py "seg") = Some (arquivo "Seguro PJ.xlsx" [1])
  /\ slot_get (fst (classificar_arquivos (a ++ b))) (py "seg")
     = Some (arquivo "Seguro PJ.xlsx" [1]).
Proof.
  intros a b.
  assert (H : slot_get (fst (classificar_arquivos a)) (py "seg")
              = Some (arquivo "Seguro PJ.xlsx" [1])) by (vm_compute; reflexivity).
  split; [exact H|].
  exact (slot_preenchido_permanece a b (py "seg") (arquivo "Seguro PJ.xlsx" [1]) H).
Defined.

(** X7 on the bucket listed in the opposite order. *)
Lemma listagem_invertida_exemplo :
  Permutation (_supabase_list world_ref []) (_supabase_list world_invertido [])
  /\ Permutation (_supabase_list world_ref (py "2025-12"))
                 (_supabase_list world_invertido (py "2025-12"))
  /\ _supabase_list world_ref (py "2025-12")
     <> _supabase_list world_invertido (py "2025-12")
  /\ listar_competencias world_ref = listar_competencias world_invertido
  /\ listar_df_final_por_competencia world_ref (py "2025-12")
     = listar_df_final_por_competencia world_invertido (py "2025-12")
  /\ escolher_mais_recente_df_final world_ref (py "2025-12")
     = escolher_mais_recente_df_final world_invertido (py "2025-12").
Proof.
  assert (H0 : Permutation (_supabase_list world_ref [])
                           (_supabase_list world_invertido [])).
  { change (_supabase_list world_invertido []) with (rev (_supabase_list world_ref [])).
    apply Permutation_rev. }
  assert (H1 : Permutation (_supabase_list world_ref (py "2025-12"))
                           (_supabase_list world_invertido (py "2025-12"))).
  { change (_supabase_list world_invertido (py "2025-12"))
      with (rev (_supabase_list world_ref (py "2025-12"))).
    apply Permutation_rev. }
  split; [exact H0|]. split; [exact H1|]. split; [vm_compute; discriminate|].
  exact (listagem_independe_da_ordem world_ref world_invertido (py "2025-12") H0 H1).
Defined.

(** X9 on the stand-in environment. *)
Lemma download_exemplo :
  w_join world_ref (OUTPUT_DIR world_ref) (py "df_final.xlsx") <> []
  /\ snd (download world_ref estado_inicial)
     = snd (download_excel world_ref (py "df_final") estado_inicial)
  /\ heap (fst (download world_ref estado_inicial)) = heap estado_inicial
  /\ (exists resp, snd (download world_ref estado_inicial) = Some resp
        /\ (resp = SendFile (w_join world_ref (OUTPUT_DIR world_ref) (py "df_final.xlsx"))
            /\ w_exists world_ref (w_join world_ref (OUTPUT_DIR world_ref) (py "df_final.xlsx")) = true
            /\ fst (download world_ref estado_inicial) = estado_inicial
            \/ resp = Redirect url_index
               /\ w_exists world_ref (w_join world_ref (OUTPUT_DIR world_ref) (py "df_final.xlsx")) = false
               /\ exists msg, log (fst (download world_ref estado_inicial))
                              = log estado_inicial ++ [Flash msg])).
Proof.
  assert (H : w_join world_ref (OUTPUT_DIR world_ref) (py "df_final.xlsx") <> [])
    by (vm_compute; discriminate).
  split; [exact H|].
  exact (download_e_download_excel world_ref estado_inicial H).
Defined.

(** X11 on the complete batch. *)
Lemma motor_exemplo :
  let s' := fst execucao_exemplo in
  let ctx := contexto_de (snd execucao_exemplo) in
  processar world_ref (pedido_processar lote_completo) estado_inicial
    = (s', Some (Render (py "resultado.html") ctx))
  /\ exists slots fontes h1 h df_final df_juntar resto,
    classificar_arquivos (files (pedido_processar lote_completo)) = (slots, [])
    /\ Forall2 (fun chave r => exists f df,
                  slot_get slots chave = Some f
                  /\ In f (files (pedido_processar lote_completo))
                  /\ read_excel (stream f) = Some df
                  /\ h1 !! r = Some df)
         [py "pj1"; py "seg"; py "cam"; py "co_ter"; py "co_xpvp"; py "cre";
          py "xpcs"; py "lan_man"; py "tim_rep"; py "lan_pro"] fontes
    /\ (forall r, is_Some (heap estado_inicial !! r) -> h1 !! r = heap estado_inicial !! r)
    /\ calcular_comissoes h1 fontes = Some (h, (df_final, df_juntar))
    /\ log s' = log estado_inicial ++ List.map ReadExcel fontes
                  ++ Engine df_final df_juntar :: resto
    /\ Forall (fun e => match e with ReadExcel _ | Engine _ _ => False | _ => True end)
              resto.
Proof.
  intros s' ctx.
  assert (H : processar world_ref (pedido_processar lote_completo) estado_inicial
              = (s', Some (Render (py "resultado.html") ctx)))
    by (vm_compute; reflexivity).
  split; [exact H|]. clearbody s' ctx.
  exact (motor_recebe_as_dez_fontes world_ref (pedido_processar lote_completo)
           estado_inicial s' (py "resultado.html") ctx H).
Defined.

(** X12 on the complete batch. *)
Lemma gravacao_exemplo :
  let w := world_ref in
  let req := pedido_processar lote_completo in
  let s' := fst execucao_exemplo in
  let ctx := contexto_de (snd execucao_exemplo) in
  processar w req estado_inicial = (s', Some (Render (py "resultado.html") ctx))
  /\ let comp := strip (or_empty (form_competencia req)) in
     let pasta := w_join w (OUTPUT_DIR w) comp in
     exists evs,
       log s' = log estado_inicial ++ evs
       /\ (if w_vercel w then gravados evs = [] /\ criadas evs = []
           else criadas evs = [pasta]
                /\ gravados evs
                   = List.map snd (OUTPUT_FILES_itens w)
                       ++ [w_join w pasta (py "df_final.xlsx")]).
Proof.
  intros w req s' ctx.
  assert (H : processar w req estado_inicial
              = (s', Some (Render (py "resultado.html") ctx)))
    by (vm_compute; reflexivity).
  split; [exact H|]. clearbody s' ctx.
  exact (processar_grava_localmente w req estado_inicial s' (py "resultado.html") ctx H).
Defined.



(** X15 on the path of the newest aggregate of the stand-in bucket. *)
Lemma caminho_exemplo :
  let w := world_ref in
  let ano := py "2025" in let mes := py "12" in
  let d8 := py "20251215" in let d6 := py "083000" in
  (length ano = 4%nat /\ length mes = 2%nat /\ length d8 = 8%nat /\ length d6 = 6%nat
   /\ Forall (fun c => is_digit c = true) (ano ++ mes ++ d8 ++ d6)
   /\ is_digit 47 = false)
  /\ let comp := ano ++ py "-" ++ mes in
     let ts := d8 ++ py "_" ++ d6 in
     let nome := py "df_final_" ++ ts ++ py ".xlsx" in
     let caminho := comp ++ py "/" ++ nome in
     head (destinos comp ts) = Some caminho
     /\ re_match re_competencia comp = true
     /\ re_match re_df_final nome = true
     /\ (In (Some nome) (_supabase_list w comp) ->
         In caminho (listar_df_final_por_competencia w comp))
     /\ (take 15 <$> (drop 9 <$> re_search re_df_final caminho)) = Some ts
     /\ contains (py "/") caminho = true
     /\ head (split1 47 caminho) = Some comp.
Proof.
  intros w ano mes d8 d6.
  assert (Hd : Forall (fun c => is_digit c = true) (ano ++ mes ++ d8 ++ d6))
    by (vm_compute; repeat constructor).
  split; [by repeat split|].
  exact (caminho_ida_e_volta w ano mes d8 d6 eq_refl eq_refl eq_refl eq_refl Hd eq_refl).
Defined.

(** X17 on the newest aggregate of the stand-in bucket, opened by its path. *)
Lemma reabrir_exemplo :
  let w := world_ref in
  let req := pedido_visualizar "2025-12/df_final_20251215_083000.xlsx" in
  let ano := py "2025" in let mes := py "12" in
  let d8 := py "20251215" in let d6 := py "083000" in
  let s' := fst (visualizar_antigo w req estado_inicial) in
  let ctx := contexto_de (snd (visualizar_antigo w req estado_inicial)) in
  let comp := ano ++ py "-" ++ mes in
  let ts := d8 ++ py "_" ++ d6 in
  (Forall (fun c => is_digit c = true) (ano ++ mes ++ d8 ++ d6)
   /\ is_digit 47 = false
   /\ strip (or_empty (args_file req)) = comp ++ py "/df_final_" ++ ts ++ py ".xlsx"
   /\ visualizar_antigo w req estado_inicial
      = (s', Some (Render (py "resultado.html") ctx)))
  /\ ctx !! py "caminho_df_final"
     = Some (VOpt (Some (comp ++ py "/df_final_" ++ ts ++ py ".xlsx")))
  /\ ctx !! py "competencia" = Some (VStr (mes ++ py "/" ++ ano))
  /\ ctx !! py "competencia_atual" = Some (VOpt (Some comp))
  /\ exists tf regs,
       ctx !! py "tabelas_fontes" = Some (VDict tf)
       /\ List.map fst tf
          = disponiveis w (zip (List.map fst nomes_bonitos) (drop 2 (destinos comp ts)))
       /\ ctx !! py "df_juntar" = Some (VRecords regs)
       /\ (baixado w (comp ++ py "/df_juntar_" ++ ts ++ py ".xlsx") = None -> regs = []).
Proof.
  intros w req ano mes d8 d6 s' ctx comp ts.
  assert (Hd : Forall (fun c => is_digit c = true) (ano ++ mes ++ d8 ++ d6))
    by (vm_compute; repeat constructor).
  assert (Hf : strip (or_empty (args_file req))
               = comp ++ py "/df_final_" ++ ts ++ py ".xlsx") by (vm_compute; reflexivity).
  assert (H : visualizar_antigo w req estado_inicial
              = (s', Some (Render (py "resultado.html") ctx)))
    by (vm_compute; reflexivity).
  split; [by repeat split|]. clearbody s' ctx.
  exact (reabrir_uma_execucao w req estado_inicial s' (py "resultado.html") ctx
           ano mes d8 d6 eq_refl eq_refl eq_refl eq_refl Hd eq_refl Hf H).
Defined.


End ExemplosDasRotas.

(** ** The reconciliation engine: conservation *)

Module EngineFacts.
Import Engine.

Lemma soma_acumular (agg : list AdvisorAggregate) (k : pystr) (a : Q) :
  (soma_agregado (acumular agg k a) == soma_agregado agg + a)%Q.
Proof.
  induction agg as [|row rest IH]; simpl.
  - ring.
  - destruct (str_eqb (agg_key row) k); simpl.
    + ring.
    + rewrite IH. ring.
Qed.

Lemma total_acumular_mesmo (agg : list AdvisorAggregate) (k : pystr) (a : Q) :
  total_de k (acumular agg k a)
  = Some (match total_de k agg with Some t => (t + a)%Q | None => a end).
Proof.
  unfold total_de. induction agg as [|row rest IH]; simpl.
  - by rewrite str_eqb_refl.
  - destruct (str_eqb (agg_key row) k) eqn:E; simpl.
    + by rewrite str_eqb_refl.
    + by rewrite E.
Qed.

Lemma total_acumular_outro (agg : list AdvisorAggregate) (k k' : pystr) (a : Q) :
  k <> k' -> total_de k' (acumular agg k a) = total_de k' agg.
Proof.
  intros Hne. unfold total_de. induction agg as [|row rest IH]; simpl.
  - apply str_eqb_false in Hne. by rewrite Hne.
  - destruct (str_eqb (agg_key row) k) eqn:E; simpl.
    + apply str_eqb_true in E. rewrite E.
      apply str_eqb_false in Hne. by rewrite Hne.
    + destruct (str_eqb (agg_key row) k'); [done|apply IH].
Qed.

Lemma chaves_acumular (agg : list AdvisorAggregate) (k : pystr) (a : Q) :
  List.map agg_key (acumular agg k a)
  = if bool_decide (k ∈ List.map agg_key agg)
    then List.map agg_key agg else List.map agg_key agg ++ [k].
Proof.
  induction agg as [|row rest IH]; cbn [acumular List.map agg_key].
  - rewrite bool_decide_eq_false_2; [done|]. apply not_elem_of_nil.
  - destruct (str_eqb (agg_key row) k) eqn:E; cbn [acumular List.map agg_key].
    + apply str_eqb_true in E. rewrite E.
      by rewrite bool_decide_eq_true_2 by apply list_elem_of_here.
    + apply str_eqb_false in E. rewrite IH.
      destruct (bool_decide (k ∈ List.map agg_key rest)) eqn:D.
      * apply bool_decide_eq_true in D.
        by rewrite bool_decide_eq_true_2 by by apply list_elem_of_further.
      * apply bool_decide_eq_false in D.
        rewrite bool_decide_eq_false_2; [done|].
        rewrite elem_of_cons. intros [?|?]; by subst.
Qed.

Lemma soma_fold (ledger : list CanonicalLineItem) (agg : list AdvisorAggregate) :
  (soma_agregado (fold_left passo_agregar ledger agg)
   == soma_agregado agg + soma_ledger ledger)%Q.
Proof.
  revert agg. induction ledger as [|it rest IH]; intros agg; simpl.
  - ring.
  - rewrite IH. unfold passo_agregar. rewrite soma_acumular. ring.
Qed.

Lemma total_fold (ledger : list CanonicalLineItem) (agg : list AdvisorAggregate)
    (k : pystr) :
  (is_Some (total_de k (fold_left passo_agregar ledger agg))
   <-> is_Some (total_de k agg) \/ In k (List.map advisor_key ledger))
  /\ (valor k (fold_left passo_agregar ledger agg)
      == valor k agg + soma_ledger (linhas_de k ledger))%Q.
Proof.
  revert agg. induction ledger as [|it rest IH]; intros agg; simpl.
  - split; [tauto|]. ring.
  - destruct (IH (passo_agregar agg it)) as [IH1 IH2]. rewrite IH1, IH2.
    unfold passo_agregar, valor.
    destruct (str_eqb (advisor_key it) k) eqn:E.
    + apply str_eqb_true in E. rewrite E, total_acumular_mesmo. split.
      * split; [by auto|]. intros _. left. by eexists.
      * simpl. destruct (total_de k agg); simpl; ring.
    + apply str_eqb_false in E. rewrite total_acumular_outro by done. split.
      * split; [tauto|]. intros [H|[H|H]]; by auto.
      * ring.
Qed.

Lemma chaves_fold (ledger : list CanonicalLineItem) (agg : list AdvisorAggregate) :
  NoDup (List.map agg_key agg) ->
  NoDup (List.map agg_key (fold_left passo_agregar ledger agg)).
Proof.
  revert agg. induction ledger as [|it rest IH]; intros agg Hnd; [done|].
  simpl. apply IH. unfold passo_agregar. rewrite chaves_acumular.
  destruct (bool_decide _) eqn:D; [done|].
  apply bool_decide_eq_false in D. apply NoDup_app. split; [done|].
  split; [|apply NoDup_singleton].
  intros x Hx Hk. apply list_elem_of_singleton in Hk. by subst.
Qed.

Lemma total_de_chave (k : pystr) (agg : list AdvisorAggregate) :
  is_Some (total_de k agg) <-> In k (List.map agg_key agg).
Proof.
  unfold total_de. induction agg as [|row rest IH]; simpl.
  - split; [by intros [? ?]|done].
  - destruct (str_eqb (agg_key row) k) eqn:E.
    + apply str_eqb_true in E. split; [by left|]. intros _. by eexists.
    + apply str_eqb_false in E. rewrite IH. intuition.
Qed.

Section Conservation.
Variable raw_row : Type.
Variable normalizar : source_kind -> pystr -> raw_row -> option CanonicalLineItem.

(** C1.  Conservation: the exact sum of [amount] over the ledger equals the
    sum of [total_amount] over the aggregate; the aggregate has one row for
    each advisor of the ledger and for no one else, and the total of that row
    is the exact sum of the advisor's amounts in the ledger. *)
Theorem conservacao (competencia : pystr) (tabelas : source_kind -> list raw_row) :
  let df_final := fst (calcular_comissoes raw_row normalizar competencia tabelas) in
  let df_juntar := snd (calcular_comissoes raw_row normalizar competencia tabelas) in
  (soma_ledger df_juntar == soma_agregado df_final)%Q
  /\ NoDup (List.map agg_key df_final)
  /\ (forall k, In k (List.map agg_key df_final) <-> In k (List.map advisor_key df_juntar))
  /\ (forall k, In k (List.map advisor_key df_juntar) ->
        exists t, total_de k df_final = Some t
                  /\ (t == soma_ledger (linhas_de k df_juntar))%Q).
Proof.
  intros df_final df_juntar.
  assert (Hf : df_final = fold_left passo_agregar df_juntar []) by done.
  rewrite Hf. split; [|split; [|split]].
  - rewrite soma_fold. simpl. ring.
  - apply chaves_fold. constructor.
  - intros k. rewrite <- total_de_chave.
    destruct (total_fold df_juntar [] k) as [H _]. rewrite H.
    split; [intros [[? [=]]|?]; done|by right].
  - intros k Hk. destruct (total_fold df_juntar [] k) as [H1 H2].
    destruct (proj2 H1 (or_intror Hk)) as [t Ht]. exists t. split; [done|].
    unfold valor in H2. rewrite Ht in H2. simpl in H2. rewrite H2. ring.
Qed.

End Conservation.

(** The scenario of the specification: [pj1] credits A1 with 100.00 and
    [seguro] credits A1 with 50.005; the ledger has two rows and the aggregate
    one row, 150.005 before the rounding at emission. *)
Example cenario_da_especificacao :
  let item := fun k (a : Q) =>
    {| advisor_key := py "A1"; source_kind_of := k; amount := a;
       period := py "2025-12"; attributes := [] |} in
  let tabelas := fun k =>
    match k with
    | k_pj1 => [100%Q]
    | k_seguro => [(50005 # 1000)%Q]
    | _ => []
    end in
  let r := calcular_comissoes Q (fun k _ a => Some (item k a)) (py "2025-12") tabelas in
  snd r = [item k_pj1 100%Q; item k_seguro (50005 # 1000)%Q]
  /\ List.map agg_key (fst r) = [py "A1"]
  /\ (soma_agregado (fst r) == 150005 # 1000)%Q.
Proof. cbv zeta. split; [reflexivity|]. split; [reflexivity|]. by vm_compute. Qed.

End EngineFacts.
